(** * TrendMerch: a shallow embedding of design.py and printful_uploader.py

    The first part holds the model, module by module:

    - [Text]     Python [str] operations used by the code ([lower],
                 substring tests, the two [re.sub] calls and [strip] of
                 [slugify]);
    - [Py]       exceptions, results of fallible calls, and computations
                 that leave a trace of calls, sleeps and saved files;
    - [Trends]   [get_trending_topics];
    - [Retry]    [generate_design], the retry loop around the inference call;
    - [Float]    binary64 arithmetic, as the Standard Library specifies it;
    - [PIL]      the part of Pillow's [Image] that the code calls;
    - [Design]   [create_prompt], [resize_for_print], [remove_background],
                 [process_trend];
    - [Printful] [PrintfulUploader.create_product];
    - [Samples]  concrete collaborators for the examples.

    The second part holds the properties, and the facts on rounding that
    the bounds of [resize_for_print] rest on. *)

From Stdlib Require Import ZArith NArith List Bool Ascii String Lia.
From Stdlib Require Import SpecFloat DecimalString.
From Stdlib Require Import QArith Qpower Qround Lqa.
Close Scope Q_scope.
Import ListNotations.

Set Implicit Arguments.

(* ================================================================== *)
(** * Text: Python strings *)
(* ================================================================== *)

(** A Python [str] is a sequence of code points.  The model keeps the code
    points U+0000 .. U+00FF: a character is an [ascii] read as Latin-1, and
    the tables below are those of CPython on that range. *)
Module Text.

Open Scope string_scope.

Definition ord (c : ascii) : N := N_of_ascii c.

Definition between (lo hi : N) (c : ascii) : bool :=
  ((lo <=? ord c) && (ord c <=? hi))%N.

Definition is_code (k : N) (c : ascii) : bool := (ord c =? k)%N.

(** [str.lower] on one code point: A-Z, and the Latin-1 capitals
    U+00C0 .. U+00DE except the multiplication sign U+00D7. *)
Definition is_upper (c : ascii) : bool :=
  between 65 90 c || (between 192 222 c && negb (is_code 215 c)).

Definition lower_char (c : ascii) : ascii :=
  if is_upper c then ascii_of_N (ord c + 32) else c.

Fixpoint lower (s : string) : string :=
  match s with
  | EmptyString => EmptyString
  | String c t => String (lower_char c) (lower t)
  end.

(** [\w] of [re] on [str] patterns: alphanumeric code points and [_]. *)
Definition is_word (c : ascii) : bool :=
  between 48 57 c || between 65 90 c || is_code 95 c || between 97 122 c
  || is_code 170 c || between 178 179 c || is_code 181 c || between 185 186 c
  || between 188 190 c || between 192 214 c || between 216 246 c
  || between 248 255 c.

(** [\s] of [re] on [str] patterns: Unicode white space. *)
Definition is_space (c : ascii) : bool :=
  between 9 13 c || between 28 32 c || is_code 133 c || is_code 160 c.

Definition underscore : ascii := "_"%char.
Definition is_underscore (c : ascii) : bool := is_code 95 c.
Definition is_hyphen (c : ascii) : bool := is_code 45 c.

(** [needle in hay]. *)
Fixpoint contains (needle hay : string) : bool :=
  prefix needle hay ||
  match hay with
  | EmptyString => false
  | String _ t => contains needle t
  end.

(** [re.sub(r'[^\w\s-]', '', text)]: every character outside the class is
    deleted. *)
Definition keeps (c : ascii) : bool := is_word c || is_space c || is_hyphen c.

Fixpoint remove_other (s : string) : string :=
  match s with
  | EmptyString => EmptyString
  | String c t => if keeps c then String c (remove_other t) else remove_other t
  end.

(** [re.sub(r'[\s_-]+', '_', text)]: every maximal run of separators is
    replaced by one underscore.  [in_run] tells that the previous character
    belonged to the run being replaced. *)
Definition is_sep (c : ascii) : bool := is_space c || is_underscore c || is_hyphen c.

Fixpoint collapse_from (in_run : bool) (s : string) : string :=
  match s with
  | EmptyString => EmptyString
  | String c t =>
      if is_sep c then
        if in_run then collapse_from true t
        else String underscore (collapse_from true t)
      else String c (collapse_from false t)
  end.

Definition collapse (s : string) : string := collapse_from false s.

(** [text.strip('_')]. *)
Fixpoint lstrip (s : string) : string :=
  match s with
  | EmptyString => EmptyString
  | String c t => if is_underscore c then lstrip t else s
  end.

Fixpoint rstrip (s : string) : string :=
  match s with
  | EmptyString => EmptyString
  | String c t =>
      match rstrip t with
      | EmptyString => if is_underscore c then EmptyString else String c EmptyString
      | r => String c r
      end
  end.

Definition strip (s : string) : string := rstrip (lstrip s).

(** design.py, [slugify]. *)
Definition slugify (text : string) : string :=
  let text := lower text in
  let text := remove_other text in
  let text := collapse text in
  strip text.

(** The shape of a slug: [clean] characters separated by single
    underscores.  [after_us] tells that the previous character was an
    underscore (or that the string starts here), so that another one may
    not follow.  [slug_open] allows the string to end on an underscore,
    [slug_closed] does not. *)
Definition clean (c : ascii) : bool :=
  is_word c && negb (is_underscore c) && is_code (ord c) (lower_char c).

Fixpoint slug_open (after_us : bool) (s : string) : bool :=
  match s with
  | EmptyString => true
  | String c t =>
      if is_underscore c then negb after_us && slug_open true t
      else clean c && slug_open false t
  end.

Fixpoint slug_closed (after_us : bool) (s : string) : bool :=
  match s with
  | EmptyString => negb after_us
  | String c t =>
      if is_underscore c then negb after_us && slug_closed true t
      else clean c && slug_closed false t
  end.

End Text.

(* ================================================================== *)
(** * Py: exceptions, and computations that change the world *)
(* ================================================================== *)

Module Py.

(** An exception object: its class, what [str(e)] gives, and whether the
    class derives from [Exception], that is [isinstance(e, Exception)].
    Every class does but [KeyboardInterrupt], [SystemExit], [GeneratorExit]
    and what else derives from [BaseException] alone. *)
Record exn : Type := {
  exn_class : string;
  exn_message : string;
  is_Exception : bool
}.

Definition str (e : exn) : string := exn_message e.

Definition ZeroDivisionError : exn :=
  {| exn_class := "ZeroDivisionError"; exn_message := "division by zero";
     is_Exception := true |}.
Definition ValueError (msg : string) : exn :=
  {| exn_class := "ValueError"; exn_message := msg; is_Exception := true |}.
Definition OverflowError (msg : string) : exn :=
  {| exn_class := "OverflowError"; exn_message := msg; is_Exception := true |}.
Definition KeyError (msg : string) : exn :=
  {| exn_class := "KeyError"; exn_message := msg; is_Exception := true |}.
Definition AttributeError (msg : string) : exn :=
  {| exn_class := "AttributeError"; exn_message := msg; is_Exception := true |}.

(** Raised by Ctrl-C; it derives from [BaseException] alone. *)
Definition KeyboardInterrupt : exn :=
  {| exn_class := "KeyboardInterrupt"; exn_message := ""; is_Exception := false |}.

(** The outcome of a call: a value, or a raised exception. *)
Inductive result (A : Type) : Type :=
| Ok (a : A)
| Raise (e : exn).
Arguments Ok {A} a.
Arguments Raise {A} e.

(** What the program does to the outside, in the order it does it. *)
Inductive event (Img : Type) : Type :=
| Attempt (attempt : Z)              (* one call of the inference service *)
| Sleep (seconds : Z)                (* [time.sleep] *)
| Saved (path : string) (image : Img). (* [image.save(path)] *)
Arguments Attempt {Img} attempt.
Arguments Sleep {Img} seconds.
Arguments Saved {Img} path image.

(** A computation takes the events so far and returns its outcome with the
    events extended: a state monad over the trace, with exceptions. *)
Definition M (Img A : Type) : Type :=
  list (event Img) -> result A * list (event Img).

Definition ret {Img A} (a : A) : M Img A := fun w => (Ok a, w).

Definition raise {Img A} (e : exn) : M Img A := fun w => (Raise e, w).

Definition bind {Img A B} (m : M Img A) (k : A -> M Img B) : M Img B :=
  fun w =>
    match m w with
    | (Ok a, w') => k a w'
    | (Raise e, w') => (Raise e, w')
    end.

(** [try: m except Exception as e: handler(e)]; what [m] did before it
    raised stays done, and an exception that is not an [Exception] goes
    through. *)
Definition try_except {Img A} (m : M Img A) (handler : exn -> M Img A) : M Img A :=
  fun w =>
    match m w with
    | (Ok a, w') => (Ok a, w')
    | (Raise e, w') => if is_Exception e then handler e w' else (Raise e, w')
    end.

Definition lift {Img A} (r : result A) : M Img A := fun w => (r, w).

Definition emit {Img} (ev : event Img) : M Img unit :=
  fun w => (Ok tt, w ++ [ev]).

Definition sleep {Img} (seconds : Z) : M Img unit := emit (Sleep seconds).

(** [range(n)]. *)
Definition range (n : Z) : list Z := map Z.of_nat (seq 0 (Z.to_nat n)).

(** Sequencing of calls that may raise and change nothing. *)
Definition and_then {A B} (r : result A) (k : A -> result B) : result B :=
  match r with
  | Ok a => k a
  | Raise e => Raise e
  end.

End Py.

Notation "'let!' x ':=' r 'in' k" := (Py.and_then r (fun x => k))
  (at level 10, x name, r at level 100, k at level 200).

Declare Scope py_scope.
Delimit Scope py_scope with py.
Notation "x <- m ;; k" := (Py.bind m (fun x => k))
  (at level 61, m at next level, right associativity) : py_scope.
Notation "m ;;; k" := (Py.bind m (fun _ => k))
  (at level 61, right associativity) : py_scope.

(* ================================================================== *)
(** * Trends: get_trending_topics *)
(* ================================================================== *)

Module Trends.
Import Py.
Open Scope string_scope.
Open Scope Z_scope.

(** One entry of the returned list: [{"query": t, "value": v}]. *)
Record trend : Type := { query : string; value : Z }.

(** A pandas data frame, as far as the code looks at it: columns of
    strings, named by an integer or by a string. *)
Inductive label : Type := Index (i : Z) | Name (s : string).

Definition label_eqb (a b : label) : bool :=
  match a, b with
  | Index i, Index j => i =? j
  | Name s, Name t => String.eqb s t
  | _, _ => false
  end.

Definition frame : Type := list (label * list string).

(** [df.empty]: no column, or no row. *)
Definition empty (df : frame) : bool :=
  match df with
  | [] => true
  | (_, rows) :: _ => match rows with [] => true | _ => false end
  end.

(** [df[key]]: [KeyError] when there is no such column. *)
Fixpoint column (df : frame) (key : label) : result (list string) :=
  match df with
  | [] => Raise (KeyError "column")
  | (l, rows) :: rest => if label_eqb l key then Ok rows else column rest key
  end.

(** [series.head(n)]: the first [n] rows, or all but the last [-n]. *)
Definition head (rows : list string) (n : Z) : list string :=
  if 0 <=? n then firstn (Z.to_nat n) rows
  else firstn (List.length rows - Z.to_nat (- n)) rows.

(** The pytrends client: building it ([TrendReq(...)]) and its two calls. *)
Record pytrends : Type := {
  TrendReq : result unit;
  trending_searches : string -> result frame;          (* pn=... *)
  realtime_trending_searches : string -> result frame  (* pn=... *)
}.

(** [[{"query": t, "value": 100 - i*step} for i, t in enumerate(topics)]]. *)
Fixpoint ranked_from (i : Z) (step : Z) (topics : list string) : list trend :=
  match topics with
  | [] => []
  | t :: rest =>
      {| query := t; value := 100 - i * step |} :: ranked_from (i + 1) step rest
  end.

Definition ranked (step : Z) (topics : list string) : list trend :=
  ranked_from 0 step topics.

Definition fallback : list string :=
  [ "AI Generated Art"; "Viral Memes 2024"; "Trending Now"; "Just Vibing"; "No Cap" ].

(** The body of the [try]: [Some l] is [return l] inside it, [None] is
    leaving the [try] without returning. *)
Definition fetch (py : pytrends) (region : string) (limit : Z)
  : result (option (list trend)) :=
  match trending_searches py (Text.lower region) with
  | Raise e => Raise e
  | Ok trending =>
      if empty trending then
        match realtime_trending_searches py region with
        | Raise e => Raise e
        | Ok trending =>
            if negb (empty trending) then
              match column trending (Name "title") with
              | Raise e => Raise e
              | Ok titles => Ok (Some (ranked 5 (head titles limit)))
              end
            else Ok None
        end
      else
        match column trending (Index 0) with
        | Raise e => Raise e
        | Ok col => Ok (Some (ranked 5 (head col limit)))
        end
  end.

(** design.py, [get_trending_topics].  The client is built before the
    [try], so an exception of [TrendReq] is not caught; the handler is
    [except Exception]. *)
Definition get_trending_topics (py : pytrends)
    (region timeframe : string) (limit : Z) : result (list trend) :=
  match TrendReq py with
  | Raise e => Raise e
  | Ok _ =>
      match fetch py region limit with
      | Ok (Some topics) => Ok topics
      | Ok None => Ok []
      | Raise e => if is_Exception e then Ok (ranked 10 fallback) else Raise e
      end
  end.

(** A client whose every call fails with a network error. *)
Definition offline : pytrends :=
  let err := {| exn_class := "ConnectionError";
                exn_message := "network is unreachable";
                is_Exception := true |} in
  {| TrendReq := Ok tt;
     trending_searches := fun _ => Raise err;
     realtime_trending_searches := fun _ => Raise err |}.

(** A client that cannot even be built: [TrendReq(...)] asks Google for a
    cookie, and the network is down. *)
Definition unreachable : pytrends :=
  let err := {| exn_class := "ConnectionError";
                exn_message := "network is unreachable";
                is_Exception := true |} in
  {| TrendReq := Raise err;
     trending_searches := fun _ => Raise err;
     realtime_trending_searches := fun _ => Raise err |}.

(** A client whose first call is interrupted from the keyboard. *)
Definition interrupted : pytrends :=
  {| TrendReq := Ok tt;
     trending_searches := fun _ => Raise KeyboardInterrupt;
     realtime_trending_searches := fun _ => Ok [] |}.

End Trends.

(* ================================================================== *)
(** * Retry: generate_design *)
(* ================================================================== *)

Module Retry.
Import Py.
Open Scope string_scope.
Open Scope Z_scope.
Open Scope py_scope.

(** The branches of the [if]/[elif] chain on [error_msg = str(e)], tested
    in the order of the source: the first test that holds decides. *)
Inductive error_class : Type :=
| ServiceUnavailable    (* "503" or "Service Unavailable" *)
| RateLimited           (* "429" or "rate limit", any case *)
| Unauthorized          (* "401" or "unauthorized", any case *)
| Other.

Definition classify (error_msg : string) : error_class :=
  if Text.contains "503" error_msg || Text.contains "Service Unavailable" error_msg
  then ServiceUnavailable
  else if Text.contains "429" error_msg
          || Text.contains "rate limit" (Text.lower error_msg)
  then RateLimited
  else if Text.contains "401" error_msg
          || Text.contains "unauthorized" (Text.lower error_msg)
  then Unauthorized
  else Other.

Section Generate.

Variable Img : Type.

(** The inference service: what [client.text_to_image(prompt, model=HF_MODEL)]
    does on a given attempt, for the client built from the token.  Building
    the client, before the loop, only stores the token. *)
Variable service : option string -> string -> Z -> result Img.

(** [InferenceClient(token=hf_token) if hf_token else InferenceClient()]:
    an empty token counts as none. *)
Definition client_token (hf_token : option string) : option string :=
  match hf_token with
  | Some EmptyString => None
  | t => t
  end.

Definition text_to_image (hf_token : option string) (prompt : string)
    (attempt : Z) : M Img Img :=
  emit (Attempt attempt) ;;; lift (service (client_token hf_token) prompt attempt).

(** One turn of the loop.  [Some r]: the function returns [r];
    [None]: the loop goes on. *)
Definition attempt_once (hf_token : option string) (prompt : string)
    (retries attempt : Z) : M Img (option (option Img)) :=
  try_except
    (image <- text_to_image hf_token prompt attempt ;;
     ret (Some (Some image)))
    (fun e =>
       let error_msg := str e in
       match classify error_msg with
       | ServiceUnavailable =>
           let wait_time := 60 * (attempt + 1) in
           sleep wait_time ;;; ret None
       | RateLimited =>
           let wait_time := 60 in
           sleep wait_time ;;; ret None
       | Unauthorized => ret (Some None)
       | Other =>
           if attempt <? retries - 1 then sleep 10 ;;; ret None
           else ret None
       end).

Fixpoint attempts (hf_token : option string) (prompt : string)
    (retries : Z) (todo : list Z) : M Img (option Img) :=
  match todo with
  | [] => ret None
  | attempt :: rest =>
      r <- attempt_once hf_token prompt retries attempt ;;
      match r with
      | Some out => ret out
      | None => attempts hf_token prompt retries rest
      end
  end.

(** design.py, [generate_design]: [None] is the failure signal. *)
Definition generate_design (prompt : string) (hf_token : option string)
    (retries : Z) : M Img (option Img) :=
  attempts hf_token prompt retries (range retries).

(** What the specification says of one failed attempt, in its own words:
    attempts are counted from 1; a 503-class failure on attempt [n] waits
    [60 * n] seconds, a rate-limit failure waits 60 seconds, any other
    failure that is retried waits 10 seconds if attempts remain. *)
Definition spec_wait (retries n : Z) (c : error_class) : list (event Img) :=
  match c with
  | ServiceUnavailable => [Sleep (60 * n)]
  | RateLimited => [Sleep 60]
  | Unauthorized => []
  | Other => if n <? retries then [Sleep 10] else []
  end.

(** The class of the failure of attempt [n] (counted from 1), if it failed
    with an exception that the handler catches. *)
Definition failure (hf_token : option string) (prompt : string) (n : Z)
  : option error_class :=
  match service (client_token hf_token) prompt (n - 1) with
  | Ok _ => None
  | Raise e => if is_Exception e then Some (classify (str e)) else None
  end.

(** Attempt [n], counted from 1, failed and is not an authentication
    failure: the loop goes on. *)
Definition retried (hf_token : option string) (prompt : string) (n : Z) : Prop :=
  exists c, failure hf_token prompt n = Some c /\ c <> Unauthorized.

(** The trace of attempts [first], [first + 1], ... [first + count - 1]
    (counted from 1) when each of them fails and is retried. *)
Fixpoint spec_trace (hf_token : option string) (prompt : string)
    (retries first : Z) (count : nat) : list (event Img) :=
  match count with
  | O => []
  | S count' =>
      (Attempt (first - 1) ::
       match failure hf_token prompt first with
       | Some c => spec_wait retries first c
       | None => []
       end)
      ++ spec_trace hf_token prompt retries (first + 1) count'
  end.

End Generate.

(** Services for examples; the image is a number.  [busy] is rate
    limited, then unavailable, then fails in an unknown way; [locked]
    is unavailable once and then rejects the token; [expired] rejects the
    token every time, with a request id that happens to hold the digits
    503. *)
Definition error (msg : string) : exn :=
  {| exn_class := "HfHubHTTPError"; exn_message := msg; is_Exception := true |}.

Definition busy (token : option string) (prompt : string) (attempt : Z)
  : result nat :=
  if attempt =? 0 then Raise (error "429 Client Error: Too Many Requests")
  else if attempt =? 1 then Raise (error "503 Server Error: Service Unavailable")
  else if attempt =? 2 then Raise (error "Connection reset by peer")
  else Ok 7%nat.

Definition locked (token : option string) (prompt : string) (attempt : Z)
  : result nat :=
  if attempt =? 0 then Raise (error "Model is loading: 503")
  else Raise (error "401 Client Error: Unauthorized").

Definition expired_message : string :=
  "401 Client Error: Unauthorized for url: https://api-inference.huggingface.co/models/black-forest-labs/FLUX.1-schnell (Request ID: Root=1-66d5037a-1c2f4b6e5a7d8c9e0f1a2b3c)".

Definition expired (token : option string) (prompt : string) (attempt : Z)
  : result nat :=
  Raise (error expired_message).

End Retry.

(* ================================================================== *)
(** * Float: Python floats *)
(* ================================================================== *)

(** A Python [float] is an IEEE 754 binary64 number.  Its operations are
    those of the Standard Library's [SpecFloat] at precision 53: the exact
    result rounded to nearest, ties to even. *)
Module Float.
Import Py.
Open Scope string_scope.
Open Scope Z_scope.

Definition prec : Z := 53.
Definition emax : Z := 1024.

Definition float : Type := spec_float.

(** [float(z)]; exact when [|z| < 2^53]. *)
Definition of_int (z : Z) : float := binary_normalize prec emax z 0 false.

Definition is_zero (x : float) : bool :=
  match x with S754_zero _ => true | _ => false end.

(** [a / b] on two ints ([|a|], [|b|] below [2^53], as image sizes are). *)
Definition int_truediv (a b : Z) : result float :=
  if b =? 0 then Raise ZeroDivisionError
  else Ok (SFdiv prec emax (of_int a) (of_int b)).

(** [x / y] on floats. *)
Definition truediv (x y : float) : result float :=
  if is_zero y then Raise ZeroDivisionError
  else Ok (SFdiv prec emax x y).

(** [x * y] on floats. *)
Definition mul (x y : float) : float := SFmul prec emax x y.

(** [x > y]. *)
Definition gt (x y : float) : bool := SFltb y x.

(** [int(x)]: the integer part, rounding toward zero. *)
Definition magnitude (m : positive) (e : Z) : Z :=
  if 0 <=? e then Z.pos m * 2 ^ e else Z.pos m / 2 ^ (- e).

Definition int (x : float) : result Z :=
  match x with
  | S754_zero _ => Ok 0
  | S754_finite s m e => Ok (if s then - magnitude m e else magnitude m e)
  | S754_infinity _ => Raise (OverflowError "cannot convert float infinity to integer")
  | S754_nan => Raise (ValueError "cannot convert float NaN to integer")
  end.

(** The exact rational value of a float, and what the proofs say of it. *)
Definition pow2 (e : Z) : Q := (2 ^ e)%Q.

Definition value (x : float) : Q :=
  match x with
  | S754_finite s m e =>
      ((if s then (-1) else 1) * inject_Z (Z.pos m) * pow2 e)%Q
  | _ => 0%Q
  end.

(** A positive normal number with exponent between [lo] and [hi]. *)
Definition normal (x : float) (lo hi : Z) : Prop :=
  exists (m : positive) (e : Z),
    x = S754_finite false m e /\ Z.pos (digits2_pos m) = 53 /\ lo <= e <= hi.

(** [x] is the positive exact value [V] rounded to 53 bits: a normal
    number on the grid of spacing [2 ^ e1], with [lo <= e1 < hi], that
    lies on the same side of every grid point as [V]. *)
Definition rounded (V : Q) (x : float) (lo hi : Z) : Prop :=
  exists (m : positive) (e e1 : Z),
    x = S754_finite false m e
    /\ Z.pos (digits2_pos m) = 53
    /\ lo <= e1 /\ e1 <= e <= e1 + 1 /\ e1 + 1 <= hi
    /\ (pow2 (52 + e1) <= V)%Q
    /\ (forall z, (V <= inject_Z z * pow2 e1)%Q -> (value x <= inject_Z z * pow2 e1)%Q)
    /\ (forall z, (inject_Z z * pow2 e1 <= V)%Q -> (inject_Z z * pow2 e1 <= value x)%Q).

(** The rounding of [SpecFloat] shifts a mantissa to the right and keeps
    track of the bits it drops.  The record [x] stands for the fraction
    [N / D]: its mantissa is the integer part, and it is marked inexact
    when there is a rest. *)
Definition inexact (x : shr_record) : bool := shr_r x || shr_s x.

Definition approx (x : shr_record) (N D : Z) : Prop :=
  0 <= shr_m x /\
  shr_m x * D <= N < (shr_m x + 1) * D /\
  (inexact x = false -> N = shr_m x * D) /\
  (inexact x = true -> shr_m x * D < N).

Definition is_exact (l : location) : bool :=
  match l with loc_Exact => true | _ => false end.

End Float.

(* ================================================================== *)
(** * PIL: the part of Pillow's Image the code calls *)
(* ================================================================== *)

Module PIL.
Import Py.
Open Scope string_scope.
Open Scope Z_scope.

Inductive color_mode : Type := RGB | RGBA | OtherMode (name : string).

Definition is_RGBA (m : color_mode) : bool :=
  match m with RGBA => true | _ => false end.

Record pixel : Type := { red : Z; green : Z; blue : Z; alpha : Z }.

(** [(0, 0, 0, 0)]. *)
Definition transparent : pixel := {| red := 0; green := 0; blue := 0; alpha := 0 |}.

(** A bitmap: its size, its mode and its pixel buffer, read at column [x]
    and row [y]. *)
Record image : Type := {
  width : Z;
  height : Z;
  mode : color_mode;
  pixel_at : Z -> Z -> pixel
}.

(** The pixel arithmetic of Pillow's C core, which the model leaves open:
    the resampling filter, the blending of a pasted pixel under a mask
    value, and the conversion of a pixel between modes. *)
Record core : Type := {
  resample : image -> Z -> Z -> Z -> Z -> pixel;
  blend : pixel -> pixel -> Z -> pixel;
  convert_pixel : color_mode -> color_mode -> pixel -> pixel
}.

Section Image.

Variable c : core.

(** [Image.new(mode, (w, h), color)]. *)
Definition new (m : color_mode) (w h : Z) (color : pixel) : result image :=
  if (w <? 0) || (h <? 0) then Raise (ValueError "Width and height must be >= 0")
  else Ok {| width := w; height := h; mode := m; pixel_at := fun _ _ => color |}.

(** [im.resize((w, h), resample)]: a copy when the size does not change;
    otherwise the core resamples, and refuses a size below 1. *)
Definition resize (im : image) (w h : Z) : result image :=
  if (width im =? w) && (height im =? h) then Ok im
  else if (w <? 1) || (h <? 1) then Raise (ValueError "height and width must be > 0")
  else Ok {| width := w; height := h; mode := mode im;
             pixel_at := resample c im w h |}.

(** [im.convert(m)]. *)
Definition convert (im : image) (m : color_mode) : image :=
  {| width := width im; height := height im; mode := m;
     pixel_at := fun x y => convert_pixel c (mode im) m (pixel_at im x y) |}.

(** The box that [paste] writes, given the corner and the pasted image. *)
Definition in_box (x y : Z) (im : image) (i j : Z) : bool :=
  (x <=? i) && (i <? x + width im) && (y <=? j) && (j <? y + height im).

(** [canvas.paste(im, (x, y))] and [canvas.paste(im, (x, y), mask)]: the
    canvas after the call.  Pixels outside the box are not written. *)
Definition paste (canvas im : image) (x y : Z) (mask : option image) : image :=
  {| width := width canvas; height := height canvas; mode := mode canvas;
     pixel_at := fun i j =>
       if in_box x y im i j then
         let src := convert_pixel c (mode im) (mode canvas)
                      (pixel_at im (i - x) (j - y)) in
         match mask with
         | Some m => blend c (pixel_at canvas i j) src
                       (alpha (pixel_at m (i - x) (j - y)))
         | None => src
         end
       else pixel_at canvas i j |}.

End Image.

End PIL.

(* ================================================================== *)
(** * Design: prompt, resize, background removal, the pipeline *)
(* ================================================================== *)

Module Design.
Import Py.
Open Scope string_scope.
Open Scope Z_scope.

Definition TSHIRT_WIDTH : Z := 4500.
Definition TSHIRT_HEIGHT : Z := 5400.

Definition OUTPUT_DIR : string := "output".

Definition DEFAULT_STYLE : string := "vaporwave".

(** [STYLE_PRESETS]: each template is kept as the text before and the text
    after its one placeholder [{trend}]. *)
Definition STYLE_PRESETS : list (string * (string * string)) :=
  [ ("vaporwave",
     ("A retro vaporwave t-shirt vector design featuring the text '",
      "' in bold typography, vibrant neon pink and cyan colors, black background, high contrast, 80s aesthetic"));
    ("minimalist",
     ("A minimalist t-shirt design with the text '",
      "' in clean sans-serif typography, black text on white background, simple and elegant"));
    ("graffiti",
     ("A graffiti street art style t-shirt design featuring the text '",
      "' in bold spray paint letters, urban aesthetic, colorful drips, black background"));
    ("vintage",
     ("A vintage distressed t-shirt design with the text '",
      "' in retro typography, worn texture, cream and brown tones, classic americana style"));
    ("neon",
     ("A neon glow t-shirt design featuring the text '",
      "' in bright glowing letters, cyberpunk style, dark background, electric colors"));
    ("cartoon",
     ("A fun cartoon style t-shirt design with the text '",
      "' in playful bubble letters, bright colors, cute aesthetic, white background"));
    ("gothic",
     ("A gothic dark aesthetic t-shirt design featuring the text '",
      "' in ornate blackletter typography, dark colors, mysterious vibe"));
    ("sports",
     ("A bold sports team style t-shirt design with the text '",
      "' in athletic block letters, dynamic angles, team jersey aesthetic")) ].

Fixpoint preset (style : string) (table : list (string * (string * string)))
  : option (string * string) :=
  match table with
  | [] => None
  | (name, template) :: rest =>
      if String.eqb name style then Some template else preset style rest
  end.

(** What the pipeline calls outside of the repository and of Pillow. *)
Record env : Type := {
  (* [client.text_to_image], per token, prompt and attempt *)
  service : option string -> string -> Z -> result PIL.image;
  (* [style.format(trend=trend)] on a style that is not a preset *)
  format_style : string -> string -> result string;
  (* [image.save(buffer, format='PNG')] and [Image.open(buffer)] *)
  encode_png : PIL.image -> result string;
  decode_png : string -> result PIL.image;
  (* rembg's [remove] *)
  remove : string -> result string;
  (* [datetime.now().strftime("%Y%m%d_%H%M%S")] *)
  timestamp : string;
  (* whether [image.save(output_path, 'PNG', optimize=True)] raises *)
  write_png : string -> PIL.image -> result unit
}.

Section Pipeline.

Variable core : PIL.core.
Variable world : env.

(** design.py, [create_prompt]. *)
Definition create_prompt (trend style : string) : result string :=
  let! prompt :=
    match preset style STYLE_PRESETS with
    | Some (before, after) => Ok (before ++ trend ++ after)
    | None =>
        if Text.contains "{trend}" style then format_style world style trend
        else Ok (style ++ " with text '" ++ trend ++ "'")
    end in
  Ok (prompt ++ ", high quality, vector art, print ready, centered composition").

(** The size of the scaled image in [resize_for_print]:
    [(new_width, new_height)]. *)
Definition scaled_size (image_width image_height width height : Z)
  : result (Z * Z) :=
  let! img_ratio := Float.int_truediv image_width image_height in
  let! target_ratio := Float.int_truediv width height in
  if Float.gt img_ratio target_ratio then
    let new_width := width in
    let! quotient := Float.truediv (Float.of_int width) img_ratio in
    let! new_height := Float.int quotient in
    Ok (new_width, new_height)
  else
    let new_height := height in
    let! new_width := Float.int (Float.mul (Float.of_int height) img_ratio) in
    Ok (new_width, new_height).

(** The size that the specification describes, in its own words: the
    same ratios and the same test, but the quotient and the product
    rounded to the nearest integer ([round], ties to even). *)
Definition nearest_integer (v : Q) : Z :=
  let f := Qfloor v in
  match Qcompare (v - inject_Z f) (1 # 2) with
  | Lt => f
  | Gt => f + 1
  | Eq => if Z.even f then f else f + 1
  end.

Definition spec_scaled_size (image_width image_height width height : Z)
  : result (Z * Z) :=
  let! source_ratio := Float.int_truediv image_width image_height in
  let! target_ratio := Float.int_truediv width height in
  if Float.gt source_ratio target_ratio then
    let! quotient := Float.truediv (Float.of_int width) source_ratio in
    Ok (width, nearest_integer (Float.value quotient))
  else
    Ok (nearest_integer
          (Float.value (Float.mul (Float.of_int height) source_ratio)),
        height).

(** The corner where the scaled image is pasted: [(x, y)]. *)
Definition paste_offset (width height new_width new_height : Z) : Z * Z :=
  ((width - new_width) / 2, (height - new_height) / 2).

(** design.py, [resize_for_print]. *)
Definition resize_for_print (image : PIL.image) (width height : Z)
  : result PIL.image :=
  let! size := scaled_size (PIL.width image) (PIL.height image) width height in
  let '(new_width, new_height) := size in
  let! resized := PIL.resize core image new_width new_height in
  let! canvas := PIL.new PIL.RGBA width height PIL.transparent in
  let '(x, y) := paste_offset width height new_width new_height in
  if PIL.is_RGBA (PIL.mode resized) then
    Ok (PIL.paste core canvas resized x y (Some resized))
  else
    Ok (PIL.paste core canvas resized x y None).

(** design.py, [remove_background]. *)
Definition remove_background (image : PIL.image) : result PIL.image :=
  let! img_bytes := encode_png world image in
  let! result_bytes := remove world img_bytes in
  decode_png world result_bytes.

(** [image.save(output_path, 'PNG', optimize=True)]. *)
Definition save (output_path : string) (image : PIL.image) : M PIL.image unit :=
  bind (lift (write_png world output_path image))
       (fun _ => emit (Saved output_path image)).

(** The post-processing steps of [process_trend], one by one. *)
Definition post_remove_bg (remove_bg : bool) (image : PIL.image)
  : M PIL.image PIL.image :=
  if remove_bg then
    try_except (lift (remove_background image))
               (fun e => ret image)      (* continue with original image *)
  else ret image.

(** [if image.mode != 'RGBA': image = image.convert('RGBA')]. *)
Definition as_rgba (image : PIL.image) : PIL.image :=
  if negb (PIL.is_RGBA (PIL.mode image)) then PIL.convert core image PIL.RGBA
  else image.

Definition post_resize (resize : bool) (image : PIL.image)
  : M PIL.image PIL.image :=
  if resize then
    let image := as_rgba image in
    lift (resize_for_print image TSHIRT_WIDTH TSHIRT_HEIGHT)
  else ret image.

Definition output_path_of (trend : string) : string :=
  let slug := Text.slugify trend in
  let filename := slug ++ "_" ++ timestamp world ++ ".png" in
  OUTPUT_DIR ++ "/" ++ filename.

Definition save_design (trend : string) (image : PIL.image)
  : M PIL.image (option string) :=
  let output_path := output_path_of trend in
  (save output_path image ;;;
   ret (Some output_path))%py.

(** design.py, [process_trend]. *)
Definition process_trend (trend style : string) (remove_bg resize : bool)
    (hf_token : option string) : M PIL.image (option string) :=
  (prompt <- lift (create_prompt trend style) ;;
   image <- Retry.generate_design (service world) prompt hf_token 3 ;;
   match image with
   | None => ret None
   | Some image =>
       image <- post_remove_bg remove_bg image ;;
       image <- post_resize resize image ;;
       save_design trend image
   end)%py.

End Pipeline.

End Design.

(* ================================================================== *)
(** * Printful: PrintfulUploader.create_product *)
(* ================================================================== *)

Module Printful.
Import Py.
Open Scope string_scope.
Open Scope Z_scope.

(** JSON values, as [requests] sends and returns them.  A dict keeps its
    entries in insertion order. *)
#[local] Unset Elimination Schemes.
Inductive json : Type :=
| JNone
| JBool (b : bool)
| JInt (z : Z)
| JStr (s : string)
| JList (items : list json)
| JDict (entries : list (string * json)).
#[local] Set Elimination Schemes.

(** Python's truth value. *)
Definition truthy (v : json) : bool :=
  match v with
  | JNone => false
  | JBool b => b
  | JInt z => negb (z =? 0)
  | JStr s => negb (String.eqb s "")
  | JList items => match items with [] => false | _ => true end
  | JDict entries => match entries with [] => false | _ => true end
  end.

Fixpoint lookup {V : Type} (key : string) (entries : list (string * V)) : option V :=
  match entries with
  | [] => None
  | (k, v) :: rest => if String.eqb k key then Some v else lookup key rest
  end.

(** [type(v).__name__]. *)
Definition type_name (v : json) : string :=
  match v with
  | JNone => "NoneType"
  | JBool _ => "bool"
  | JInt _ => "int"
  | JStr _ => "str"
  | JList _ => "list"
  | JDict _ => "dict"
  end.

(** [d.get(key, default)]; [d] has to be a dict. *)
Definition get (d : json) (key : string) (default : json) : result json :=
  match d with
  | JDict entries =>
      Ok match lookup key entries with Some v => v | None => default end
  | _ => Raise (AttributeError
                  ("'" ++ type_name d ++ "' object has no attribute 'get'"))
  end.

(** [a or b]. *)
Definition or_else (a b : json) : json := if truthy a then a else b.

Definition BASE_URL : string := "https://api.printful.com".

Definition PRODUCTS : list (string * Z) :=
  [ ("unisex_tshirt", 71); ("premium_tshirt", 380); ("womens_tshirt", 75);
    ("mens_tshirt", 586); ("hoodie", 146); ("sweatshirt", 147) ].

Definition VARIANTS : list (string * list (string * Z)) :=
  [ ("unisex_tshirt",
     [ ("S_Black", 4012); ("M_Black", 4013); ("L_Black", 4014); ("XL_Black", 4015);
       ("S_White", 4017); ("M_White", 4018); ("L_White", 4019); ("XL_White", 4020);
       ("S_Navy", 4022); ("M_Navy", 4023); ("L_Navy", 4024); ("XL_Navy", 4025) ]) ].

(** [table.get(key, table["unisex_tshirt"])]: the default is evaluated
    first, and raises when the table has no such entry. *)
Definition get_or_unisex {V : Type} (table : list (string * V)) (key : string)
  : result V :=
  match lookup "unisex_tshirt" table with
  | None => Raise (KeyError "unisex_tshirt")
  | Some default =>
      Ok match lookup key table with Some v => v | None => default end
  end.

(** One request, as it leaves the process. *)
Record request : Type := {
  req_method : string;
  req_url : string;
  req_headers : list (string * string);
  req_json : option json
}.

(** The uploader object: its headers, and the requests it has sent. *)
Record uploader : Type := {
  api_key : string;
  headers : list (string * string);
  sent : list request
}.

(** What the uploader calls outside: the HTTP exchange (the decoded JSON
    body, or the exception of [requests]), the file system, base64, and
    [str] on a float. *)
Record env : Type := {
  http : request -> result json;
  read_bytes : string -> result string;
  b64encode : string -> string;
  basename : string -> string;
  str_float : Float.float -> string
}.

(** [headers[key] = value]. *)
Fixpoint set_item (key value : string) (d : list (string * string))
  : list (string * string) :=
  match d with
  | [] => [(key, value)]
  | (k, v) :: rest =>
      if String.eqb k key then (k, value) :: rest
      else (k, v) :: set_item key value rest
  end.

(** [str(z)] on an int. *)
Definition str_int (z : Z) : string := NilZero.string_of_int (Z.to_int z).

Section Uploader.

Variable world : env.

(** A method of the uploader: it returns or raises, and leaves the object
    changed. *)
Definition U (A : Type) : Type := uploader -> result A * uploader.

Definition upper_is (method name : string) : bool :=
  String.eqb (Text.lower method) (Text.lower name).

(** [PrintfulUploader._request]. *)
Definition _request (method endpoint : string) (data : option json) : U json :=
  fun self =>
    let url := BASE_URL ++ endpoint in
    let send (body : option json) :=
      let r := {| req_method := method; req_url := url;
                  req_headers := headers self; req_json := body |} in
      (http world r,
       {| api_key := api_key self; headers := headers self;
          sent := sent self ++ [r] |}) in
    if upper_is method "GET" then send None
    else if upper_is method "POST" then send data
    else if upper_is method "PUT" then send data
    else (Raise (ValueError ("Unknown method: " ++ method)), self).

(** [PrintfulUploader.upload_file]. *)
Definition upload_file (file_path : string) : U json :=
  fun self =>
    match read_bytes world file_path with
    | Raise e => (Raise e, self)
    | Ok contents =>
        let file_data := b64encode world contents in
        let filename := basename world file_path in
        let data := JDict [ ("type", JStr "default");
                            ("filename", JStr filename);
                            ("contents", JStr file_data) ] in
        match _request "POST" "/files" (Some data) self with
        | (Raise e, self) => (Raise e, self)
        | (Ok result, self) => (get result "result" (JDict []), self)
        end
    end.

(** The fixed placement of the design on the front of the garment. *)
Definition position : json :=
  JDict [ ("area_width", JInt 1800); ("area_height", JInt 2400);
          ("width", JInt 1800); ("height", JInt 2400);
          ("top", JInt 0); ("left", JInt 0) ].

(** The body of the loop that builds [sync_variants]. *)
Definition sync_variant (file_id : json) (price : Float.float)
    (variant : string * Z) : json :=
  let '(variant_name, variant_id) := variant in
  JDict [ ("variant_id", JInt variant_id);
          ("files", JList [ JDict [ ("type", JStr "front");
                                    ("id", file_id);
                                    ("position", position) ] ]);
          ("retail_price", JStr (str_float world price)) ].

(** [for variant_name, variant_id in list(variants.items())[:8]: ...]. *)
Definition build_sync_variants (variants : list (string * Z)) (file_id : json)
    (price : Float.float) : list json :=
  map (sync_variant file_id price) (firstn 8 variants).

(** [PrintfulUploader.create_product], over given class tables. *)
Definition create_product_with
    (products : list (string * Z)) (variant_table : list (string * list (string * Z)))
    (design_file title : string) (description : option string)
    (product_type : string) (store_id : option Z) (price : Float.float) : U json :=
  fun self =>
    match upload_file design_file self with
    | (Raise e, self) => (Raise e, self)
    | (Ok file_info, self) =>
        match get file_info "preview_url" JNone, get file_info "url" JNone,
              get file_info "id" JNone with
        | Ok preview_url, Ok url, Ok file_id =>
            let file_url := or_else preview_url url in
            if negb (truthy file_url) then
              (Raise (ValueError "Failed to get file URL from Printful"), self)
            else
              match get_or_unisex products product_type,
                    get_or_unisex variant_table product_type with
              | Ok product_id, Ok variants =>
                  let sync_variants := build_sync_variants variants file_id price in
                  let product_data :=
                    JDict [ ("sync_product",
                             JDict [ ("name", JStr title); ("thumbnail", file_url) ]);
                            ("sync_variants", JList sync_variants) ] in
                  let endpoint := "/store/products" in
                  let self :=
                    match store_id with
                    | Some id =>
                        if negb (id =? 0) then
                          {| api_key := api_key self;
                             headers := set_item "X-PF-Store-Id" (str_int id) (headers self);
                             sent := sent self |}
                        else self
                    | None => self
                    end in
                  match _request "POST" endpoint (Some product_data) self with
                  | (Raise e, self) => (Raise e, self)
                  | (Ok result, self) => (get result "result" (JDict []), self)
                  end
              | Raise e, _ => (Raise e, self)
              | _, Raise e => (Raise e, self)
              end
        | Raise e, _, _ => (Raise e, self)
        | _, Raise e, _ => (Raise e, self)
        | _, _, Raise e => (Raise e, self)
        end
    end.

(** [PrintfulUploader.create_product]. *)
Definition create_product := create_product_with PRODUCTS VARIANTS.

(** The [sync_variants] lists of the product-creation payloads among
    requests. *)
Definition sync_variants_of (r : request) : option (list json) :=
  match req_json r with
  | Some (JDict entries) =>
      match lookup "sync_variants" entries with
      | Some (JList items) => Some items
      | _ => None
      end
  | _ => None
  end.

End Uploader.

(** A request whose payload, if it is a product, lists at most 8 variants. *)
Definition at_most_8 (r : request) : Prop :=
  forall items, sync_variants_of r = Some items -> (List.length items <= 8)%nat.

End Printful.

(* ================================================================== *)
(** * Samples: concrete collaborators for the examples *)
(* ================================================================== *)

Module Samples.
Import Py.
Open Scope string_scope.
Open Scope Z_scope.

(** A core that resamples by nearest neighbour, pastes a source pixel
    wherever the mask is not zero, and adds an opaque alpha band. *)
Definition nearest : PIL.core :=
  {| PIL.resample := fun im w h x y =>
       PIL.pixel_at im (x * PIL.width im / w) (y * PIL.height im / h);
     PIL.blend := fun dst src mask => if mask =? 0 then dst else src;
     PIL.convert_pixel := fun from to p =>
       match from, to with
       | PIL.RGB, PIL.RGBA =>
           {| PIL.red := PIL.red p; PIL.green := PIL.green p;
              PIL.blue := PIL.blue p; PIL.alpha := 255 |}
       | _, _ => p
       end |}.

Definition magenta : PIL.pixel :=
  {| PIL.red := 255; PIL.green := 0; PIL.blue := 255; PIL.alpha := 255 |}.

(** An RGB image of one colour. *)
Definition solid (w h : Z) : PIL.image :=
  {| PIL.width := w; PIL.height := h; PIL.mode := PIL.RGB;
     PIL.pixel_at := fun _ _ => magenta |}.

(** A world where the service answers at once with a 1024 x 1024 image,
    background removal fails, and the disk accepts every file. *)
Definition studio : Design.env :=
  {| Design.service := fun _ _ _ => Ok (solid 1024 1024);
     Design.format_style := fun style trend => Ok style;
     Design.encode_png := fun _ => Ok "PNG";
     Design.decode_png := fun _ => Ok (solid 1 1);
     Design.remove := fun _ =>
       Raise {| exn_class := "RuntimeError"; exn_message := "onnxruntime: no model";
                is_Exception := true |};
     Design.timestamp := "20240101_120000";
     Design.write_png := fun _ _ => Ok tt |}.

(** The same world with somebody at the keyboard who presses Ctrl-C while
    the background is being removed. *)
Definition impatient : Design.env :=
  {| Design.service := fun _ _ _ => Ok (solid 1024 1024);
     Design.format_style := fun style trend => Ok style;
     Design.encode_png := fun _ => Ok "PNG";
     Design.decode_png := fun _ => Ok (solid 1 1);
     Design.remove := fun _ => Raise KeyboardInterrupt;
     Design.timestamp := "20240101_120000";
     Design.write_png := fun _ _ => Ok tt |}.

(** A Printful server that stores the file and creates the product. *)
Definition shop : Printful.env :=
  {| Printful.http := fun r =>
       Ok (Printful.JDict
             [ ("code", Printful.JInt 200);
               ("result", Printful.JDict
                            [ ("id", Printful.JInt 501);
                              ("url", Printful.JStr "https://files.example/501.png") ]) ]);
     Printful.read_bytes := fun _ => Ok "PNG";
     Printful.b64encode := fun s => s;
     Printful.basename := fun s => s;
     Printful.str_float := fun _ => "24.99" |}.

Definition fresh : Printful.uploader :=
  {| Printful.api_key := "key";
     Printful.headers := [ ("Authorization", "Bearer key");
                           ("Content-Type", "application/json") ];
     Printful.sent := [] |}.

End Samples.

(* ================================================================== *)
(** * Measures: what the further properties count *)
(* ================================================================== *)

Module Measures.
Import Py.
Open Scope string_scope.
Open Scope Z_scope.

(** The characters of a string. *)
Fixpoint chars (s : string) : list ascii :=
  match s with
  | EmptyString => []
  | String c t => c :: chars t
  end.

(** Some character of [s] satisfies [p]. *)
Fixpoint any (p : ascii -> bool) (s : string) : bool :=
  match s with
  | EmptyString => false
  | String c t => p c || any p t
  end.

(** A letter or digit: a word character other than the underscore. *)
Definition is_alnum (c : ascii) : bool :=
  Text.is_word c && negb (Text.is_underscore c).

(** [s.endswith("'")] and [s.startswith("'")]. *)
Definition is_quote (c : ascii) : bool := Text.is_code 39 c.

Fixpoint ends_with_quote (s : string) : bool :=
  match s with
  | EmptyString => false
  | String c EmptyString => is_quote c
  | String _ t => ends_with_quote t
  end.

Definition starts_with_quote (s : string) : bool :=
  match s with
  | EmptyString => false
  | String c _ => is_quote c
  end.

(** The calls of the inference service in a trace, and the seconds slept. *)
Fixpoint attempts_made {Img : Type} (w : list (event Img)) : Z :=
  match w with
  | [] => 0
  | Attempt _ :: rest => 1 + attempts_made rest
  | _ :: rest => attempts_made rest
  end.

Fixpoint seconds_slept {Img : Type} (w : list (event Img)) : Z :=
  match w with
  | [] => 0
  | Sleep s :: rest => s + seconds_slept rest
  | _ :: rest => seconds_slept rest
  end.

(** The longest wait that the attempts of the list [todo] can add up to:
    [60 * (k + 1)] seconds after attempt [k]. *)
Fixpoint wait_budget (todo : list Z) : Z :=
  match todo with
  | [] => 0
  | k :: rest => 60 * (k + 1) + wait_budget rest
  end.

(** The files saved in a trace, in order. *)
Fixpoint saved {Img : Type} (w : list (event Img)) : list (string * Img) :=
  match w with
  | [] => []
  | Saved path image :: rest => (path, image) :: saved rest
  | _ :: rest => saved rest
  end.

End Measures.

(* ================================================================== *)
(** * More samples *)
(* ================================================================== *)

Module MoreSamples.
Import Py.
Open Scope string_scope.
Open Scope Z_scope.

(** A pytrends client that answers with three trending searches. *)
Definition online : Trends.pytrends :=
  {| Trends.TrendReq := Ok tt;
     Trends.trending_searches := fun _ =>
       Ok [ (Trends.Index 0, ["World Cup"; "Solar Eclipse"; "New Phone"]) ];
     Trends.realtime_trending_searches := fun _ => Ok [] |}.

(** A disk where no directory can be created. *)
Definition read_only (path : string) : result unit :=
  Raise {| exn_class := "PermissionError"; exn_message := "Permission denied";
           is_Exception := true |}.

Definition writable (path : string) : result unit := Ok tt.

(** A Printful server whose file information has an id and no URL. *)
Definition no_url : Printful.env :=
  {| Printful.http := fun r =>
       Ok (Printful.JDict
             [ ("code", Printful.JInt 200);
               ("result", Printful.JDict [ ("id", Printful.JInt 501);
                                           ("url", Printful.JStr "") ]) ]);
     Printful.read_bytes := fun _ => Ok "PNG";
     Printful.b64encode := fun s => s;
     Printful.basename := fun s => s;
     Printful.str_float := fun _ => "24.99" |}.

(** A Printful server whose mockup task never finishes. *)
Definition pending : Printful.env :=
  {| Printful.http := fun r =>
       Ok (Printful.JDict
             [ ("code", Printful.JInt 200);
               ("result", Printful.JDict
                            [ ("id", Printful.JInt 501);
                              ("url", Printful.JStr "https://files.example/501.png");
                              ("task_key", Printful.JStr "gt-1");
                              ("status", Printful.JStr "pending") ]) ]);
     Printful.read_bytes := fun _ => Ok "PNG";
     Printful.b64encode := fun s => s;
     Printful.basename := fun s => s;
     Printful.str_float := fun _ => "24.99" |}.

End MoreSamples.

(* ================================================================== *)
(** * Batch: auto_generate *)
(* ================================================================== *)

Module Batch.
Import Py.
Open Scope string_scope.
Open Scope Z_scope.
Open Scope py_scope.

Definition CACHE_DIR : string := "cache".

Section Auto.

Variable core : PIL.core.

(** [path.mkdir(exist_ok=True)]. *)
Variable mkdir : string -> result unit.

Variable py : Trends.pytrends.

(** The world as the item number [i] (from 1) finds it: the service, the
    clock and the disk at that time. *)
Variable world_at : Z -> Design.env.

(** design.py, [ensure_directories]. *)
Definition ensure_directories : M PIL.image unit :=
  lift (mkdir Design.OUTPUT_DIR) ;;; lift (mkdir CACHE_DIR).

(** [if output:] on an optional path. *)
Definition truthy (output : option string) : bool :=
  match output with
  | None => false
  | Some path => negb (String.eqb path "")
  end.

(** The loop of [auto_generate] from item [i] on.  The [try] gives
    [Some generated'] when its body ran to its end and [None] when the
    [except] branch took over, whose [continue] skips the wait. *)
Fixpoint generate_from (style : string) (hf_token : option string)
    (total i : Z) (trends : list Trends.trend) (generated : list string)
  : M PIL.image (list string) :=
  match trends with
  | [] => ret generated
  | trend_data :: rest =>
      let trend := Trends.query trend_data in
      r <- try_except
             (output <- Design.process_trend core (world_at i) trend style
                          true true hf_token ;;
              ret (Some (if truthy output
                         then match output with
                              | Some path => generated ++ [path]
                              | None => generated
                              end
                         else generated))%list)
             (fun e => ret None) ;;
      match r with
      | None => generate_from style hf_token total (i + 1) rest generated
      | Some generated =>
          (if i <? total then sleep 10 else ret tt) ;;;
          generate_from style hf_token total (i + 1) rest generated
      end
  end.

(** design.py, [auto_generate]. *)
Definition auto_generate (count : Z) (style region : string)
    (hf_token : option string) : M PIL.image (list string) :=
  ensure_directories ;;;
  trends <- lift (Trends.get_trending_topics py region "now 1-H" count) ;;
  match trends with
  | [] => ret []
  | _ =>
      generate_from style hf_token (Z.of_nat (List.length trends)) 1 trends []
  end.

End Auto.

End Batch.

(* ================================================================== *)
(** * Mockup: the rest of PrintfulUploader *)
(* ================================================================== *)

Module Mockup.
Import Py Printful.
Open Scope string_scope.
Open Scope Z_scope.

(** [PrintfulUploader.__init__]: [environ] is what
    [os.environ.get("PRINTFUL_API_KEY")] gives. *)
Definition init (api_key environ : option string) : result uploader :=
  let key :=
    match api_key with
    | Some k => if String.eqb k "" then environ else Some k   (* api_key or ... *)
    | None => environ
    end in
  match key with
  | Some k =>
      if String.eqb k "" then
        Raise (ValueError "PRINTFUL_API_KEY not found. Get it from https://www.printful.com/dashboard/developer/oauth-apps")
      else
        Ok {| api_key := k;
              headers := [ ("Authorization", "Bearer " ++ k);
                           ("Content-Type", "application/json") ];
              sent := [] |}
  | None =>
      Raise (ValueError "PRINTFUL_API_KEY not found. Get it from https://www.printful.com/dashboard/developer/oauth-apps")
  end.

Definition TimeoutError (msg : string) : exn :=
  {| exn_class := "TimeoutError"; exn_message := msg; is_Exception := true |}.

Definition TypeError (msg : string) : exn :=
  {| exn_class := "TypeError"; exn_message := msg; is_Exception := true |}.

(** [value == "text"]. *)
Definition is_str (text : string) (value : json) : bool :=
  match value with
  | JStr s => String.eqb s text
  | _ => false
  end.

Section Methods.

Variable world : env.

(** [repr] of a list or a dict, for the f-string that holds the task key. *)
Variable repr : json -> string.

(** [f"{value}"]. *)
Definition format (value : json) : string :=
  match value with
  | JNone => "None"
  | JBool true => "True"
  | JBool false => "False"
  | JInt z => str_int z
  | JStr s => s
  | other => repr other
  end.

(** [PrintfulUploader.get_stores]. *)
Definition get_stores : U json :=
  fun self =>
    match _request world "GET" "/stores" None self with
    | (Raise e, self) => (Raise e, self)
    | (Ok result, self) => (get result "result" (JList []), self)
    end.

(** The reading of one poll: [Some r] ends [create_mockup] with [r],
    [None] goes on polling. *)
Definition read_status (status : json) : option (result json) :=
  match get status "result" (JDict []) with
  | Raise e => Some (Raise e)
  | Ok res =>
      match get res "status" JNone with
      | Raise e => Some (Raise e)
      | Ok task_status =>
          if is_str "completed" task_status then
            match get res "mockups" (JList []) with
            | Raise e => Some (Raise e)
            | Ok mockups =>
                if truthy mockups then
                  match mockups with
                  | JList (first :: _) => Some (get first "mockup_url" JNone)
                  | JDict _ => Some (Raise (KeyError "0"))
                  | JStr _ =>
                      Some (Raise (AttributeError
                                     "'str' object has no attribute 'get'"))
                  | _ => Some (Raise (TypeError
                                        ("'" ++ type_name mockups
                                         ++ "' object is not subscriptable")))
                  end
                else None
            end
          else if is_str "failed" task_status then
            Some (Raise (ValueError "Mockup generation failed"))
          else None
      end
  end.

(** The polling loop, with [polls] turns left: every turn sleeps 2 seconds
    and asks once.  The seconds slept are returned with the outcome. *)
Fixpoint poll (task_key : json) (polls : nat) (slept : Z)
  : uploader -> result json * uploader * Z :=
  fun self =>
    match polls with
    | O => (Raise (TimeoutError "Mockup generation timed out"), self, slept)
    | S polls' =>
        let slept := slept + 2 in
        match _request world "GET"
                ("/mockup-generator/task?task_key=" ++ format task_key)
                None self with
        | (Raise e, self) => (Raise e, self, slept)
        | (Ok status, self) =>
            match read_status status with
            | Some r => (r, self, slept)
            | None => poll task_key polls' slept self
            end
        end
    end.

(** [PrintfulUploader.create_mockup]. *)
Definition create_mockup (design_file product_type : string)
  : uploader -> result json * uploader * Z :=
  fun self =>
    match upload_file world design_file self with
    | (Raise e, self) => (Raise e, self, 0)
    | (Ok file_info, self) =>
        match get file_info "url" JNone with
        | Raise e => (Raise e, self, 0)
        | Ok file_url =>
            match get_or_unisex PRODUCTS product_type with
            | Raise e => (Raise e, self, 0)
            | Ok product_id =>
                let data :=
                  JDict [ ("variant_ids", JList [JInt 4013]);
                          ("files",
                           JList [ JDict [ ("placement", JStr "front");
                                           ("image_url", file_url);
                                           ("position", position) ] ]) ] in
                match _request world "POST"
                        ("/mockup-generator/create-task/" ++ str_int product_id)
                        (Some data) self with
                | (Raise e, self) => (Raise e, self, 0)
                | (Ok result, self) =>
                    match get result "result" (JDict []) with
                    | Raise e => (Raise e, self, 0)
                    | Ok res =>
                        match get res "task_key" JNone with
                        | Raise e => (Raise e, self, 0)
                        | Ok task_key =>
                            if negb (truthy task_key) then
                              (Raise (ValueError "Failed to create mockup task"),
                               self, 0)
                            else poll task_key 30 0 self
                        end
                    end
                end
            end
        end
    end.

End Methods.

End Mockup.

(* ================================================================== *)
(** * Properties *)
(* ================================================================== *)

Unset Implicit Arguments.

(** ** slugify *)

Section SlugifyFacts.
Import Text.
Open Scope string_scope.

Example slugify_ai_generated_art :
  slugify "AI Generated Art!" = "ai_generated_art".
Proof. reflexivity. Qed.

Example slugify_runs :
  slugify "  --No_ Cap-- __" = "no_cap".
Proof. reflexivity. Qed.

(** Every one of the 256 characters, by cases. *)
Ltac each_char c :=
  destruct c as [[] [] [] [] [] [] [] []]; vm_compute; try reflexivity; try discriminate.

Lemma lower_char_fixed (c : ascii) : lower_char (lower_char c) = lower_char c.
Proof. each_char c. Qed.

Lemma is_underscore_eq c : is_underscore c = true -> c = underscore.
Proof. each_char c. Qed.

Lemma clean_lower c : clean c = true -> lower_char c = c.
Proof. each_char c. Qed.

Lemma clean_keeps c : clean c = true -> keeps c = true.
Proof. each_char c. Qed.

Lemma clean_not_sep c : clean c = true -> is_sep c = false.
Proof. each_char c. Qed.

Lemma kept_lower_clean c :
  keeps (lower_char c) = true -> is_sep (lower_char c) = false ->
  clean (lower_char c) = true.
Proof. each_char c. Qed.

Lemma sep_not_underscore c : is_sep c = false -> is_underscore c = false.
Proof. each_char c. Qed.

Lemma underscore_is : is_underscore underscore = true.
Proof. reflexivity. Qed.

(** After [lower], [remove_other] and [collapse] the text has the open
    shape, whatever the input. *)
Lemma collapse_shape (s : string) (b : bool) :
  slug_open b (collapse_from b (remove_other (lower s))) = true.
Proof.
  revert b; induction s as [|c t IH]; intros b; simpl; [reflexivity|].
  destruct (keeps (lower_char c)) eqn:Hk; [|apply IH].
  cbn [collapse_from]. destruct (is_sep (lower_char c)) eqn:Hs.
  - destruct b; [apply IH|].
    cbn [slug_open]. rewrite underscore_is. apply IH.
  - cbn [slug_open].
    rewrite (sep_not_underscore _ Hs), (kept_lower_clean _ Hk Hs).
    apply IH.
Qed.

Lemma lstrip_shape (s : string) (b : bool) :
  slug_open b s = true -> slug_open true (lstrip s) = true.
Proof.
  revert b; induction s as [|c t IH]; intros b; simpl; [reflexivity|].
  destruct (is_underscore c) eqn:Hu; intros H.
  - apply andb_true_iff in H. apply (IH true), H.
  - simpl. rewrite Hu. exact H.
Qed.

Lemma rstrip_shape (s : string) (b : bool) :
  slug_open b s = true ->
  rstrip s = EmptyString \/ slug_closed b (rstrip s) = true.
Proof.
  revert b; induction s as [|c t IH]; intros b; simpl; [now left|].
  destruct (is_underscore c) eqn:Hu; intros H;
    apply andb_true_iff in H; destruct H as [H1 H2].
  - destruct (IH true H2) as [E|E].
    + rewrite E. now left.
    + right. destruct (rstrip t) as [|d r]; [discriminate E|].
      cbn [slug_closed]. rewrite Hu, H1. exact E.
  - right. specialize (IH false H2). destruct (rstrip t) as [|d r].
    + cbn [slug_closed]. now rewrite Hu, H1.
    + destruct IH as [E|E]; [discriminate E|].
      cbn [slug_closed]. rewrite Hu, H1. exact E.
Qed.

(** Every step of [slugify] leaves a closed slug as it is. *)
Lemma closed_lower (s : string) (b : bool) :
  slug_closed b s = true -> lower s = s.
Proof.
  revert b; induction s as [|c t IH]; intros b; simpl; [reflexivity|].
  destruct (is_underscore c) eqn:Hu; intros H;
    apply andb_true_iff in H; destruct H as [H1 H2].
  - rewrite (is_underscore_eq _ Hu). simpl.
    f_equal. apply (IH true H2).
  - rewrite (clean_lower _ H1). f_equal. apply (IH false H2).
Qed.

Lemma closed_remove_other (s : string) (b : bool) :
  slug_closed b s = true -> remove_other s = s.
Proof.
  revert b; induction s as [|c t IH]; intros b; simpl; [reflexivity|].
  destruct (is_underscore c) eqn:Hu; intros H;
    apply andb_true_iff in H; destruct H as [H1 H2].
  - rewrite (is_underscore_eq _ Hu). simpl.
    f_equal. apply (IH true H2).
  - rewrite (clean_keeps _ H1). f_equal. apply (IH false H2).
Qed.

Lemma closed_collapse_from (s : string) (b : bool) :
  slug_closed b s = true -> collapse_from b s = s.
Proof.
  revert b; induction s as [|c t IH]; intros b; simpl; [reflexivity|].
  destruct (is_underscore c) eqn:Hu; intros H;
    apply andb_true_iff in H; destruct H as [H1 H2].
  - rewrite (is_underscore_eq _ Hu). simpl.
    destruct b; [discriminate|]. f_equal. apply (IH true H2).
  - rewrite (clean_not_sep _ H1). f_equal. apply (IH false H2).
Qed.

Lemma closed_collapse (s : string) :
  slug_closed true s = true -> collapse s = s.
Proof.
  intros H. rewrite <- (closed_collapse_from _ _ H) at 2.
  unfold collapse. destruct s as [|c t]; [reflexivity|].
  simpl in *. destruct (is_underscore c) eqn:Hu; [discriminate|].
  apply andb_true_iff in H. now rewrite (clean_not_sep _ (proj1 H)).
Qed.

Lemma closed_lstrip (s : string) :
  slug_closed true s = true -> lstrip s = s.
Proof.
  destruct s as [|c t]; simpl; [discriminate|].
  now destruct (is_underscore c).
Qed.

Lemma closed_rstrip (s : string) (b : bool) :
  slug_closed b s = true -> rstrip s = s.
Proof.
  revert b; induction s as [|c t IH]; intros b; simpl; [reflexivity|].
  destruct (is_underscore c) eqn:Hu; intros H;
    apply andb_true_iff in H; destruct H as [H1 H2].
  - rewrite (IH true H2). destruct t; [discriminate|reflexivity].
  - rewrite (IH false H2). destruct t; reflexivity.
Qed.

Lemma slugify_shape (s : string) :
  slugify s = EmptyString \/ slug_closed true (slugify s) = true.
Proof.
  unfold slugify, strip, collapse.
  apply rstrip_shape, (lstrip_shape _ false), collapse_shape.
Qed.

(** C9. [slugify] is idempotent: for every string [s],
    [slugify (slugify s) = slugify s]. *)
Theorem slugify_idempotent (s : string) :
  slugify (slugify s) = slugify s.
Proof.
  destruct (slugify_shape s) as [E|H].
  - rewrite E. reflexivity.
  - unfold slugify at 1. unfold strip.
    rewrite (closed_lower _ _ H), (closed_remove_other _ _ H),
      (closed_collapse _ H), (closed_lstrip _ H).
    apply (closed_rstrip _ _ H).
Qed.

End SlugifyFacts.

(** ** get_trending_topics *)

Section TrendsFacts.
Import Py Trends.
Open Scope string_scope.
Open Scope Z_scope.

Example fallback_ranks :
  map value (ranked 10 fallback) = [100; 90; 80; 70; 60].
Proof. reflexivity. Qed.

(** A failure of the first call, or of the second call when the first one
    found nothing, is a failure of the fetch. *)
Lemma fetch_raises_first (py : pytrends) (region : string) (limit : Z) (e : exn) :
  trending_searches py (Text.lower region) = Raise e ->
  fetch py region limit = Raise e.
Proof. intros H. unfold fetch. now rewrite H. Qed.

Lemma fetch_raises_second (py : pytrends) (region : string) (limit : Z)
    (df : frame) (e : exn) :
  trending_searches py (Text.lower region) = Ok df -> empty df = true ->
  realtime_trending_searches py region = Raise e ->
  fetch py region limit = Raise e.
Proof. intros H1 H2 H3. unfold fetch. now rewrite H1, H2, H3. Qed.

(** C7, as the code has it.  Once the client has been built, whenever the
    fetch (the calls inside the [try]) raises an exception of class
    [Exception], [get_trending_topics] returns exactly the five fallback
    queries, in their order, with the ranks 100, 90, 80, 70, 60, whatever
    the region, the time frame and the limit. *)
Theorem get_trending_topics_fallback
    (py : pytrends) (region timeframe : string) (limit : Z) (e : exn) :
  TrendReq py = Ok tt ->
  fetch py region limit = Raise e ->
  is_Exception e = true ->
  get_trending_topics py region timeframe limit =
    Ok [ {| query := "AI Generated Art"; value := 100 |};
         {| query := "Viral Memes 2024"; value := 90 |};
         {| query := "Trending Now"; value := 80 |};
         {| query := "Just Vibing"; value := 70 |};
         {| query := "No Cap"; value := 60 |} ].
Proof.
  intros Hc Hf He. unfold get_trending_topics. rewrite Hc, Hf, He. reflexivity.
Qed.

Lemma get_trending_topics_fallback_witness :
  get_trending_topics offline "GB" "now 7-d" 3 =
    Ok [ {| query := "AI Generated Art"; value := 100 |};
         {| query := "Viral Memes 2024"; value := 90 |};
         {| query := "Trending Now"; value := 80 |};
         {| query := "Just Vibing"; value := 70 |};
         {| query := "No Cap"; value := 60 |} ].
Proof.
  apply (get_trending_topics_fallback offline "GB" "now 7-d" 3
           {| exn_class := "ConnectionError";
              exn_message := "network is unreachable";
              is_Exception := true |});
    reflexivity.
Defined.

(** Two failures of the fetch that give no fallback list: the network is
    down when the client is built, before the [try]; and the first call is
    interrupted from the keyboard, which [except Exception] lets through.
    Both exceptions leave [get_trending_topics]. *)
Lemma get_trending_topics_fallback_fails :
  TrendReq unreachable
    = Raise {| exn_class := "ConnectionError";
               exn_message := "network is unreachable";
               is_Exception := true |}
  /\ get_trending_topics unreachable "US" "now 1-H" 10
     = Raise {| exn_class := "ConnectionError";
                exn_message := "network is unreachable";
                is_Exception := true |}
  /\ fetch interrupted "US" 10 = Raise KeyboardInterrupt
  /\ get_trending_topics interrupted "US" "now 1-H" 10 = Raise KeyboardInterrupt.
Proof. repeat split. Qed.

End TrendsFacts.

(** ** PrintfulUploader.create_product *)

Section PrintfulFacts.
Import Py Printful.
Open Scope string_scope.
Open Scope list_scope.

Variable world : env.

Lemma build_sync_variants_length (variants : list (string * Z)) (file_id : json)
    (price : Float.float) :
  List.length (build_sync_variants world variants file_id price)
  = Nat.min 8 (List.length variants).
Proof. unfold build_sync_variants. now rewrite length_map, length_firstn. Qed.

Lemma request_sent (method endpoint : string) (data : option json) (self : uploader) :
  let self' := snd (_request world method endpoint data self) in
  sent self' = sent self
  \/ exists body, (body = None \/ body = data) /\
       sent self' = sent self ++
         [ {| req_method := method; req_url := (BASE_URL ++ endpoint)%string;
              req_headers := headers self; req_json := body |} ].
Proof.
  unfold _request.
  destruct (upper_is method "GET"); [right; exists None; now split; [left|]|].
  destruct (upper_is method "POST"); [right; exists data; now split; [right|]|].
  destruct (upper_is method "PUT"); [right; exists data; now split; [right|]|].
  now left.
Qed.

Lemma upload_file_sent (file_path : string) (self : uploader) :
  let self' := snd (upload_file world file_path self) in
  headers self' = headers self /\
  exists new, sent self' = sent self ++ new /\ Forall at_most_8 new.
Proof.
  unfold upload_file.
  destruct (read_bytes world file_path) as [contents|e]; cbn [snd].
  2:{ split; [reflexivity|]. exists []. now rewrite app_nil_r. }
  pose proof (request_sent "POST" "/files"
    (Some (JDict [("type", JStr "default");
                  ("filename", JStr (basename world file_path));
                  ("contents", JStr (b64encode world contents))])) self) as H.
  assert (Hh : headers (snd (_request world "POST" "/files"
    (Some (JDict [("type", JStr "default");
                  ("filename", JStr (basename world file_path));
                  ("contents", JStr (b64encode world contents))])) self)) = headers self).
  { unfold _request. repeat match goal with |- context [if ?b then _ else _] => destruct b end;
      reflexivity. }
  destruct (_request world "POST" "/files" _ self) as [[result|e] self'];
    cbn [snd] in *; (split; [exact Hh|]).
  all: destruct H as [H|[body [Hb H]]]; rewrite H.
  all: try (exists []; now rewrite app_nil_r).
  all: eexists; split; [reflexivity|]; constructor; [|constructor].
  all: intros items; unfold sync_variants_of; cbn [req_json];
       destruct Hb as [->| ->]; cbn; discriminate.
Qed.

Lemma product_request_sent (endpoint : string) (product file_url : json)
    (variants : list json) (self : uploader) :
  (List.length variants <= 8)%nat ->
  exists new,
    sent (snd (_request world "POST" endpoint
                 (Some (JDict [ ("sync_product", product);
                                ("sync_variants", JList variants) ])) self))
    = sent self ++ new /\ Forall at_most_8 new.
Proof.
  intros Hlen.
  destruct (request_sent "POST" endpoint
    (Some (JDict [ ("sync_product", product);
                   ("sync_variants", JList variants) ])) self) as [H|[body [Hb H]]];
    rewrite H.
  - exists []. now rewrite app_nil_r.
  - eexists; split; [reflexivity|]. constructor; [|constructor].
    intros items. unfold sync_variants_of; cbn [req_json].
    destruct Hb as [->| ->]; cbn; [discriminate|].
    intros [= <-]. exact Hlen.
Qed.

(** Whatever the class tables, a call sends at most 8 variants. *)
Lemma create_product_with_at_most_8
    (products : list (string * Z))
    (variant_table : list (string * list (string * Z)))
    (design_file title : string) (description : option string)
    (product_type : string) (store_id : option Z) (price : Float.float)
    (self : uploader) :
  exists new,
    sent (snd (create_product_with world products variant_table design_file
                 title description product_type store_id price self))
    = sent self ++ new /\ Forall at_most_8 new.
Proof.
  unfold create_product_with.
  destruct (upload_file_sent design_file self) as [_ [new1 [H1 F1]]].
  destruct (upload_file world design_file self) as [[file_info|e] self1];
    cbn [snd] in H1; [|exists new1; now split].
  assert (Hstop : forall r : result json, exists new,
             sent (snd (r, self1)) = sent self ++ new /\ Forall at_most_8 new)
    by (intros r; exists new1; now split).
  destruct (get file_info "preview_url" JNone) as [preview_url|e1];
    destruct (get file_info "url" JNone) as [url|e2];
    destruct (get file_info "id" JNone) as [file_id|e3]; try apply Hstop.
  destruct (negb (truthy (or_else preview_url url))); [apply Hstop|].
  destruct (get_or_unisex products product_type) as [product_id|e4];
    destruct (get_or_unisex variant_table product_type) as [variants|e5];
    try apply Hstop.
  match goal with
  | |- context [_request world "POST" ?ep (Some (JDict [("sync_product", ?p); ("sync_variants", JList ?v)])) ?s] =>
      destruct (product_request_sent ep p (or_else preview_url url) v s) as [new2 [H2 F2]];
      [ rewrite build_sync_variants_length; apply Nat.le_min_l | ];
      assert (Hs : sent s = sent self1)
        by (destruct store_id as [id|]; [destruct (negb (id =? 0)%Z)|]; reflexivity);
      destruct (_request world "POST" ep _ s) as [[result|e6] self2]
  end.
  all: cbn [snd] in *; exists (new1 ++ new2);
       rewrite H2, Hs, H1, app_assoc; split; [reflexivity|];
       apply Forall_app; now split.
Qed.

(** C10. Whatever the arguments and the answers of the server, every
    request that a call of [create_product] sends carries at most 8 entries
    in its [sync_variants] list, although the variant table of the class
    lists 12 variants. *)
Theorem create_product_at_most_8_variants
    (design_file title : string) (description : option string)
    (product_type : string) (store_id : option Z) (price : Float.float)
    (self : uploader) :
  exists new,
    sent (snd (create_product world design_file title description
                 product_type store_id price self))
    = sent self ++ new /\ Forall at_most_8 new.
Proof. apply create_product_with_at_most_8. Qed.

(** With the tables of the class, whose only variant table lists 12
    variants, a product payload lists exactly 8. *)
Example default_table_has_12 :
  option_map (@List.length _) (lookup "unisex_tshirt" VARIANTS) = Some 12%nat.
Proof. reflexivity. Qed.

Lemma default_payload_has_8 (product_type : string) (file_id : json)
    (price : Float.float) :
  exists variants,
    get_or_unisex VARIANTS product_type = Ok variants /\
    List.length (build_sync_variants world variants file_id price) = 8%nat.
Proof.
  exists [ ("S_Black", 4012); ("M_Black", 4013); ("L_Black", 4014); ("XL_Black", 4015);
           ("S_White", 4017); ("M_White", 4018); ("L_White", 4019); ("XL_White", 4020);
           ("S_Navy", 4022); ("M_Navy", 4023); ("L_Navy", 4024); ("XL_Navy", 4025) ]%Z.
  split; [|reflexivity].
  unfold get_or_unisex, VARIANTS. cbn [lookup].
  destruct (String.eqb "unisex_tshirt" product_type); reflexivity.
Qed.

End PrintfulFacts.

(** A run against a server that accepts everything: the product request
    is sent, with 8 variants. *)
Example create_product_sends_8 :
  map (fun r => option_map (@List.length _) (Printful.sync_variants_of r))
      (Printful.sent
         (snd (Printful.create_product Samples.shop "output/cats.png" "Cats 0101"
                 None "hoodie" (Some 42%Z) (Float.of_int 25) Samples.fresh)))
  = [None; Some 8%nat].
Proof. vm_compute. reflexivity. Qed.

(** ** generate_design *)

Section RetryFacts.
Import Py Retry.
Open Scope Z_scope.
Open Scope list_scope.

Variable Img : Type.
Variable service : option string -> string -> Z -> result Img.
Variable hf_token : option string.
Variable prompt : string.
Variable retries : Z.

#[local] Abbreviation trace := (list (event Img)).

#[local] Abbreviation retried := (Retry.retried service hf_token prompt).

(** One failed attempt that is retried adds its call and its wait. *)
Lemma attempt_once_retried (k : Z) (w : trace) :
  retried (k + 1) ->
  attempt_once service hf_token prompt retries k w
  = (Ok None, w ++ spec_trace service hf_token prompt retries (k + 1) 1).
Proof.
  intros [c [Hf Hc]]. unfold failure in Hf.
  replace (k + 1 - 1) with k in Hf by lia.
  unfold attempt_once, try_except, text_to_image, sleep, bind, emit, lift, ret.
  cbn [spec_trace]. unfold failure. replace (k + 1 - 1) with k by lia.
  destruct (service (client_token hf_token) prompt k) as [image|e]; [discriminate|].
  destruct (is_Exception e); [|discriminate].
  injection Hf as Hf. rewrite Hf. rewrite app_nil_r.
  destruct c; cbn [spec_wait]; try congruence.
  - now rewrite <- app_assoc.
  - now rewrite <- app_assoc.
  - replace (k <? retries - 1) with (k + 1 <? retries)
      by (destruct (Z.ltb_spec (k + 1) retries), (Z.ltb_spec k (retries - 1)); lia).
    destruct (k + 1 <? retries); [now rewrite <- app_assoc | reflexivity].
Qed.

Lemma spec_trace_app (first : Z) (n m : nat) :
  spec_trace service hf_token prompt retries first (n + m)
  = spec_trace service hf_token prompt retries first n
    ++ spec_trace service hf_token prompt retries (first + Z.of_nat n) m.
Proof.
  revert first; induction n as [|n IH]; intros first.
  - cbn. now rewrite Z.add_0_r.
  - cbn [Nat.add spec_trace]. rewrite IH, <- !app_assoc.
    now replace (first + 1 + Z.of_nat n) with (first + Z.of_nat (S n)) by lia.
Qed.

(** A run of retried attempts at the head of the loop's list. *)
Lemma attempts_retried (n : nat) (a : nat) (rest : list Z) (w : trace) :
  (forall k, Z.of_nat a < k <= Z.of_nat a + Z.of_nat n -> retried k) ->
  attempts service hf_token prompt retries (map Z.of_nat (seq a n) ++ rest) w
  = attempts service hf_token prompt retries rest
      (w ++ spec_trace service hf_token prompt retries (Z.of_nat a + 1) n).
Proof.
  revert a w; induction n as [|n IH]; intros a w H.
  - cbn. now rewrite app_nil_r.
  - cbn [seq map app attempts]. unfold bind at 1.
    rewrite attempt_once_retried by (apply H; lia).
    rewrite IH by (intros k Hk; apply H; lia).
    rewrite <- app_assoc. f_equal. f_equal.
    change (S n) with (1 + n)%nat. rewrite spec_trace_app.
    now replace (Z.of_nat (S a) + 1) with (Z.of_nat a + 1 + Z.of_nat 1) by lia.
Qed.

Lemma range_split (j : Z) :
  0 <= j < retries ->
  range retries
  = map Z.of_nat (seq 0 (Z.to_nat j))
    ++ j :: map Z.of_nat (seq (S (Z.to_nat j)) (Z.to_nat retries - S (Z.to_nat j))).
Proof.
  intros H. unfold range.
  replace (Z.to_nat retries)
    with (Z.to_nat j + S (Z.to_nat retries - S (Z.to_nat j)))%nat by lia.
  rewrite seq_app, map_app. cbn [seq map Nat.add]. f_equal.
  rewrite Z2Nat.id by lia.
  now replace (Z.to_nat j + S (Z.to_nat retries - S (Z.to_nat j))
               - S (Z.to_nat j))%nat
    with (Z.to_nat retries - S (Z.to_nat j))%nat by lia.
Qed.


(** The branch of the authentication failures.  If, after any number of
    retried failures, an attempt fails with a message that the third test
    of the chain is the first to match, the function returns [None] at
    once: the trace ends with that call, with no wait and no further
    attempt, however many attempts remain. *)
Lemma generate_design_unauthorized (j : Z) (w : trace) :
  0 <= j < retries ->
  (forall n, 1 <= n <= j -> retried n) ->
  failure service hf_token prompt (j + 1) = Some Unauthorized ->
  generate_design service prompt hf_token retries w
  = (Ok None,
     w ++ spec_trace service hf_token prompt retries 1 (Z.to_nat j)
       ++ [Attempt j]).
Proof.
  intros Hj Hfail H401.
  assert (Hrun : forall k, Z.of_nat 0 < k <= Z.of_nat 0 + Z.of_nat (Z.to_nat j) -> retried k)
    by (intros k Hk; apply Hfail; lia).
  unfold generate_design.
  rewrite (range_split j) by lia.
  rewrite (attempts_retried _ 0 _ w Hrun).
  cbn [attempts]. unfold bind at 1.
  unfold failure in H401. replace (j + 1 - 1) with j in H401 by lia.
  unfold attempt_once, try_except, text_to_image, sleep, bind, emit, lift, ret.
  destruct (service (client_token hf_token) prompt j) as [image|e]; [discriminate|].
  destruct (is_Exception e); [|discriminate].
  injection H401 as ->. now rewrite <- app_assoc.
Qed.

End RetryFacts.


(** With one more attempt, [busy] answers on the fourth call: the unknown
    failure of the third attempt is then followed by its 10 seconds. *)
Example generate_design_fourth_attempt :
  Retry.generate_design Retry.busy "a prompt" None 4 []
  = (Py.Ok (Some 7%nat),
     [Py.Attempt 0; Py.Sleep 60; Py.Attempt 1; Py.Sleep 120; Py.Attempt 2;
      Py.Sleep 10; Py.Attempt 3]%Z).
Proof. reflexivity. Qed.

Example generate_design_unauthorized_locked :
  Retry.generate_design Retry.locked "a prompt" (Some "hf_xyz"%string) 3 []
  = (Py.Ok None, [Py.Attempt 0; Py.Sleep 60; Py.Attempt 1]%Z).
Proof.
  refine (generate_design_unauthorized nat Retry.locked (Some "hf_xyz"%string)
            "a prompt" 3 1 [] _ _ _).
  - lia.
  - intros n Hn. assert (Hn1 : (n = 1)%Z) by lia. rewrite Hn1.
    eexists; (split; [reflexivity|discriminate]).
  - reflexivity.
Qed.

(** C4, at an input where the code departs from it.  The token is
    rejected with a 401 whose message passes the test of the
    authentication branch, but the request id in it holds the digits 503,
    and the test for 503 comes first: the call does not fail at once, it
    makes all three attempts and sleeps 60, 120 and 180 seconds. *)
Theorem generate_design_unauthorized_retried :
  Text.contains "401" Retry.expired_message = true
  /\ Text.contains "unauthorized" (Text.lower Retry.expired_message) = true
  /\ Retry.classify Retry.expired_message = Retry.ServiceUnavailable
  /\ Retry.generate_design Retry.expired "a prompt" (Some "hf_old"%string) 3 []
     = (Py.Ok None,
        [Py.Attempt 0; Py.Sleep 60; Py.Attempt 1; Py.Sleep 120;
         Py.Attempt 2; Py.Sleep 180]%Z).
Proof. repeat split; vm_compute; reflexivity. Qed.

(** ** resize_for_print: the canvas *)

Section ResizeFacts.
Import Py Design.
Open Scope Z_scope.

Variable core : PIL.core.

(** What a successful call went through. *)
Lemma resize_for_print_inv (image : PIL.image) (width height : Z)
    (canvas : PIL.image) :
  resize_for_print core image width height = Ok canvas ->
  exists new_width new_height resized blank,
    scaled_size (PIL.width image) (PIL.height image) width height
      = Ok (new_width, new_height)
    /\ PIL.resize core image new_width new_height = Ok resized
    /\ PIL.new PIL.RGBA width height PIL.transparent = Ok blank
    /\ canvas = PIL.paste core blank resized
                  ((width - new_width) / 2) ((height - new_height) / 2)
                  (if PIL.is_RGBA (PIL.mode resized) then Some resized else None).
Proof.
  unfold resize_for_print, and_then.
  destruct (scaled_size _ _ _ _) as [[new_width new_height]|e] eqn:Hs; [|discriminate].
  destruct (PIL.resize core image new_width new_height) as [resized|e] eqn:Hr;
    [|discriminate].
  destruct (PIL.new PIL.RGBA width height PIL.transparent) as [blank|e] eqn:Hn;
    [|discriminate].
  cbn [paste_offset]. intros H.
  exists new_width, new_height, resized, blank.
  repeat (split; [reflexivity|]).
  destruct (PIL.is_RGBA (PIL.mode resized)); now injection H as <-.
Qed.

Lemma resize_size (image : PIL.image) (w h : Z) (resized : PIL.image) :
  PIL.resize core image w h = Ok resized ->
  PIL.width resized = w /\ PIL.height resized = h.
Proof.
  unfold PIL.resize.
  destruct ((PIL.width image =? w) && (PIL.height image =? h)) eqn:Hsame.
  - intros [= <-]. apply andb_true_iff in Hsame. lia.
  - destruct ((w <? 1) || (h <? 1)); [discriminate|]. now intros [= <-].
Qed.

Lemma new_blank (m : PIL.color_mode) (w h : Z) (color : PIL.pixel)
    (blank : PIL.image) :
  PIL.new m w h color = Ok blank ->
  PIL.width blank = w /\ PIL.height blank = h /\ PIL.mode blank = m
  /\ forall i j, PIL.pixel_at blank i j = color.
Proof.
  unfold PIL.new. destruct ((w <? 0) || (h <? 0)); [discriminate|].
  now intros [= <-].
Qed.

(** When the call returns. *)
Lemma resize_for_print_returns (image : PIL.image) (width height : Z)
    (new_width new_height : Z) :
  scaled_size (PIL.width image) (PIL.height image) width height
    = Ok (new_width, new_height) ->
  1 <= new_width -> 1 <= new_height -> 0 <= width -> 0 <= height ->
  exists canvas, resize_for_print core image width height = Ok canvas.
Proof.
  intros Hs Hw Hh Hcw Hch. unfold resize_for_print, and_then. rewrite Hs.
  unfold PIL.resize, PIL.new.
  replace ((new_width <? 1) || (new_height <? 1)) with false
    by (symmetry; apply orb_false_iff; split; apply Z.ltb_ge; lia).
  replace ((width <? 0) || (height <? 0)) with false
    by (symmetry; apply orb_false_iff; split; apply Z.ltb_ge; lia).
  destruct ((PIL.width image =? new_width) && (PIL.height image =? new_height));
    cbn [paste_offset];
    match goal with
    | |- context [if ?b then _ else _] => destruct b
    end; eexists; reflexivity.
Qed.

(** C5. The scaled image is pasted at [x = (width - new_width) // 2],
    [y = (height - new_height) // 2]; the padding left of it and the
    padding right of it differ by at most one pixel, and so do the padding
    above and the padding below. *)
Theorem resize_for_print_centered (image : PIL.image) (width height : Z)
    (canvas : PIL.image) :
  resize_for_print core image width height = Ok canvas ->
  exists new_width new_height resized blank,
    scaled_size (PIL.width image) (PIL.height image) width height
      = Ok (new_width, new_height)
    /\ PIL.resize core image new_width new_height = Ok resized
    /\ PIL.new PIL.RGBA width height PIL.transparent = Ok blank
    /\ let x := (width - new_width) / 2 in
       let y := (height - new_height) / 2 in
       canvas = PIL.paste core blank resized x y
                  (if PIL.is_RGBA (PIL.mode resized) then Some resized else None)
       /\ let left := x in
          let right := width - (x + PIL.width resized) in
          let top := y in
          let bottom := height - (y + PIL.height resized) in
          0 <= right - left <= 1 /\ 0 <= bottom - top <= 1.
Proof.
  intros H.
  destruct (resize_for_print_inv _ _ _ _ H)
    as (new_width & new_height & resized & blank & Hs & Hr & Hn & Hc).
  exists new_width, new_height, resized, blank.
  split; [exact Hs|]. split; [exact Hr|]. split; [exact Hn|].
  cbv zeta. split; [exact Hc|].
  destruct (resize_size _ _ _ _ Hr) as [-> ->].
  pose proof (Z.div_mod (width - new_width) 2 ltac:(lia)).
  pose proof (Z.mod_pos_bound (width - new_width) 2 ltac:(lia)).
  pose proof (Z.div_mod (height - new_height) 2 ltac:(lia)).
  pose proof (Z.mod_pos_bound (height - new_height) 2 ltac:(lia)).
  lia.
Qed.

End ResizeFacts.

Lemma resize_for_print_centered_witness :
  exists new_width new_height resized blank,
    Design.scaled_size 1001 700 4500 5400 = Py.Ok (new_width, new_height)
    /\ PIL.resize Samples.nearest (Samples.solid 1001 700) new_width new_height
       = Py.Ok resized
    /\ PIL.new PIL.RGBA 4500 5400 PIL.transparent = Py.Ok blank
    /\ let x := ((4500 - new_width) / 2)%Z in
       let y := ((5400 - new_height) / 2)%Z in
       PIL.paste Samples.nearest
         (PIL.Build_image 4500 5400 PIL.RGBA (fun _ _ => PIL.transparent))
         (PIL.Build_image 4500 3146 PIL.RGB
            (PIL.resample Samples.nearest (Samples.solid 1001 700) 4500 3146))
         0 1127 None
       = PIL.paste Samples.nearest blank resized x y
           (if PIL.is_RGBA (PIL.mode resized) then Some resized else None)
       /\ let left := x in
          let right := (4500 - (x + PIL.width resized))%Z in
          let top := y in
          let bottom := (5400 - (y + PIL.height resized))%Z in
          (0 <= right - left <= 1 /\ 0 <= bottom - top <= 1)%Z.
Proof.
  apply (resize_for_print_centered Samples.nearest (Samples.solid 1001 700) 4500 5400).
  vm_compute. reflexivity.
Defined.

(** ** resize_for_print: a scaled size that rounds to zero *)

Section DegenerateFacts.
Import Py Design.
Open Scope Z_scope.

Variable core : PIL.core.

(** C6, as the code has it.  For a source bitmap of nonzero dimensions
    whose scaled width or height comes out as 0, [resize_for_print] hands
    the size to [Image.resize] as it is, and the call raises the
    [ValueError] of the resampler: no canvas is returned. *)
Theorem resize_for_print_degenerate (image : PIL.image) (width height : Z)
    (new_width new_height : Z) :
  1 <= PIL.width image -> 1 <= PIL.height image ->
  scaled_size (PIL.width image) (PIL.height image) width height
    = Ok (new_width, new_height) ->
  new_width = 0 \/ new_height = 0 ->
  resize_for_print core image width height
  = Raise (ValueError "height and width must be > 0").
Proof.
  intros Hw Hh Hs Hz. unfold resize_for_print, and_then. rewrite Hs.
  unfold PIL.resize.
  replace ((PIL.width image =? new_width) && (PIL.height image =? new_height))
    with false
    by (symmetry; apply andb_false_iff;
        destruct Hz; [left|right]; apply Z.eqb_neq; lia).
  replace ((new_width <? 1) || (new_height <? 1)) with true
    by (symmetry; apply orb_true_iff;
        destruct Hz; [left|right]; apply Z.ltb_lt; lia).
  reflexivity.
Qed.

End DegenerateFacts.

Lemma resize_for_print_degenerate_witness :
  Design.resize_for_print Samples.nearest (Samples.solid 10000 1) 4500 5400
  = Py.Raise (Py.ValueError "height and width must be > 0").
Proof.
  apply (resize_for_print_degenerate Samples.nearest (Samples.solid 10000 1)
           4500 5400 4500 0).
  - cbn. lia.
  - cbn. lia.
  - vm_compute. reflexivity.
  - right. reflexivity.
Defined.

(** A one-pixel-high strip of width 20000 scales to height 0 on the
    default canvas, and the call returns no canvas at all. *)
Lemma resize_for_print_degenerate_errors :
  Design.scaled_size 20000 1 Design.TSHIRT_WIDTH Design.TSHIRT_HEIGHT
    = Py.Ok (4500, 0)%Z
  /\ ~ exists canvas,
        Design.resize_for_print Samples.nearest (Samples.solid 20000 1)
          Design.TSHIRT_WIDTH Design.TSHIRT_HEIGHT = Py.Ok canvas.
Proof.
  split; [vm_compute; reflexivity|].
  intros [canvas H]. vm_compute in H. discriminate H.
Qed.

(** ** process_trend: a failing background removal *)

Section PipelineFacts.
Import Py Design.
Open Scope Z_scope.
Open Scope py_scope.

Variable core : PIL.core.
Variable world : env.

#[local] Abbreviation trace := (list (event PIL.image)).

Lemma post_remove_bg_failure (image : PIL.image) (e : exn) (w : trace) :
  remove_background world image = Raise e ->
  is_Exception e = true ->
  post_remove_bg world true image w = (Ok image, w).
Proof.
  intros H He. unfold post_remove_bg, try_except, lift, ret. now rewrite H, He.
Qed.

(** C8, as the code has it.  With background removal enabled, let the
    design be generated and the background removal raise an exception of
    class [Exception].  Then the exception does not leave [process_trend]:
    the pipeline goes on with the generated image as it is, exactly as if
    background removal had been disabled; in particular, with resizing
    enabled, the generated image is resized and the result is saved and
    its path returned. *)
Theorem process_trend_background_failure
    (trend style : string) (resize : bool) (hf_token : option string)
    (prompt : string) (image : PIL.image) (e : exn) (w w1 : trace) :
  create_prompt world trend style = Ok prompt ->
  Retry.generate_design (service world) prompt hf_token 3 w = (Ok (Some image), w1) ->
  remove_background world image = Raise e ->
  is_Exception e = true ->
  process_trend core world trend style true resize hf_token w
  = (image' <- post_resize core resize image ;; save_design world trend image') w1
  /\ process_trend core world trend style true resize hf_token w
     = process_trend core world trend style false resize hf_token w
  /\ forall canvas,
       resize = true ->
       resize_for_print core (as_rgba core image) TSHIRT_WIDTH TSHIRT_HEIGHT = Ok canvas ->
       write_png world (output_path_of world trend) canvas = Ok tt ->
       process_trend core world trend style true resize hf_token w
       = (Ok (Some (output_path_of world trend)),
          (w1 ++ [Saved (output_path_of world trend) canvas])%list).
Proof.
  intros Hp Hg Hr He.
  assert (Hrun : forall remove_bg,
    post_remove_bg world remove_bg image w1 = (Ok image, w1) ->
    process_trend core world trend style remove_bg resize hf_token w
    = (image' <- post_resize core resize image ;; save_design world trend image') w1).
  { intros remove_bg Hb. unfold process_trend.
    unfold bind at 1. unfold lift at 1. rewrite Hp.
    unfold bind at 1. rewrite Hg.
    unfold bind at 1. now rewrite Hb. }
  pose proof (Hrun true (post_remove_bg_failure _ _ _ Hr He)) as Hon.
  pose proof (Hrun false eq_refl) as Hoff.
  split; [exact Hon|]. split; [now rewrite Hon, Hoff|].
  - intros canvas -> Hc Hw. rewrite Hon.
    unfold post_resize, save_design, save, bind, lift, emit, ret.
    cbv zeta. now rewrite Hc, Hw.
Qed.

End PipelineFacts.

Lemma process_trend_background_failure_witness :
  fst (Design.process_trend Samples.nearest Samples.studio "Cats" "vaporwave"
         true true None [])
  = Py.Ok (Some "output/cats_20240101_120000.png"%string).
Proof.
  set (image := Samples.solid 1024 1024).
  set (canvas :=
         match Design.resize_for_print Samples.nearest
                 (Design.as_rgba Samples.nearest image)
                 Design.TSHIRT_WIDTH Design.TSHIRT_HEIGHT with
         | Py.Ok c => c
         | Py.Raise _ => image
         end).
  rewrite (proj2 (proj2
    (process_trend_background_failure Samples.nearest Samples.studio
       "Cats" "vaporwave" true None
       (String.append
          "A retro vaporwave t-shirt vector design featuring the text 'Cats' in bold typography, vibrant neon pink and cyan colors, black background, high contrast, 80s aesthetic"
          ", high quality, vector art, print ready, centered composition")
       image
       {| Py.exn_class := "RuntimeError"; Py.exn_message := "onnxruntime: no model";
          Py.is_Exception := true |}
       [] [Py.Attempt 0]
       eq_refl eq_refl eq_refl eq_refl)) canvas eq_refl eq_refl eq_refl).
  reflexivity.
Defined.

(** An interrupt from the keyboard during background removal is not an
    [Exception]: the handler lets it through, the item is aborted and
    nothing is saved. *)
Lemma process_trend_background_interrupt :
  Design.remove_background Samples.impatient (Samples.solid 1024 1024)
    = Py.Raise Py.KeyboardInterrupt
  /\ Design.process_trend Samples.nearest Samples.impatient "Cats" "vaporwave"
       true true None []
     = (Py.Raise Py.KeyboardInterrupt, [Py.Attempt 0%Z]).
Proof. split; reflexivity. Qed.

(** ** Floats: what rounding to 53 bits does to positive numbers *)

Section FloatFacts.
Import Float.
Open Scope Z_scope.

(** *** Digits *)

Lemma digits2_pos_bounds (p : positive) :
  2 ^ (Z.pos (digits2_pos p) - 1) <= Z.pos p < 2 ^ Z.pos (digits2_pos p).
Proof.
  induction p as [p IH|p IH|]; cbn [digits2_pos].
  - rewrite Pos2Z.inj_succ, (Pos2Z.inj_xI p).
    replace (Z.succ (Z.pos (digits2_pos p)) - 1) with (Z.succ (Z.pos (digits2_pos p) - 1)) by lia.
    rewrite !Z.pow_succ_r by lia. lia.
  - rewrite Pos2Z.inj_succ, (Pos2Z.inj_xO p).
    replace (Z.succ (Z.pos (digits2_pos p)) - 1) with (Z.succ (Z.pos (digits2_pos p) - 1)) by lia.
    rewrite !Z.pow_succ_r by lia. lia.
  - cbn. lia.
Qed.

Lemma digits2_pos_unique (p : positive) (k : Z) :
  2 ^ (k - 1) <= Z.pos p < 2 ^ k -> Z.pos (digits2_pos p) = k.
Proof.
  intros H. pose proof (digits2_pos_bounds p) as B.
  set (d := Z.pos (digits2_pos p)) in *.
  assert (0 < d) by (subst d; lia).
  assert (0 < k).
  { destruct (Z_lt_le_dec 0 k); [assumption|].
    assert (2 ^ k <= 2 ^ 0) by (apply Z.pow_le_mono_r; lia). simpl in *. lia. }
  destruct (Z_lt_le_dec d k) as [L|L].
  - assert (2 ^ d <= 2 ^ (k - 1)) by (apply Z.pow_le_mono_r; lia). lia.
  - destruct (Z_lt_le_dec k d) as [L'|L']; [|lia].
    assert (2 ^ k <= 2 ^ (d - 1)) by (apply Z.pow_le_mono_r; lia). lia.
Qed.

(** *** Shifting a mantissa to the right *)

Lemma shr_1_approx (x : shr_record) (N D : Z) :
  0 < D -> approx x N D ->
  approx (shr_1 x) N (2 * D) /\ shr_m (shr_1 x) = shr_m x / 2.
Proof.
  intros HD (Hm & Hr & He & Hi).
  destruct x as [m r s]; unfold inexact, approx in *; cbn [shr_m shr_r shr_s] in *.
  destruct m as [|p|p]; [| |lia].
  - cbn [shr_1 shr_m shr_r shr_s]. rewrite Z.div_0_l by lia.
    destruct r, s; cbn [orb] in *; repeat split; try lia; intros; try discriminate; try lia.
    all: try (specialize (He eq_refl); lia); try (specialize (Hi eq_refl); lia).
  - destruct p as [p|p|].
    + cbn [shr_1 shr_m shr_r shr_s]. rewrite (Pos2Z.inj_xI p) in *.
      replace ((2 * Z.pos p + 1) / 2) with (Z.pos p)
        by (apply Z.div_unique with 1; lia).
      destruct r, s; cbn [orb] in *; repeat split; try lia; intros; try discriminate; try nia.
    + cbn [shr_1 shr_m shr_r shr_s]. rewrite (Pos2Z.inj_xO p) in *.
      replace ((2 * Z.pos p) / 2) with (Z.pos p)
        by (apply Z.div_unique with 0; lia).
      destruct r, s; cbn [orb] in *; repeat split; try lia; intros; try discriminate; try nia.
      all: try (specialize (He eq_refl); nia); try (specialize (Hi eq_refl); nia).
    + cbn [shr_1 shr_m shr_r shr_s].
      replace (1 / 2) with 0 by reflexivity.
      destruct r, s; cbn [orb] in *; repeat split; try lia; intros; try discriminate; try nia.
Qed.

Lemma iter_shr_1_approx (p : positive) :
  forall (x : shr_record) (N D : Z),
    0 < D -> approx x N D ->
    approx (SpecFloat.iter_pos shr_1 p x) N (2 ^ Z.pos p * D)
    /\ shr_m (SpecFloat.iter_pos shr_1 p x) = shr_m x / 2 ^ Z.pos p.
Proof.
  induction p as [p IH|p IH|]; intros x N D HD Hx; cbn [SpecFloat.iter_pos].
  - destruct (shr_1_approx x N D HD Hx) as [H1 E1].
    destruct (IH _ N (2 * D) ltac:(lia) H1) as [H2 E2].
    assert (0 < 2 ^ Z.pos p) by (apply Z.pow_pos_nonneg; lia).
    destruct (IH _ N (2 ^ Z.pos p * (2 * D)) ltac:(nia) H2) as [H3 E3].
    rewrite (Pos2Z.inj_xI p).
    replace (2 * Z.pos p + 1) with (1 + Z.pos p + Z.pos p) by lia.
    rewrite !Z.pow_add_r by lia. change (2 ^ 1) with 2.
    split.
    + replace (2 * 2 ^ Z.pos p * 2 ^ Z.pos p * D)
        with (2 ^ Z.pos p * (2 ^ Z.pos p * (2 * D))) by ring. exact H3.
    + rewrite E3, E2, E1, !Z.div_div by lia. f_equal. ring.
  - destruct (IH _ N D HD Hx) as [H2 E2].
    assert (0 < 2 ^ Z.pos p) by (apply Z.pow_pos_nonneg; lia).
    destruct (IH _ N (2 ^ Z.pos p * D) ltac:(nia) H2) as [H3 E3].
    rewrite (Pos2Z.inj_xO p).
    replace (2 * Z.pos p) with (Z.pos p + Z.pos p) by lia.
    rewrite !Z.pow_add_r by lia.
    split.
    + replace (2 ^ Z.pos p * 2 ^ Z.pos p * D)
        with (2 ^ Z.pos p * (2 ^ Z.pos p * D)) by ring. exact H3.
    + rewrite E3, E2, !Z.div_div by lia. f_equal.
  - change (2 ^ 1) with 2. apply shr_1_approx; assumption.
Qed.

(** [shr x e n] for a shift [n >= 0]. *)
Lemma shr_approx (x : shr_record) (e n : Z) (N D : Z) :
  0 <= n -> 0 < D -> approx x N D ->
  exists x', shr x e n = (x', e + n)
    /\ approx x' N (2 ^ n * D) /\ shr_m x' = shr_m x / 2 ^ n.
Proof.
  intros Hn HD Hx. destruct n as [|p|p]; [| |lia].
  - exists x. cbn [shr]. rewrite Z.add_0_r, Z.div_1_r.
    change (2 ^ 0) with 1. rewrite Z.mul_1_l. auto.
  - exists (SpecFloat.iter_pos shr_1 p x). cbn [shr].
    destruct (iter_shr_1_approx p x N D HD Hx). auto.
Qed.

Lemma record_of_loc (m : Z) (l : location) :
  shr_m (shr_record_of_loc m l) = m
  /\ inexact (shr_record_of_loc m l) = negb (is_exact l).
Proof. destruct l as [|[]]; split; reflexivity. Qed.

(** Rounding moves to one of the two neighbours, and stays when there is
    no rest. *)
Lemma round_nearest_even_cases (x : shr_record) :
  let M := round_nearest_even (shr_m x) (loc_of_shr_record x) in
  M = shr_m x \/ (M = shr_m x + 1 /\ inexact x = true).
Proof.
  destruct x as [m [] []]; unfold inexact; cbn; auto.
  destruct (Z.even m); auto.
Qed.

(** The rounded mantissa lies on the same side of every grid point as the
    exact value. *)
Lemma rounded_grid (x : shr_record) (N D : Z) :
  0 < D -> approx x N D ->
  let M := round_nearest_even (shr_m x) (loc_of_shr_record x) in
  shr_m x <= M <= shr_m x + 1
  /\ (forall z, N <= z * D -> M <= z)
  /\ (forall z, z * D <= N -> z <= M).
Proof.
  intros HD (Hm & Hr & He & Hi) M.
  destruct (round_nearest_even_cases x) as [E|[E I]]; fold M in E; rewrite E.
  - split; [lia|]. split; intros z Hz; nia.
  - specialize (Hi I). split; [lia|]. split; intros z Hz; nia.
Qed.

Lemma fexp_normal (k : Z) : -1074 <= k - 53 -> fexp prec emax k = k - 53.
Proof. intros H. unfold fexp, emin, prec, emax. lia. Qed.

Lemma Zdigits2_range (M k : Z) :
  0 < k -> 2 ^ (k - 1) <= M < 2 ^ k -> Zdigits2 M = k.
Proof.
  intros Hk H. assert (0 < 2 ^ (k - 1)) by (apply Z.pow_pos_nonneg; lia).
  destruct M as [|p|p]; [lia| |lia].
  cbn [Zdigits2]. now apply digits2_pos_unique.
Qed.

(** Rounding a positive mantissa with at least 53 digits, away from the
    ends of the exponent range.  [N / D] is the exact value in units of
    [2 ^ ex]; the result is [M] in units of [2 ^ e1]. *)
Lemma binary_round_aux_pos (mx ex : Z) (lx : location) (N D : Z) :
  0 < D -> 0 < mx ->
  approx (shr_record_of_loc mx lx) N D ->
  53 <= Zdigits2 mx ->
  let n := Zdigits2 mx - 53 in
  let e1 := ex + n in
  -1074 <= e1 <= 970 ->
  exists (m : positive) (e M : Z),
    binary_round_aux prec emax false mx ex lx = S754_finite false m e
    /\ Z.pos (digits2_pos m) = 53
    /\ e1 <= e <= e1 + 1
    /\ Z.pos m * 2 ^ (e - e1) = M
    /\ 2 ^ 52 * (2 ^ n * D) <= N
    /\ (forall z, N <= z * (2 ^ n * D) -> M <= z)
    /\ (forall z, z * (2 ^ n * D) <= N -> z <= M).
Proof.
  intros HD Hmx Hx Hd n e1 He.
  assert (Hdig : exists p, mx = Z.pos p) by (destruct mx; try lia; eauto).
  destruct Hdig as [p ->]. cbn [Zdigits2] in *.
  pose proof (digits2_pos_bounds p) as Hb.
  set (d := Z.pos (digits2_pos p)) in *.
  assert (Hn : 0 <= n) by (subst n; lia).
  assert (Hpn : 0 < 2 ^ n) by (apply Z.pow_pos_nonneg; lia).
  unfold binary_round_aux, shr_fexp. cbn [Zdigits2]. fold d.
  rewrite fexp_normal by (subst e1 n; lia).
  replace (d + ex - 53 - ex) with n by (subst n; lia).
  destruct (shr_approx (shr_record_of_loc (Z.pos p) lx) ex n N D Hn HD Hx)
    as (x' & -> & Hx' & Em).
  rewrite (proj1 (record_of_loc _ _)) in Em.
  assert (Hm' : 2 ^ 52 <= shr_m x' < 2 ^ 53).
  { rewrite Em. split.
    - apply Z.div_le_lower_bound; [lia|].
      rewrite <- Z.pow_add_r by lia.
      replace (n + 52) with (d - 1) by (subst n; lia). lia.
    - apply Z.div_lt_upper_bound; [lia|].
      rewrite <- Z.pow_add_r by lia.
      replace (n + 53) with d by (subst n; lia). lia. }
  assert (HD' : 0 < 2 ^ n * D) by nia.
  destruct (rounded_grid x' N (2 ^ n * D) HD' Hx') as (HM & Hup & Hlow).
  set (M := round_nearest_even (shr_m x') (loc_of_shr_record x')) in *.
  fold e1.
  assert (Hlo : 2 ^ 52 * (2 ^ n * D) <= N).
  { destruct Hx' as (_ & Hr & _). nia. }
  destruct (Z_lt_le_dec M (2 ^ 53)) as [Hlt|Hge].
  - assert (Ed : Zdigits2 M = 53) by (apply Zdigits2_range; lia).
    rewrite Ed, fexp_normal by lia.
    replace (53 + e1 - 53 - e1) with 0 by lia.
    cbn [shr shr_record_of_loc shr_m].
    destruct M as [|m|m] eqn:EM; [lia| |lia].
    replace (e1 <=? emax - prec) with true
      by (symmetry; apply Z.leb_le; unfold emax, prec; lia).
    exists m, e1, (Z.pos m). cbn [Zdigits2] in Ed.
    rewrite Z.sub_diag, Z.mul_1_r.
    repeat split; try assumption; lia.
  - assert (EM : M = 2 ^ 53) by lia.
    clearbody M. subst M.
    replace (Zdigits2 (2 ^ 53)) with 54 by reflexivity.
    rewrite fexp_normal by lia.
    replace (54 + e1 - 53 - e1) with 1 by lia.
    cbn [shr shr_record_of_loc SpecFloat.iter_pos].
    change (shr_m (shr_1 {| shr_m := 2 ^ 53; shr_r := false; shr_s := false |}))
      with (Z.pos (2 ^ 52)).
    cbv iota.
    replace (e1 + 1 <=? emax - prec) with true
      by (symmetry; apply Z.leb_le; unfold emax, prec; lia).
    exists (2 ^ 52)%positive, (e1 + 1), (2 ^ 53).
    replace (e1 + 1 - e1) with 1 by lia.
    repeat split; try assumption; try reflexivity; lia.
Qed.

(** *** Values *)

Lemma pow2_pos (e : Z) : (0 < pow2 e)%Q.
Proof. apply Qpower_0_lt. reflexivity. Qed.

Lemma pow2_add (a b : Z) : (pow2 (a + b) == pow2 a * pow2 b)%Q.
Proof. apply Qpower_plus. discriminate. Qed.

Lemma pow2_Z (k : Z) : 0 <= k -> (pow2 k == inject_Z (2 ^ k))%Q.
Proof. intros H. unfold pow2. now rewrite Zpower_Qpower. Qed.

Lemma pow2_le (a b : Z) : a <= b -> (pow2 a <= pow2 b)%Q.
Proof. intros H. apply Qpower_le_compat_l; [exact H|]. discriminate. Qed.

Lemma pow2_lt_inv (a b : Z) : (pow2 a < pow2 b)%Q -> a < b.
Proof.
  intros H. destruct (Z_lt_le_dec a b) as [L|L]; [exact L|].
  apply pow2_le in L. lra.
Qed.

(** From the integer statement of [binary_round_aux_pos] to values. *)
Lemma binary_round_aux_value (mx ex : Z) (lx : location) (N D : Z) (V : Q) :
  0 < D -> 0 < mx ->
  approx (shr_record_of_loc mx lx) N D ->
  53 <= Zdigits2 mx ->
  -1074 <= ex + (Zdigits2 mx - 53) <= 970 ->
  (V * inject_Z D == inject_Z N * pow2 ex)%Q ->
  rounded V (binary_round_aux prec emax false mx ex lx)
    (ex + (Zdigits2 mx - 53)) (ex + (Zdigits2 mx - 53) + 1).
Proof.
  intros HD Hmx Hx Hd He HV.
  destruct (binary_round_aux_pos mx ex lx N D HD Hmx Hx Hd He)
    as (m & e & M & -> & Hdig & Hee & HM & Hlo & Hup & Hdown).
  set (n := Zdigits2 mx - 53) in *. set (e1 := ex + n) in *.
  assert (Hn : 0 <= n) by (subst n; lia).
  assert (Hpn : 0 < 2 ^ n) by (apply Z.pow_pos_nonneg; lia).
  pose proof (pow2_pos e1) as Hu. pose proof (pow2_pos ex) as Hux.
  assert (Eu : (pow2 e1 == pow2 ex * inject_Z (2 ^ n))%Q).
  { unfold e1. now rewrite pow2_add, (pow2_Z n). }
  assert (HV' : (V * inject_Z (2 ^ n * D) == inject_Z N * pow2 e1)%Q).
  { rewrite inject_Z_mult, Eu. 
    transitivity (V * inject_Z D * inject_Z (2 ^ n))%Q; [ring|].
    rewrite HV. ring. }
  assert (HD' : (0 < inject_Z (2 ^ n * D))%Q).
  { rewrite <- (Zlt_Qlt 0). nia. }
  assert (Eval : (value (S754_finite false m e) == inject_Z M * pow2 e1)%Q).
  { cbn [value]. rewrite <- HM, inject_Z_mult.
    replace e with ((e - e1) + e1) at 1 by lia.
    rewrite pow2_add, (pow2_Z (e - e1)) by lia. ring. }
  exists m, e, e1. repeat split; try assumption; try lia.
  - (* 2^(52+e1) <= V *)
    rewrite pow2_add, (pow2_Z 52) by lia.
    rewrite Zle_Qle in Hlo.
    rewrite inject_Z_mult in Hlo.
    assert ((inject_Z (2 ^ 52) * pow2 e1) * inject_Z (2 ^ n * D)
            <= V * inject_Z (2 ^ n * D))%Q as Hc.
    { rewrite HV'. 
      setoid_replace (inject_Z (2 ^ 52) * pow2 e1 * inject_Z (2 ^ n * D))%Q
        with ((inject_Z (2 ^ 52) * inject_Z (2 ^ n * D)) * pow2 e1)%Q by ring.
      apply Qmult_le_compat_r; [exact Hlo|lra]. }
    apply Qmult_le_r in Hc; assumption.
  - intros z Hz. rewrite Eval.
    apply Qmult_le_compat_r; [|lra].
    rewrite <- Zle_Qle. apply Hup.
    rewrite Zle_Qle, inject_Z_mult.
    apply (Qmult_le_r _ _ (pow2 e1)); [exact Hu|].
    rewrite <- HV'.
    setoid_replace (inject_Z z * inject_Z (2 ^ n * D) * pow2 e1)%Q
      with ((inject_Z z * pow2 e1) * inject_Z (2 ^ n * D))%Q by ring.
    apply Qmult_le_compat_r; [exact Hz|lra].
  - intros z Hz. rewrite Eval.
    apply Qmult_le_compat_r; [|lra].
    rewrite <- Zle_Qle. apply Hdown.
    rewrite Zle_Qle, inject_Z_mult.
    apply (Qmult_le_r _ _ (pow2 e1)); [exact Hu|].
    rewrite <- HV'.
    setoid_replace (inject_Z z * inject_Z (2 ^ n * D) * pow2 e1)%Q
      with ((inject_Z z * pow2 e1) * inject_Z (2 ^ n * D))%Q by ring.
    apply Qmult_le_compat_r; [exact Hz|lra].
Qed.

Lemma rounded_normal (V : Q) (x : spec_float) (lo hi : Z) :
  rounded V x lo hi -> normal x lo hi.
Proof.
  intros (m & e & e1 & -> & Hd & Hlo & He & Hhi & _).
  exists m, e. repeat split; try assumption; lia.
Qed.

Lemma normal_value_pos (x : spec_float) (lo hi : Z) :
  normal x lo hi -> (0 < value x)%Q.
Proof.
  intros (m & e & -> & _). cbn [value].
  pose proof (pow2_pos e).
  assert (0 < inject_Z (Z.pos m))%Q by (rewrite <- (Zlt_Qlt 0); lia).
  nra.
Qed.

(** The rounded value is within one unit in the last place of the exact
    one, and the unit is at most [V * 2^-52]. *)
Lemma rounded_error (V : Q) (x : spec_float) (lo hi : Z) :
  rounded V x lo hi ->
  (V - V * pow2 (-52) <= value x <= V + V * pow2 (-52))%Q.
Proof.
  intros (m & e & e1 & -> & Hd & Hlo & He & Hhi & HV & Hup & Hdown).
  pose proof (pow2_pos e1) as Hu.
  assert (Hunit : (pow2 e1 <= V * pow2 (-52))%Q).
  { assert (E : (pow2 e1 == pow2 (52 + e1) * pow2 (-52))%Q).
    { rewrite <- pow2_add. now replace (52 + e1 + -52) with e1 by lia. }
    rewrite E. apply Qmult_le_compat_r; [exact HV|].
    apply Qlt_le_weak, pow2_pos. }
  set (t := (V / pow2 e1)%Q).
  assert (Et : (t * pow2 e1 == V)%Q) by (unfold t; field; lra).
  pose proof (Qfloor_le t) as Hf1. pose proof (Qlt_floor t) as Hf2.
  set (z := Qfloor t) in *.
  assert (H1 : (inject_Z z * pow2 e1 <= V)%Q).
  { rewrite <- Et. apply Qmult_le_compat_r; lra. }
  assert (H2 : (V <= inject_Z (z + 1) * pow2 e1)%Q).
  { rewrite <- Et. apply Qmult_le_compat_r; lra. }
  specialize (Hup _ H2). specialize (Hdown _ H1).
  rewrite inject_Z_plus in *. 
  change (inject_Z 1) with 1%Q in *.
  split; nra.
Qed.

(** Below [2^52] the grid contains the half-integers: rounding does not
    cross them. *)
Lemma rounded_half (V : Q) (x : spec_float) (lo hi : Z) (h : Z) :
  rounded V x lo hi ->
  (V < pow2 52)%Q ->
  (V <= inject_Z h + (1 # 2))%Q ->
  (value x <= inject_Z h + (1 # 2))%Q.
Proof.
  intros (m & e & e1 & -> & Hd & Hlo & He & Hhi & HV & Hup & Hdown) Hsmall Hh.
  assert (He1 : e1 < 0).
  { assert (52 + e1 < 52); [|lia]. apply pow2_lt_inv. lra. }
  assert (E : (inject_Z h + (1 # 2) ==
               inject_Z ((2 * h + 1) * 2 ^ (- 1 - e1)) * pow2 e1)%Q).
  { rewrite inject_Z_mult, <- (pow2_Z (-1 - e1)) by lia.
    rewrite <- Qmult_assoc, <- pow2_add.
    replace (-1 - e1 + e1) with (-1) by lia.
    rewrite inject_Z_plus, inject_Z_mult.
    change (pow2 (-1)) with (1 # 2)%Q. 
    change (inject_Z 2) with 2%Q. change (inject_Z 1) with 1%Q. ring. }
  rewrite E in *. now apply Hup.
Qed.

Lemma rounded_weaken (V : Q) (x : spec_float) (lo hi lo' hi' : Z) :
  rounded V x lo hi -> lo' <= lo -> hi <= hi' -> rounded V x lo' hi'.
Proof.
  intros (m & e & e1 & H) Hlo Hhi. exists m, e, e1.
  repeat split; try apply H; lia.
Qed.

Lemma rounded_ext (V V' : Q) (x : spec_float) (lo hi : Z) :
  rounded V x lo hi -> (V == V')%Q -> rounded V' x lo hi.
Proof.
  intros (m & e & e1 & Hx & Hd & Hlo & He & Hhi & HV & Hup & Hdown) E.
  exists m, e, e1. repeat split; try assumption; try lia.
  - now rewrite <- E.
  - intros z Hz. apply Hup. now rewrite E.
  - intros z Hz. apply Hdown. now rewrite E.
Qed.

(** A value that lies on the grid is not moved. *)
Lemma rounded_exact (V : Q) (x : spec_float) (lo hi : Z) :
  rounded V x lo hi ->
  (forall e1, lo <= e1 < hi -> exists z, (V == inject_Z z * pow2 e1)%Q) ->
  (value x == V)%Q.
Proof.
  intros (m & e & e1 & Hx & Hd & Hlo & He & Hhi & HV & Hup & Hdown) Hgrid.
  destruct (Hgrid e1 ltac:(lia)) as [z Ez].
  apply Qle_antisym.
  - rewrite Ez. apply Hup. rewrite Ez. apply Qle_refl.
  - rewrite Ez. apply Hdown. rewrite Ez. apply Qle_refl.
Qed.

Lemma approx_exact (m : Z) : 0 <= m -> approx (shr_record_of_loc m loc_Exact) m 1.
Proof.
  intros H. unfold approx, inexact. cbn. repeat split; try lia; discriminate.
Qed.

(** *** [float(z)] *)

Lemma pos_iter_xO (k p : positive) :
  Z.pos (Pos.iter xO p k) = Z.pos p * 2 ^ Z.pos k.
Proof.
  induction k as [|k IH] using Pos.peano_ind.
  - cbn [Pos.iter]. rewrite (Pos2Z.inj_xO p). change (2 ^ 1) with 2. lia.
  - rewrite Pos.iter_succ, (Pos2Z.inj_xO (Pos.iter xO p k)), IH.
    rewrite Pos2Z.inj_succ, Z.pow_succ_r by lia. ring.
Qed.

Lemma of_int_rounded (z k : Z) :
  1 <= z < 2 ^ k -> 0 <= k <= 53 ->
  normal (of_int z) (-52) (k - 52) /\ (value (of_int z) == inject_Z z)%Q.
Proof.
  intros Hz Hk. destruct z as [|p|p]; [lia| |lia].
  unfold of_int, binary_normalize, binary_round.
  pose proof (digits2_pos_bounds p) as Hb.
  set (d := Z.pos (digits2_pos p)) in *.
  assert (Hd1 : 1 <= d) by (subst d; lia).
  assert (Hdk : d <= k).
  { destruct (Z_lt_le_dec k d); [|assumption].
    assert (2 ^ k <= 2 ^ (d - 1)) by (apply Z.pow_le_mono_r; lia). lia. }
  rewrite Z.add_0_r, fexp_normal by lia.
  assert (Hal : exists mz, shl_align p 0 (d - 53) = (mz, d - 53)
                           /\ Z.pos mz = Z.pos p * 2 ^ (53 - d)).
  { unfold shl_align. rewrite Z.sub_0_r.
    destruct (d - 53) as [|q|q] eqn:Eq; [| lia |].
    - exists p. replace (53 - d) with 0 by lia. split; [reflexivity|]. lia.
    - exists (Pos.iter xO p q). split; [reflexivity|].
      rewrite pos_iter_xO. f_equal. f_equal. lia. }
  destruct Hal as (mz & -> & Emz).
  assert (Hp2 : 0 < 2 ^ (53 - d)) by (apply Z.pow_pos_nonneg; lia).
  assert (Hdz : Zdigits2 (Z.pos mz) = 53).
  { apply Zdigits2_range; [lia|]. rewrite Emz.
    replace (2 ^ (53 - 1)) with (2 ^ (d - 1) * 2 ^ (53 - d))
      by (rewrite <- Z.pow_add_r by lia; f_equal; lia).
    replace (2 ^ 53) with (2 ^ d * 2 ^ (53 - d))
      by (rewrite <- Z.pow_add_r by lia; f_equal; lia).
    nia. }
  assert (HV : (inject_Z (Z.pos p) * inject_Z 1
                == inject_Z (Z.pos mz) * pow2 (d - 53))%Q).
  { rewrite Emz, inject_Z_mult, <- (pow2_Z (53 - d)) by lia.
    rewrite <- Qmult_assoc, <- pow2_add.
    replace (53 - d + (d - 53)) with 0 by lia.
    change (pow2 0) with 1%Q. change (inject_Z 1) with 1%Q. ring. }
  pose proof (binary_round_aux_value (Z.pos mz) (d - 53) loc_Exact (Z.pos mz) 1
                (inject_Z (Z.pos p)) ltac:(lia) ltac:(lia)
                (approx_exact (Z.pos mz) ltac:(lia)) ltac:(rewrite Hdz; lia)
                ltac:(rewrite Hdz; lia) HV) as Hr.
  rewrite Hdz in Hr. replace (d - 53 + (53 - 53)) with (d - 53) in Hr by lia.
  split.
  - apply rounded_normal in Hr. destruct Hr as (m & e & E & Hm & He).
    exists m, e. repeat split; try assumption; lia.
  - apply (rounded_exact _ _ _ _ Hr). intros e1 He1.
    exists (Z.pos mz). replace e1 with (d - 53) by lia.
    rewrite <- HV. change (inject_Z 1) with 1%Q. ring.
Qed.

(** *** Division and multiplication of normal numbers *)

Lemma new_location_exact (nb k : Z) :
  is_exact (new_location nb k) = (k =? 0).
Proof.
  unfold new_location, new_location_even, new_location_odd.
  destruct (Z.even nb), (k =? 0); reflexivity.
Qed.

Lemma normal_mantissa (m : positive) :
  Z.pos (digits2_pos m) = 53 -> 2 ^ 52 <= Z.pos m < 2 ^ 53.
Proof. intros H. pose proof (digits2_pos_bounds m) as B. now rewrite H in B. Qed.

Lemma div_rounded (x y : spec_float) (l1 h1 l2 h2 : Z) :
  normal x l1 h1 -> normal y l2 h2 ->
  -1074 <= l1 - h2 - 53 -> h1 - l2 - 52 <= 970 ->
  rounded (value x / value y) (SFdiv prec emax x y)
    (l1 - h2 - 53) (h1 - l2 - 51).
Proof.
  intros (mx & ex & -> & Hdx & Hex) (my & ey & -> & Hdy & Hey) Hlo Hhi.
  pose proof (normal_mantissa mx Hdx) as Hmx.
  pose proof (normal_mantissa my Hdy) as Hmy.
  cbn [SFdiv xorb]. unfold SFdiv_core_binary. cbn [Zdigits2].
  rewrite Hdx, Hdy.
  replace (53 + ex - (53 + ey)) with (ex - ey) by lia.
  rewrite fexp_normal by lia.
  rewrite Z.min_l by lia.
  replace (ex - ey - (ex - ey - 53)) with 53 by lia.
  cbv iota.
  rewrite Z.shiftl_mul_pow2 by lia.
  pose proof (Z_div_mod (Z.pos mx * 2 ^ 53) (Z.pos my) ltac:(lia)) as Hdm.
  destruct (Z.div_eucl (Z.pos mx * 2 ^ 53) (Z.pos my)) as [q r].
  destruct Hdm as [Eq Hr].
  assert (Hq : 2 ^ 52 <= q < 2 ^ 54) by nia.
  assert (Hdq : 53 <= Zdigits2 q <= 54).
  { destruct (Z_lt_le_dec q (2 ^ 53)).
    - rewrite (Zdigits2_range q 53); lia.
    - rewrite (Zdigits2_range q 54); lia. }
  assert (Hap : approx (shr_record_of_loc q (new_location (Z.pos my) r))
                  (Z.pos mx * 2 ^ 53) (Z.pos my)).
  { unfold approx. destruct (record_of_loc q (new_location (Z.pos my) r)) as [-> ->].
    rewrite new_location_exact. repeat split; lia. }
  assert (HV : (value (S754_finite false mx ex) / value (S754_finite false my ey)
                * inject_Z (Z.pos my)
                == inject_Z (Z.pos mx * 2 ^ 53) * pow2 (ex - ey - 53))%Q).
  { cbn [value]. rewrite inject_Z_mult, <- (pow2_Z 53) by lia.
    replace ex with (53 + (ex - ey - 53) + ey) at 1 by lia.
    rewrite !pow2_add.
    pose proof (pow2_pos ey).
    assert (0 < inject_Z (Z.pos my))%Q by (rewrite <- (Zlt_Qlt 0); lia).
    field. split; lra. }
  eapply rounded_weaken;
    [ apply (binary_round_aux_value q (ex - ey - 53)
               (new_location (Z.pos my) r) (Z.pos mx * 2 ^ 53) (Z.pos my) _
               ltac:(lia) ltac:(lia) Hap ltac:(lia) ltac:(lia) HV) | lia | lia ].
Qed.

Lemma mul_rounded (x y : spec_float) (l1 h1 l2 h2 : Z) :
  normal x l1 h1 -> normal y l2 h2 ->
  -1074 <= l1 + l2 + 52 -> h1 + h2 + 53 <= 970 ->
  rounded (value x * value y) (SFmul prec emax x y)
    (l1 + l2 + 52) (h1 + h2 + 54).
Proof.
  intros (mx & ex & -> & Hdx & Hex) (my & ey & -> & Hdy & Hey) Hlo Hhi.
  pose proof (normal_mantissa mx Hdx) as Hmx.
  pose proof (normal_mantissa my Hdy) as Hmy.
  cbn [SFmul xorb].
  assert (Hq : 2 ^ 104 <= Z.pos (mx * my) < 2 ^ 106) by (rewrite Pos2Z.inj_mul; nia).
  assert (Hdq : 105 <= Zdigits2 (Z.pos (mx * my)) <= 106).
  { destruct (Z_lt_le_dec (Z.pos (mx * my)) (2 ^ 105)).
    - rewrite (Zdigits2_range _ 105); lia.
    - rewrite (Zdigits2_range _ 106); lia. }
  assert (HV : (value (S754_finite false mx ex) * value (S754_finite false my ey)
                * inject_Z 1
                == inject_Z (Z.pos (mx * my)) * pow2 (ex + ey))%Q).
  { cbn [value]. rewrite Pos2Z.inj_mul, inject_Z_mult, pow2_add.
    change (inject_Z 1) with 1%Q. ring. }
  eapply rounded_weaken;
    [ apply (binary_round_aux_value (Z.pos (mx * my)) (ex + ey) loc_Exact
               (Z.pos (mx * my)) 1 _
               ltac:(lia) ltac:(lia) (approx_exact (Z.pos (mx * my)) ltac:(lia))
               ltac:(lia) ltac:(lia) HV) | lia | lia ].
Qed.

End FloatFacts.

(** ** Floats: comparison and truncation *)

Section FloatOrder.
Import Float.
Open Scope Z_scope.

Lemma value_lt_exponent (m1 m2 : positive) (e1 e2 : Z) :
  Z.pos (digits2_pos m1) = 53 -> Z.pos (digits2_pos m2) = 53 -> e1 < e2 ->
  (value (S754_finite false m1 e1) < value (S754_finite false m2 e2))%Q.
Proof.
  intros H1 H2 He. cbn [value].
  pose proof (normal_mantissa m1 H1) as B1.
  pose proof (normal_mantissa m2 H2) as B2.
  assert (I1 : (inject_Z (Z.pos m1) < inject_Z (2 ^ 53))%Q)
    by (rewrite <- Zlt_Qlt; lia).
  assert (I2 : (inject_Z (2 ^ 52) <= inject_Z (Z.pos m2))%Q)
    by (rewrite <- Zle_Qle; lia).
  rewrite <- (pow2_Z 53) in I1 by lia. rewrite <- (pow2_Z 52) in I2 by lia.
  pose proof (pow2_pos e1) as P1. pose proof (pow2_pos e2) as P2.
  assert (L : (pow2 53 * pow2 e1 <= pow2 52 * pow2 e2)%Q).
  { rewrite <- !pow2_add. apply pow2_le. lia. }
  assert (A : (inject_Z (Z.pos m1) * pow2 e1 < pow2 53 * pow2 e1)%Q)
    by (apply Qmult_lt_compat_r; assumption).
  assert (B : (pow2 52 * pow2 e2 <= inject_Z (Z.pos m2) * pow2 e2)%Q)
    by (apply Qmult_le_compat_r; [assumption|lra]).
  lra.
Qed.

(** [x > y] on normal numbers is the order of their values. *)
Lemma gt_value (x y : float) (l1 h1 l2 h2 : Z) :
  normal x l1 h1 -> normal y l2 h2 ->
  (gt x y = true -> (value y < value x)%Q)
  /\ (gt x y = false -> (value x <= value y)%Q).
Proof.
  intros (mx & ex & -> & Hdx & _) (my & ey & -> & Hdy & _).
  unfold gt, SFltb. cbn [SFcompare].
  destruct (Z.compare_spec ey ex) as [E|L|G].
  - subst ey. change (Pos.compare_cont Eq my mx) with (Pos.compare my mx).
    pose proof (pow2_pos ex) as P. cbn [value].
    destruct (Pos.compare_spec my mx) as [E|L|G]; split; intros H;
      try discriminate H.
    + subst. apply Qle_refl.
    + apply Qmult_lt_compat_r; [exact P|].
      apply Qmult_lt_l; [reflexivity|]. rewrite <- Zlt_Qlt. lia.
    + apply Qmult_le_compat_r; [|lra].
      apply Qmult_le_l; [reflexivity|]. rewrite <- Zle_Qle. lia.
  - split; intros H; [|discriminate H].
    now apply value_lt_exponent.
  - split; intros H; [discriminate H|].
    apply Qlt_le_weak. now apply value_lt_exponent.
Qed.

(** [int(x)] is the integer part of the value. *)
Lemma magnitude_floor (m : positive) (e : Z) :
  (inject_Z (magnitude m e) <= value (S754_finite false m e)
   < inject_Z (magnitude m e) + 1)%Q.
Proof.
  unfold magnitude. cbn [value]. destruct (Z.leb_spec 0 e) as [He|He].
  - rewrite inject_Z_mult, <- (pow2_Z e) by lia. split; lra.
  - set (k := - e). assert (Hk : 0 < k) by (subst k; lia).
    assert (HP : 0 < 2 ^ k) by (apply Z.pow_pos_nonneg; lia).
    pose proof (Z.div_mod (Z.pos m) (2 ^ k) ltac:(lia)) as Edm.
    pose proof (Z.mod_pos_bound (Z.pos m) (2 ^ k) HP) as Hr.
    set (q := Z.pos m / 2 ^ k) in *. set (r := Z.pos m mod 2 ^ k) in *.
    assert (EP : (pow2 e * inject_Z (2 ^ k) == 1)%Q).
    { rewrite <- (pow2_Z k), <- pow2_add by lia.
      now replace (e + k) with 0 by (subst k; lia). }
    assert (HPq : (0 < inject_Z (2 ^ k))%Q) by (rewrite <- (Zlt_Qlt 0); lia).
    assert (Em : (inject_Z (Z.pos m) == inject_Z (2 ^ k) * inject_Z q + inject_Z r)%Q).
    { now rewrite <- inject_Z_mult, <- inject_Z_plus, <- Edm. }
    assert (Hr0 : (0 <= inject_Z r)%Q) by (rewrite <- (Zle_Qle 0); lia).
    assert (Hr1 : (inject_Z r < inject_Z (2 ^ k))%Q) by (rewrite <- Zlt_Qlt; lia).
    set (v := (1 * inject_Z (Z.pos m) * pow2 e)%Q).
    assert (Ev : (v * inject_Z (2 ^ k) == inject_Z (Z.pos m))%Q).
    { unfold v. rewrite <- !Qmult_assoc, EP. ring. }
    split.
    + apply (Qmult_le_r _ _ (inject_Z (2 ^ k))); [exact HPq|]. rewrite Ev, Em. lra.
    + apply (Qmult_lt_r _ _ (inject_Z (2 ^ k))); [exact HPq|]. rewrite Ev, Em. lra.
Qed.

Lemma int_normal (x : float) (lo hi : Z) :
  normal x lo hi ->
  exists n, int x = Py.Ok n /\ 0 <= n
            /\ (inject_Z n <= value x < inject_Z n + 1)%Q.
Proof.
  intros (m & e & -> & Hd & He). exists (magnitude m e). cbn [int].
  split; [reflexivity|]. split; [|apply magnitude_floor].
  unfold magnitude. destruct (Z.leb_spec 0 e).
  - assert (0 <= 2 ^ e) by (apply Z.pow_nonneg; lia). lia.
  - apply Z.div_pos; [lia|]. apply Z.pow_pos_nonneg; lia.
Qed.

(** Truncation below a half-integer bound. *)
Lemma int_below_half (x : float) (lo hi : Z) (n h : Z) :
  int x = Py.Ok n -> normal x lo hi ->
  (value x <= inject_Z h + (1 # 2))%Q -> n <= h.
Proof.
  intros Hn Hx Hv. destruct (int_normal x lo hi Hx) as (n' & E & _ & Hfl & _).
  rewrite Hn in E. injection E as <-.
  assert (L : (inject_Z n < inject_Z (h + 1))%Q).
  { rewrite inject_Z_plus. change (inject_Z 1) with 1%Q. lra. }
  rewrite <- Zlt_Qlt in L. lia.
Qed.

End FloatOrder.

(** ** resize_for_print: the scaled size *)

Section ScaledSizeFacts.
Import Py Float Design.
Open Scope Z_scope.

(** The two inequalities behind the bounds, on exact values: [t] is the
    target ratio [w / h] up to rounding, [r] the ratio of the image. *)
Lemma wider_fits (w h r t : Q) :
  (0 < w)%Q -> (0 < h)%Q -> (h <= inject_Z (2 ^ 31))%Q ->
  (w / h - w / h * pow2 (-52) <= t)%Q -> (t < r)%Q ->
  (w / r <= h + (1 # 2))%Q.
Proof.
  intros Hw Hh Hh31 Ht Hr.
  change (inject_Z (2 ^ 31)) with (2147483648 # 1)%Q in Hh31.
  change (pow2 (-52)) with (1 # 4503599627370496)%Q in Ht.
  set (Vt := (w / h)%Q) in *.
  assert (Et : (Vt * h == w)%Q) by (unfold Vt; field; lra).
  assert (HVt : (0 < Vt)%Q) by nra.
  assert (Ht0 : (0 < t)%Q) by nra.
  set (V := (w / r)%Q).
  assert (Ev : (V * r == w)%Q) by (unfold V; field; lra).
  assert (HV : (0 < V)%Q) by nra.
  destruct (Qlt_le_dec (h + (1 # 2)) V) as [L|L]; [exfalso|exact L].
  assert (A : (V * t < w)%Q) by nra.
  assert (B : ((h + (1 # 2)) * t < w)%Q) by nra.
  assert (C : ((h + (1 # 2)) * (Vt - Vt * (1 # 4503599627370496)) < Vt * h)%Q) by nra.
  nra.
Qed.

Lemma taller_fits (w h r t : Q) :
  (0 < w)%Q -> (0 < h)%Q -> (w <= inject_Z (2 ^ 31))%Q ->
  (t <= w / h + w / h * pow2 (-52))%Q -> (0 < r)%Q -> (r <= t)%Q ->
  (h * r <= w + (1 # 2))%Q.
Proof.
  intros Hw Hh Hw31 Ht Hr0 Hr.
  change (inject_Z (2 ^ 31)) with (2147483648 # 1)%Q in Hw31.
  change (pow2 (-52)) with (1 # 4503599627370496)%Q in Ht.
  set (Vt := (w / h)%Q) in *.
  assert (Et : (Vt * h == w)%Q) by (unfold Vt; field; lra).
  assert (HVt : (0 < Vt)%Q) by nra.
  assert (A : (h * r <= h * t)%Q) by nra.
  assert (B : (h * t <= h * (Vt + Vt * (1 # 4503599627370496)))%Q) by nra.
  nra.
Qed.

Lemma normal_not_zero (x : float) (lo hi : Z) : normal x lo hi -> is_zero x = false.
Proof. now intros (m & e & -> & _). Qed.

(** Image and canvas sizes: positive C ints. *)
#[local] Abbreviation size z := (1 <= z < 2 ^ 31).

Lemma size_value (z : Z) :
  size z ->
  normal (of_int z) (-52) (-21)
  /\ (value (of_int z) == inject_Z z)%Q
  /\ (0 < inject_Z z)%Q /\ (inject_Z z <= inject_Z (2 ^ 31))%Q.
Proof.
  intros Hz. destruct (of_int_rounded z 31 Hz ltac:(lia)) as [Hn Hv].
  repeat split; try assumption.
  - rewrite <- (Zlt_Qlt 0). lia.
  - rewrite <- Zle_Qle. lia.
Qed.

(** The ratio of two sizes. *)
Lemma ratio_rounded (a b : Z) :
  size a -> size b ->
  int_truediv a b = Ok (SFdiv prec emax (of_int a) (of_int b))
  /\ rounded (inject_Z a / inject_Z b)
       (SFdiv prec emax (of_int a) (of_int b)) (-84) (-20).
Proof.
  intros Ha Hb.
  destruct (size_value a Ha) as (Na & Va & _).
  destruct (size_value b Hb) as (Nb & Vb & Pb & _).
  split.
  - unfold int_truediv. now replace (b =? 0) with false by (symmetry; apply Z.eqb_neq; lia).
  - apply rounded_ext with (V := (value (of_int a) / value (of_int b))%Q).
    + apply (div_rounded _ _ (-52) (-21) (-52) (-21) Na Nb); lia.
    + rewrite Va, Vb. reflexivity.
Qed.

(** The two branches of [scaled_size], for sizes that are positive C
    ints: every float operation succeeds, the conversion takes the integer
    part, and the scaled image fits in the canvas. *)
Lemma scaled_size_cases (image_width image_height width height : Z) :
  size image_width -> size image_height -> size width -> size height ->
  exists img_ratio target_ratio new_width new_height,
    int_truediv image_width image_height = Ok img_ratio
    /\ int_truediv width height = Ok target_ratio
    /\ scaled_size image_width image_height width height
       = Ok (new_width, new_height)
    /\ if gt img_ratio target_ratio then
         new_width = width
         /\ (exists quotient,
               truediv (of_int width) img_ratio = Ok quotient
               /\ int quotient = Ok new_height
               /\ (inject_Z new_height <= value quotient
                   < inject_Z new_height + 1)%Q)
         /\ 0 <= new_height <= height
       else
         new_height = height
         /\ int (mul (of_int height) img_ratio) = Ok new_width
         /\ (inject_Z new_width <= value (mul (of_int height) img_ratio)
             < inject_Z new_width + 1)%Q
         /\ 0 <= new_width <= width.
Proof.
  intros Hiw Hih Hw Hh.
  destruct (ratio_rounded image_width image_height Hiw Hih) as [Ei Ri].
  destruct (ratio_rounded width height Hw Hh) as [Et Rt].
  set (ri := SFdiv prec emax (of_int image_width) (of_int image_height)) in *.
  set (rt := SFdiv prec emax (of_int width) (of_int height)) in *.
  pose proof (rounded_normal _ _ _ _ Ri) as Ni.
  pose proof (rounded_normal _ _ _ _ Rt) as Nt.
  pose proof (normal_value_pos _ _ _ Ni) as Pi.
  pose proof (rounded_error _ _ _ _ Rt) as [Elo Ehi].
  destruct (size_value width Hw) as (Nw & Vw & Pw & Bw).
  destruct (size_value height Hh) as (Nh & Vh & Ph & Bh).
  destruct (gt_value ri rt _ _ _ _ Ni Nt) as [Gt Gf].
  exists ri, rt.
  unfold scaled_size. rewrite Ei, Et. cbn [and_then].
  destruct (gt ri rt) eqn:G.
  - (* the image is wider *)
    unfold truediv. rewrite (normal_not_zero _ _ _ Ni). cbn [and_then].
    assert (Rq : rounded (inject_Z width / value ri)
                   (SFdiv prec emax (of_int width) ri) (-85) 12).
    { apply rounded_ext with (V := (value (of_int width) / value ri)%Q).
      - apply (div_rounded _ _ (-52) (-21) (-84) (-20) Nw Ni); lia.
      - rewrite Vw. reflexivity. }
    pose proof (rounded_normal _ _ _ _ Rq) as Nq.
    destruct (int_normal _ _ _ Nq) as (n & En & Hn0 & Hfl).
    rewrite En. cbn [and_then].
    exists width, n. split; [reflexivity|]. split; [reflexivity|].
    split; [reflexivity|]. split; [reflexivity|].
    split; [exists (SFdiv prec emax (of_int width) ri); auto|].
    split; [exact Hn0|].
    pose proof (wider_fits _ _ _ _ Pw Ph Bh Elo (Gt eq_refl)) as Hfit.
    apply (int_below_half _ _ _ _ _ En Nq).
    apply (rounded_half _ _ _ _ _ Rq); [|exact Hfit].
    change (pow2 52) with (4503599627370496 # 1)%Q.
    change (inject_Z (2 ^ 31)) with (2147483648 # 1)%Q in Bh. lra.
  - (* the image is taller *)
    assert (Rp : rounded (inject_Z height * value ri)
                   (SFmul prec emax (of_int height) ri) (-84) 13).
    { apply rounded_ext with (V := (value (of_int height) * value ri)%Q).
      - apply (mul_rounded _ _ (-52) (-21) (-84) (-20) Nh Ni); lia.
      - rewrite Vh. reflexivity. }
    pose proof (rounded_normal _ _ _ _ Rp) as Np.
    destruct (int_normal _ _ _ Np) as (n & En & Hn0 & Hfl).
    unfold mul. rewrite En. cbn [and_then].
    exists n, height. split; [reflexivity|]. split; [reflexivity|].
    split; [reflexivity|]. split; [reflexivity|].
    split; [reflexivity|]. split; [exact Hfl|].
    split; [exact Hn0|].
    pose proof (taller_fits _ _ _ _ Pw Ph Bw Ehi Pi (Gf eq_refl)) as Hfit.
    apply (int_below_half _ _ _ _ _ En Np).
    apply (rounded_half _ _ _ _ _ Rp); [|exact Hfit].
    change (pow2 52) with (4503599627370496 # 1)%Q.
    change (inject_Z (2 ^ 31)) with (2147483648 # 1)%Q in Bw. lra.
Qed.

(** For such sizes the computation of the scaled size always returns. *)
Lemma scaled_size_returns (image_width image_height width height : Z) :
  size image_width -> size image_height -> size width -> size height ->
  exists new_width new_height,
    scaled_size image_width image_height width height
    = Ok (new_width, new_height).
Proof.
  intros Hiw Hih Hw Hh.
  destruct (scaled_size_cases _ _ _ _ Hiw Hih Hw Hh)
    as (ri & rt & new_width & new_height & _ & _ & Hs & _).
  now exists new_width, new_height.
Qed.

(** C2, as the code has it.  For image and canvas sizes between 1 and
    [2^31 - 1]: if [img_ratio > target_ratio] then [new_width] is the
    target width and [new_height] is [int(width / img_ratio)], the
    integer part of the quotient (not the nearest integer), and it is at
    most the target height; otherwise [new_height] is the target height
    and [new_width] is [int(height * img_ratio)], the integer part of the
    product, and it is at most the target width. *)
Theorem scaled_size_truncates (image_width image_height width height : Z) :
  size image_width -> size image_height -> size width -> size height ->
  exists img_ratio target_ratio new_width new_height,
    int_truediv image_width image_height = Ok img_ratio
    /\ int_truediv width height = Ok target_ratio
    /\ scaled_size image_width image_height width height
       = Ok (new_width, new_height)
    /\ if gt img_ratio target_ratio then
         new_width = width
         /\ (exists quotient,
               truediv (of_int width) img_ratio = Ok quotient
               /\ int quotient = Ok new_height
               /\ (inject_Z new_height <= value quotient
                   < inject_Z new_height + 1)%Q)
         /\ 0 <= new_height <= height
       else
         new_height = height
         /\ int (mul (of_int height) img_ratio) = Ok new_width
         /\ (inject_Z new_width <= value (mul (of_int height) img_ratio)
             < inject_Z new_width + 1)%Q
         /\ 0 <= new_width <= width.
Proof. exact (scaled_size_cases image_width image_height width height). Qed.

End ScaledSizeFacts.

Lemma scaled_size_truncates_witness :
  exists img_ratio target_ratio new_width new_height,
    Float.int_truediv 1001 700 = Py.Ok img_ratio
    /\ Float.int_truediv 4500 5400 = Py.Ok target_ratio
    /\ Design.scaled_size 1001 700 4500 5400 = Py.Ok (new_width, new_height)
    /\ if Float.gt img_ratio target_ratio then
         new_width = 4500%Z
         /\ (exists quotient,
               Float.truediv (Float.of_int 4500) img_ratio = Py.Ok quotient
               /\ Float.int quotient = Py.Ok new_height
               /\ (inject_Z new_height <= Float.value quotient
                   < inject_Z new_height + 1)%Q)
         /\ (0 <= new_height <= 5400)%Z
       else
         new_height = 5400%Z
         /\ Float.int (Float.mul (Float.of_int 5400) img_ratio) = Py.Ok new_width
         /\ (inject_Z new_width <= Float.value (Float.mul (Float.of_int 5400) img_ratio)
             < inject_Z new_width + 1)%Q
         /\ (0 <= new_width <= 4500)%Z.
Proof.
  apply (scaled_size_truncates 1001 700 4500 5400); lia.
Defined.

(** An image of 7 x 1 pixels on the default canvas: the quotient
    4500 / 7.0 = 642.857... is cut to 642 by the code, where rounding
    gives 643. *)
Lemma scaled_size_does_not_round :
  Design.scaled_size 7 1 Design.TSHIRT_WIDTH Design.TSHIRT_HEIGHT
    = Py.Ok (4500, 642)%Z
  /\ Design.spec_scaled_size 7 1 Design.TSHIRT_WIDTH Design.TSHIRT_HEIGHT
    = Py.Ok (4500, 643)%Z
  /\ Design.scaled_size 7 1 Design.TSHIRT_WIDTH Design.TSHIRT_HEIGHT
     <> Design.spec_scaled_size 7 1 Design.TSHIRT_WIDTH Design.TSHIRT_HEIGHT.
Proof.
  assert (A : Design.scaled_size 7 1 Design.TSHIRT_WIDTH Design.TSHIRT_HEIGHT
              = Py.Ok (4500, 642)%Z) by (vm_compute; reflexivity).
  assert (B : Design.spec_scaled_size 7 1 Design.TSHIRT_WIDTH Design.TSHIRT_HEIGHT
              = Py.Ok (4500, 643)%Z) by (vm_compute; reflexivity).
  split; [exact A|]. split; [exact B|]. rewrite A, B. discriminate.
Qed.

(** ** resize_for_print: the canvas that is returned *)

Section CanvasFacts.
Import Py Design.
Open Scope Z_scope.

Variable core : PIL.core.

#[local] Abbreviation size z := (1 <= z < 2 ^ 31).

(** C3. The bitmap that [resize_for_print] returns has exactly the target
    width and height, is in RGBA mode, and is fully transparent at every
    pixel outside the box where the scaled image was pasted.  For image
    and canvas sizes between 1 and [2^31 - 1], a bitmap is returned
    whenever the scaled size is at least 1 x 1. *)
Theorem resize_for_print_canvas (image : PIL.image) (width height : Z) :
  (forall canvas,
     resize_for_print core image width height = Ok canvas ->
     PIL.width canvas = width /\ PIL.height canvas = height
     /\ PIL.mode canvas = PIL.RGBA
     /\ exists new_width new_height resized,
          scaled_size (PIL.width image) (PIL.height image) width height
            = Ok (new_width, new_height)
          /\ PIL.resize core image new_width new_height = Ok resized
          /\ forall i j,
               PIL.in_box ((width - new_width) / 2) ((height - new_height) / 2)
                 resized i j = false ->
               PIL.pixel_at canvas i j = PIL.transparent)
  /\ (size (PIL.width image) -> size (PIL.height image) ->
      size width -> size height ->
      (forall new_width new_height,
         scaled_size (PIL.width image) (PIL.height image) width height
           = Ok (new_width, new_height) ->
         1 <= new_width /\ 1 <= new_height) ->
      exists canvas, resize_for_print core image width height = Ok canvas).
Proof.
  split.
  - intros canvas H.
    destruct (resize_for_print_inv core _ _ _ _ H)
      as (new_width & new_height & resized & blank & Hs & Hr & Hn & ->).
    destruct (new_blank _ _ _ _ _ Hn) as (Hw & Hh & Hm & Hp).
    cbn [PIL.paste PIL.width PIL.height PIL.mode].
    repeat (split; [assumption|]).
    exists new_width, new_height, resized.
    split; [exact Hs|]. split; [exact Hr|].
    intros i j Hout. unfold PIL.paste. cbn [PIL.pixel_at]. rewrite Hout. apply Hp.
  - intros Hiw Hih Hw Hh Hnd.
    destruct (scaled_size_returns _ _ _ _ Hiw Hih Hw Hh)
      as (new_width & new_height & Hs).
    destruct (Hnd _ _ Hs) as [H1 H2].
    apply (resize_for_print_returns core image width height _ _ Hs); lia.
Qed.

End CanvasFacts.

Lemma resize_for_print_canvas_witness :
  exists canvas,
    Design.resize_for_print Samples.nearest (Samples.solid 1001 700) 4500 5400
    = Py.Ok canvas
    /\ PIL.width canvas = 4500%Z /\ PIL.height canvas = 5400%Z
    /\ PIL.mode canvas = PIL.RGBA
    /\ PIL.pixel_at canvas 0 0 = PIL.transparent
    /\ PIL.pixel_at canvas 0 1127 = Samples.magenta.
Proof.
  destruct (resize_for_print_canvas Samples.nearest (Samples.solid 1001 700)
              4500 5400) as [Hinv Hret].
  destruct Hret as [canvas Hc].
  - cbn. lia.
  - cbn. lia.
  - lia.
  - lia.
  - intros new_width new_height H. vm_compute in H.
    injection H as <- <-. lia.
  - exists canvas. split; [exact Hc|].
    destruct (Hinv canvas Hc) as (Hw & Hh & Hm & _).
    split; [exact Hw|]. split; [exact Hh|]. split; [exact Hm|].
    assert (E : Design.resize_for_print Samples.nearest (Samples.solid 1001 700)
                  4500 5400
                = Py.Ok (PIL.paste Samples.nearest
                           (PIL.Build_image 4500 5400 PIL.RGBA (fun _ _ => PIL.transparent))
                           (PIL.Build_image 4500 3146 PIL.RGB
                              (PIL.resample Samples.nearest (Samples.solid 1001 700) 4500 3146))
                           0 1127 None))
      by (vm_compute; reflexivity).
    rewrite E in Hc. injection Hc as <-. split; reflexivity.
Defined.

(* ================================================================== *)
(** * Further properties *)
(* ================================================================== *)

(** ** slugify: what a slug looks like *)

Section SlugFacts.
Import Text Measures.
Open Scope string_scope.

Ltac by_char c :=
  destruct c as [[] [] [] [] [] [] [] []]; vm_compute; try reflexivity; try discriminate.

Lemma closed_chars (s : string) (b : bool) (c : ascii) :
  slug_closed b s = true -> In c (chars s) ->
  c = underscore \/ clean c = true.
Proof.
  revert b; induction s as [|d t IH]; intros b H Hin; [destruct Hin|].
  cbn [slug_closed] in H. destruct (is_underscore d) eqn:Hu;
    apply andb_true_iff in H; destruct H as [H1 H2];
    destruct Hin as [<-|Hin]; eauto.
  left. now apply is_underscore_eq.
Qed.

Lemma closed_no_trailing (t : string) (b : bool) :
  slug_closed b (t ++ "_") = false.
Proof.
  revert b; induction t as [|c t IH]; intros b.
  - cbn. now destruct b.
  - cbn [append slug_closed]. destruct (is_underscore c); rewrite IH;
      [apply andb_false_r|apply andb_false_r].
Qed.

Lemma closed_no_double (a z : string) (b : bool) :
  slug_closed b (a ++ "__" ++ z) = false.
Proof.
  revert b; induction a as [|c a IH]; intros b.
  - cbn. now destruct b.
  - cbn [append slug_closed]. destruct (is_underscore c); rewrite IH;
      [apply andb_false_r|apply andb_false_r].
Qed.

Lemma clean_facts (c : ascii) :
  clean c = true ->
  is_word c = true /\ lower_char c = c /\ is_space c = false
  /\ is_hyphen c = false /\ is_underscore c = false.
Proof. by_char c; repeat split. Qed.

(** X1. Every character of a slug is a word character that [lower]
    leaves as it is (so no capital, no white space, no hyphen, and nothing
    that is not a letter, a digit or an underscore); a slug neither starts
    nor ends with an underscore and has no two underscores in a row. *)
Theorem slugify_characters (s : string) :
  (forall c, In c (chars (slugify s)) ->
     is_word c = true /\ lower_char c = c)
  /\ (forall t, slugify s <> "_" ++ t)
  /\ (forall t, slugify s <> t ++ "_")
  /\ (forall a z, slugify s <> a ++ "__" ++ z).
Proof.
  destruct (slugify_shape s) as [E|H].
  - rewrite E. split; [intros c []|].
    split; [intros t; discriminate|].
    split; [intros [|? ?]; discriminate|].
    intros [|? ?] z; discriminate.
  - split; [|split; [|split]].
    + intros c Hin. destruct (closed_chars _ _ _ H Hin) as [->|Hc].
      * split; reflexivity.
      * destruct (clean_facts _ Hc) as (Hw & Hl & _). now split.
    + intros t E. rewrite E in H. discriminate H.
    + intros t E. rewrite E, closed_no_trailing in H. discriminate H.
    + intros a z E. rewrite E, closed_no_double in H. discriminate H.
Qed.

(** Letters and digits survive every step. *)
Lemma alnum_kept (c : ascii) :
  keeps (lower_char c) && negb (is_sep (lower_char c)) = is_alnum c.
Proof. by_char c. Qed.

Lemma sep_kept (c : ascii) : is_sep c = true -> keeps c = true.
Proof. by_char c. Qed.

Lemma any_collapse (s : string) (b : bool) :
  any (fun c => negb (is_underscore c)) (collapse_from b s)
  = any (fun c => negb (is_sep c)) s.
Proof.
  revert b; induction s as [|c t IH]; intros b; [reflexivity|].
  cbn [collapse_from any]. destruct (is_sep c) eqn:Hs.
  - destruct b; cbn [any negb orb]; [apply IH|]. rewrite underscore_is. apply IH.
  - cbn [any]. rewrite (sep_not_underscore _ Hs), IH. reflexivity.
Qed.

Lemma any_remove_lower (s : string) :
  any (fun c => negb (is_sep c)) (remove_other (lower s)) = any is_alnum s.
Proof.
  induction s as [|c t IH]; [reflexivity|].
  cbn [lower remove_other any]. rewrite <- alnum_kept.
  destruct (keeps (lower_char c)); cbn [any andb]; now rewrite IH.
Qed.

Lemma any_lstrip (s : string) :
  any (fun c => negb (is_underscore c)) (lstrip s)
  = any (fun c => negb (is_underscore c)) s.
Proof.
  induction s as [|c t IH]; [reflexivity|].
  cbn [lstrip]. destruct (is_underscore c) eqn:Hu; [|reflexivity].
  cbn [any]. now rewrite Hu, IH.
Qed.

Lemma any_rstrip (s : string) :
  any (fun c => negb (is_underscore c)) (rstrip s)
  = any (fun c => negb (is_underscore c)) s.
Proof.
  induction s as [|c t IH]; [reflexivity|].
  cbn [rstrip any]. rewrite <- IH. destruct (rstrip t) as [|d r].
  - destruct (is_underscore c) eqn:Hu; cbn [any]; now rewrite ?Hu.
  - reflexivity.
Qed.

Lemma slugify_any (s : string) :
  any (fun c => negb (is_underscore c)) (slugify s) = any is_alnum s.
Proof.
  unfold slugify, strip, collapse.
  now rewrite any_rstrip, any_lstrip, any_collapse, any_remove_lower.
Qed.

(** X2. The slug is empty exactly when the text has no letter and no
    digit; otherwise it starts with a letter or a digit. *)
Theorem slugify_empty_iff (s : string) :
  (slugify s = "" <-> any is_alnum s = false)
  /\ (any is_alnum s = true ->
      exists c t, slugify s = String c t /\ is_alnum c = true).
Proof.
  pose proof (slugify_any s) as Hany. split; [split|].
  - intros E. now rewrite E in Hany.
  - intros E. rewrite E in Hany.
    destruct (slugify_shape s) as [E0|H]; [exact E0|].
    destruct (slugify s) as [|c t]; [reflexivity|].
    cbn [slug_closed any] in *. destruct (is_underscore c); discriminate.
  - intros E. rewrite E in Hany.
    destruct (slugify_shape s) as [E0|H]; [now rewrite E0 in Hany|].
    destruct (slugify s) as [|c t]; [discriminate|].
    exists c, t. split; [reflexivity|].
    cbn [slug_closed] in H. destruct (is_underscore c) eqn:Hu; [discriminate|].
    apply andb_true_iff in H. destruct H as [Hc _].
    destruct (clean_facts _ Hc) as (Hw & _). unfold is_alnum. now rewrite Hw, Hu.
Qed.

End SlugFacts.

(** ** create_prompt: the trend is quoted in the prompt *)

Section PromptFacts.
Import Py Text Measures Design.
Open Scope string_scope.

Variable world : env.

Lemma append_assoc3 (a b c : string) : (a ++ b) ++ c = a ++ (b ++ c).
Proof. induction a as [|x a IH]; cbn; [reflexivity|now rewrite IH]. Qed.

Lemma prefix_append (n b : string) : prefix n (n ++ b) = true.
Proof.
  induction n as [|c n IH]; [now destruct b|]. cbn.
  destruct (ascii_dec c c); [exact IH|congruence].
Qed.

Lemma contains_here (n b : string) : contains n (n ++ b) = true.
Proof.
  pose proof (prefix_append n b) as H.
  destruct (n ++ b); cbn [contains]; now rewrite H.
Qed.

Lemma prefix_whole (n : string) : prefix n n = true.
Proof.
  induction n as [|c n IH]; [reflexivity|]. cbn.
  destruct (ascii_dec c c); [exact IH|congruence].
Qed.

Lemma contains_whole (n : string) : contains n n = true.
Proof.
  pose proof (prefix_whole n) as H. destruct n; cbn [contains]; now rewrite H.
Qed.

Lemma contains_later (n a t : string) :
  contains n t = true -> contains n (a ++ t) = true.
Proof.
  intros H. induction a as [|c a IH]; [exact H|].
  cbn [append contains]. rewrite IH. apply orb_true_r.
Qed.

Lemma contains_middle (n a b : string) : contains n (a ++ n ++ b) = true.
Proof. apply contains_later, contains_here. Qed.

Lemma is_quote_eq (c : ascii) : is_quote c = true -> c = "'"%char.
Proof.
  destruct c as [[] [] [] [] [] [] [] []]; vm_compute; try reflexivity; discriminate.
Qed.

Lemma ends_with_quote_split (s : string) :
  ends_with_quote s = true -> exists t, s = t ++ "'".
Proof.
  induction s as [|c s IH]; [discriminate|].
  destruct s as [|d s].
  - cbn. intros H. exists "". now rewrite (is_quote_eq _ H).
  - intros H. destruct (IH H) as [t E]. exists (String c t). cbn [append].
    now rewrite <- E.
Qed.

Lemma starts_with_quote_split (s : string) :
  starts_with_quote s = true -> exists t, s = "'" ++ t.
Proof.
  destruct s as [|c s]; [discriminate|]. cbn. intros H.
  exists s. now rewrite (is_quote_eq _ H).
Qed.

(** Every preset puts its placeholder between two quotes. *)
Lemma presets_quote (style before after : string) :
  preset style STYLE_PRESETS = Some (before, after) ->
  ends_with_quote before = true /\ starts_with_quote after = true.
Proof.
  unfold STYLE_PRESETS. cbn [preset].
  repeat (destruct (String.eqb _ style);
          [intros [= <- <-]; split; reflexivity|]).
  discriminate.
Qed.

(** X3. For every preset style, and for every custom style that has no
    [{trend}] placeholder, [create_prompt] returns a prompt (it does not
    raise) that contains the trend between single quotes and ends with
    the quality suffix. *)
Theorem create_prompt_quotes_trend (trend style : string) :
  preset style STYLE_PRESETS <> None \/ contains "{trend}" style = false ->
  exists body,
    create_prompt world trend style
    = Ok (body ++ ", high quality, vector art, print ready, centered composition")
    /\ contains ("'" ++ trend ++ "'") body = true.
Proof.
  intros H. unfold create_prompt.
  destruct (preset style STYLE_PRESETS) as [[before after]|] eqn:Ep.
  - destruct (presets_quote _ _ _ Ep) as [Hb Ha].
    destruct (ends_with_quote_split _ Hb) as [b' ->].
    destruct (starts_with_quote_split _ Ha) as [a' ->].
    eexists. split; [reflexivity|].
    rewrite append_assoc3. apply contains_later.
    rewrite <- (append_assoc3 trend "'" a').
    rewrite <- (append_assoc3 "'" (trend ++ "'") a').
    apply contains_here.
  - destruct H as [H|H]; [congruence|]. rewrite H.
    eexists. split; [reflexivity|].
    apply contains_later.
    change (" with text '" ++ trend ++ "'")
      with (" with text " ++ ("'" ++ trend ++ "'")).
    apply contains_later, contains_whole.
Qed.

End PromptFacts.

Lemma create_prompt_quotes_trend_witness :
  exists body,
    Design.create_prompt Samples.studio "Cats" "neon"
    = Py.Ok (String.append body
               ", high quality, vector art, print ready, centered composition")
    /\ Text.contains "'Cats'" body = true.
Proof.
  apply (create_prompt_quotes_trend Samples.studio "Cats" "neon").
  left. discriminate.
Defined.

(** ** get_trending_topics: what is raised, what is returned *)

Section TrendsMore.
Import Py Trends.
Open Scope Z_scope.

(** An exception that leaves [get_trending_topics] comes from building the
    client, or is not an [Exception]. *)
Lemma get_trending_topics_raises
    (py : pytrends) (region timeframe : string) (limit : Z) (e : exn) :
  get_trending_topics py region timeframe limit = Raise e ->
  TrendReq py = Raise e
  \/ (TrendReq py = Ok tt /\ fetch py region limit = Raise e
      /\ is_Exception e = false).
Proof.
  unfold get_trending_topics. destruct (TrendReq py) as [[]|e0].
  - destruct (fetch py region limit) as [[topics|]|e1]; try discriminate.
    destruct (is_Exception e1) eqn:E1; [discriminate|].
    intros [= ->]. right. now repeat split.
  - intros [= ->]. now left.
Qed.

(** Reading a column raises a [KeyError] and nothing else. *)
Lemma column_raises (df : frame) (key : label) (e : exn) :
  column df key = Raise e -> is_Exception e = true.
Proof.
  induction df as [|[l rows] rest IH]; cbn [column].
  - now intros [= <-].
  - destruct (label_eqb l key); [discriminate|exact IH].
Qed.

(** The fetch raises what one of its two calls raised, or the [KeyError]
    of a missing column. *)
Lemma fetch_raises (py : pytrends) (region : string) (limit : Z) (e : exn) :
  fetch py region limit = Raise e <->
  trending_searches py (Text.lower region) = Raise e
  \/ exists df,
       trending_searches py (Text.lower region) = Ok df
       /\ ((empty df = true /\ realtime_trending_searches py region = Raise e)
           \/ (empty df = true
               /\ exists df', realtime_trending_searches py region = Ok df'
                    /\ empty df' = false
                    /\ column df' (Name "title") = Raise e)
           \/ (empty df = false /\ column df (Index 0) = Raise e)).
Proof.
  unfold fetch. split.
  - destruct (trending_searches py (Text.lower region)) as [df|e0];
      [|intros [= ->]; now left].
    intros H. right. exists df. split; [reflexivity|].
    destruct (empty df).
    + destruct (realtime_trending_searches py region) as [df'|e0];
        [|injection H as ->; left; now split].
      right; left. split; [reflexivity|]. exists df'.
      destruct (empty df'); cbn [negb] in H; [discriminate|].
      destruct (column df' (Name "title")) as [titles|e0]; [discriminate|].
      injection H as ->. now repeat split.
    + right; right. split; [reflexivity|].
      destruct (column df (Index 0)) as [col|e0]; [discriminate|].
      now injection H as ->.
  - intros [H|(df & H & [[He Hr]|[(He & df' & Hr & He' & Hc)|[He Hc]]])];
      rewrite H; [reflexivity| | |].
    + now rewrite He, Hr.
    + now rewrite He, Hr, He', Hc.
    + now rewrite He, Hc.
Qed.

(** X4. An exception leaves [get_trending_topics] in two cases only:
    building the client raised it, before the [try]; or it is not an
    [Exception] (an interrupt from the keyboard, an exit) and one of the
    two calls of the client raised it.  Whatever else goes wrong inside
    the [try] stays inside. *)
Theorem get_trending_topics_raises_iff
    (py : pytrends) (region timeframe : string) (limit : Z) (e : exn) :
  get_trending_topics py region timeframe limit = Raise e <->
  TrendReq py = Raise e
  \/ (TrendReq py = Ok tt /\ is_Exception e = false
      /\ (trending_searches py (Text.lower region) = Raise e
          \/ exists df,
               trending_searches py (Text.lower region) = Ok df
               /\ empty df = true
               /\ realtime_trending_searches py region = Raise e)).
Proof.
  split.
  - intros H. apply get_trending_topics_raises in H.
    destruct H as [H|(Hc & Hf & He)]; [now left|right].
    split; [exact Hc|]. split; [exact He|].
    apply fetch_raises in Hf.
    destruct Hf as [H|(df & H & [[Hd Hr]|[(Hd & df' & Hr & Hd' & Hcol)|[Hd Hcol]]])].
    + now left.
    + right. now exists df.
    + apply column_raises in Hcol. congruence.
    + apply column_raises in Hcol. congruence.
  - intros [H|(Hc & He & H)]; unfold get_trending_topics.
    + now rewrite H.
    + rewrite Hc.
      assert (Hf : fetch py region limit = Raise e).
      { apply fetch_raises. destruct H as [H|(df & H & Hd & Hr)]; [now left|].
        right. exists df. split; [exact H|]. left. now split. }
      now rewrite Hf, He.
Qed.

Lemma ranked_from_length (topics : list string) (i step : Z) :
  List.length (ranked_from i step topics) = List.length topics.
Proof.
  revert i; induction topics as [|t rest IH]; intros i; [reflexivity|].
  cbn. now rewrite IH.
Qed.

Lemma ranked_from_nth (topics : list string) (i step : Z) (n : nat) (q : string) :
  nth_error topics n = Some q ->
  nth_error (ranked_from i step topics) n
  = Some {| query := q; value := 100 - (i + Z.of_nat n) * step |}.
Proof.
  revert i n; induction topics as [|t rest IH]; intros i n H.
  - destruct n; discriminate.
  - destruct n as [|n].
    + injection H as ->. cbn. now rewrite Z.add_0_r.
    + cbn [ranked_from nth_error]. rewrite (IH (i + 1) n H).
      do 3 f_equal. lia.
Qed.

Lemma firstn_nth {A : Type} (l : list A) (k n : nat) :
  (n < k)%nat -> nth_error (firstn k l) n = nth_error l n.
Proof.
  revert k n; induction l as [|a l IH]; intros k n H.
  - now rewrite firstn_nil.
  - destruct k; [lia|]. destruct n; [reflexivity|]. cbn. apply IH. lia.
Qed.

(** X5. When the first call answers with a frame that is not empty and has
    a column 0, the topics returned are the first [limit] rows of that
    column, in their order, and the row at position [n] gets the rank
    [100 - 5 * n]. *)
Theorem get_trending_topics_ranked
    (py : pytrends) (region timeframe : string) (limit : Z)
    (df : frame) (rows : list string) :
  TrendReq py = Ok tt ->
  trending_searches py (Text.lower region) = Ok df ->
  empty df = false ->
  column df (Index 0) = Ok rows ->
  0 <= limit ->
  exists topics,
    get_trending_topics py region timeframe limit = Ok topics
    /\ List.length topics = Nat.min (Z.to_nat limit) (List.length rows)
    /\ forall n q,
         (n < Z.to_nat limit)%nat -> nth_error rows n = Some q ->
         nth_error topics n
         = Some {| query := q; value := 100 - 5 * Z.of_nat n |}.
Proof.
  intros Hc Ht He Hcol Hl.
  unfold get_trending_topics, fetch. rewrite Hc, Ht, He, Hcol.
  eexists. split; [reflexivity|]. unfold ranked, head.
  replace (0 <=? limit) with true by (symmetry; apply Z.leb_le; lia).
  split.
  - now rewrite ranked_from_length, length_firstn.
  - intros n q Hn Hq.
    rewrite (ranked_from_nth _ 0 5 n q) by (now rewrite firstn_nth).
    do 2 f_equal. lia.
Qed.

End TrendsMore.

Lemma get_trending_topics_ranked_witness :
  exists topics,
    Trends.get_trending_topics MoreSamples.online "US" "now 1-H" 2 = Py.Ok topics
    /\ List.length topics = 2%nat
    /\ nth_error topics 1
       = Some {| Trends.query := "Solar Eclipse"; Trends.value := 95 |}.
Proof.
  destruct (get_trending_topics_ranked MoreSamples.online "US" "now 1-H" 2
              [(Trends.Index 0%Z, ["World Cup"; "Solar Eclipse"; "New Phone"]%string)]
              ["World Cup"; "Solar Eclipse"; "New Phone"]%string
              eq_refl eq_refl eq_refl eq_refl ltac:(lia))
    as (topics & E & Hlen & Hnth).
  exists topics. split; [exact E|]. split; [exact Hlen|].
  apply (Hnth 1%nat "Solar Eclipse"%string); [cbn; lia|reflexivity].
Defined.

(** ** generate_design: how much it calls and waits *)

Section RetryBudget.
Import Py Retry Measures.
Open Scope Z_scope.
Open Scope list_scope.

Variable Img : Type.
Variable service : option string -> string -> Z -> result Img.
Variable hf_token : option string.
Variable prompt : string.
Variable retries : Z.

#[local] Abbreviation trace := (list (event Img)).

Lemma attempts_made_app (a b : trace) :
  attempts_made (a ++ b) = attempts_made a + attempts_made b.
Proof.
  induction a as [|[k|s|p i] a IH]; cbn [app attempts_made]; lia.
Qed.

Lemma seconds_slept_app (a b : trace) :
  seconds_slept (a ++ b) = seconds_slept a + seconds_slept b.
Proof.
  induction a as [|[k|s|p i] a IH]; cbn [app seconds_slept]; lia.
Qed.

(** One turn of the loop: one call, a wait of at most [60 * (k + 1)]
    seconds, an image only from the service, and no exception but one of
    the service that is not an [Exception]. *)
Lemma attempt_once_cases (k : Z) (w : trace) :
  0 <= k ->
  exists out new,
    attempt_once service hf_token prompt retries k w = (out, w ++ new)
    /\ attempts_made new = 1
    /\ 0 <= seconds_slept new <= 60 * (k + 1)
    /\ (forall image, out = Ok (Some (Some image)) ->
          service (client_token hf_token) prompt k = Ok image)
    /\ (forall e, out = Raise e ->
          is_Exception e = false
          /\ service (client_token hf_token) prompt k = Raise e).
Proof.
  intros Hk.
  unfold attempt_once, try_except, text_to_image, sleep, bind, emit, lift, ret.
  assert (Hsplit : forall (out : result (option (option Img))) (new : trace) run,
            run = (out, w ++ new) -> attempts_made new = 1 ->
            0 <= seconds_slept new <= 60 * (k + 1) ->
            (forall image, out = Ok (Some (Some image)) ->
               service (client_token hf_token) prompt k = Ok image) ->
            (forall e, out = Raise e ->
               is_Exception e = false
               /\ service (client_token hf_token) prompt k = Raise e) ->
            exists out new, run = (out, w ++ new) /\ attempts_made new = 1
              /\ 0 <= seconds_slept new <= 60 * (k + 1)
              /\ (forall image, out = Ok (Some (Some image)) ->
                    service (client_token hf_token) prompt k = Ok image)
              /\ (forall e, out = Raise e ->
                    is_Exception e = false
                    /\ service (client_token hf_token) prompt k = Raise e))
    by (intros out new run; eauto 7).
  destruct (service (client_token hf_token) prompt k) as [image|e] eqn:Es.
  - apply (Hsplit (Ok (Some (Some image))) [Attempt k]);
      [reflexivity|reflexivity|cbn [seconds_slept]; lia|now intros ? [= ->]
      |discriminate].
  - destruct (is_Exception e) eqn:Ee.
    + destruct (classify (str e)).
      * apply (Hsplit (Ok None) [Attempt k; Sleep (60 * (k + 1))]);
          [now rewrite <- app_assoc|reflexivity|cbn [seconds_slept]; lia
          |discriminate|discriminate].
      * apply (Hsplit (Ok None) [Attempt k; Sleep 60]);
          [now rewrite <- app_assoc|reflexivity|cbn [seconds_slept]; lia
          |discriminate|discriminate].
      * apply (Hsplit (Ok (Some None)) [Attempt k]);
          [reflexivity|reflexivity|cbn [seconds_slept]; lia
          |discriminate|discriminate].
      * destruct (k <? retries - 1).
        -- apply (Hsplit (Ok None) [Attempt k; Sleep 10]);
             [now rewrite <- app_assoc|reflexivity|cbn [seconds_slept]; lia
             |discriminate|discriminate].
        -- apply (Hsplit (Ok None) [Attempt k]);
             [reflexivity|reflexivity|cbn [seconds_slept]; lia
             |discriminate|discriminate].
    + apply (Hsplit (Raise e) [Attempt k]);
        [reflexivity|reflexivity|cbn [seconds_slept]; lia|discriminate|].
      intros e' [= <-]. now split.
Qed.

Lemma wait_budget_nonneg (todo : list Z) :
  Forall (fun k => 0 <= k) todo -> 0 <= wait_budget todo.
Proof. intros H. induction H; cbn [wait_budget]; lia. Qed.

Lemma attempts_cases (todo : list Z) (w : trace) :
  Forall (fun k => 0 <= k) todo ->
  exists out new,
    attempts service hf_token prompt retries todo w = (out, w ++ new)
    /\ 0 <= attempts_made new <= Z.of_nat (List.length todo)
    /\ 0 <= seconds_slept new <= wait_budget todo
    /\ (forall image, out = Ok (Some image) ->
          exists k, In k todo
                    /\ service (client_token hf_token) prompt k = Ok image)
    /\ (forall e, out = Raise e ->
          is_Exception e = false
          /\ exists k, In k todo
                       /\ service (client_token hf_token) prompt k = Raise e).
Proof.
  revert w; induction todo as [|k rest IH]; intros w Hpos.
  - exists (Ok None), []. rewrite app_nil_r. cbn.
    repeat split; try lia; discriminate.
  - inversion Hpos as [|? ? Hk Hrest]; subst.
    pose proof (wait_budget_nonneg rest Hrest) as Hb.
    destruct (attempt_once_cases k w Hk) as (r1 & new1 & E1 & A1 & S1 & I1 & R1).
    cbn [attempts]. unfold bind at 1. rewrite E1.
    destruct r1 as [[out|]|e1].
    + exists (Ok out), new1. unfold ret. split; [reflexivity|].
      cbn [List.length wait_budget].
      split; [lia|]. split; [lia|]. split; [|discriminate].
      intros image [= ->]. exists k. split; [now left|]. now apply I1.
    + destruct (IH (w ++ new1) Hrest) as (r & new & E & A & S & I & R).
      exists r, (new1 ++ new). rewrite E, app_assoc. split; [reflexivity|].
      rewrite attempts_made_app, seconds_slept_app.
      cbn [List.length wait_budget].
      split; [lia|]. split; [lia|]. split.
      * intros image Hr. destruct (I image Hr) as (j & Hj & Ej).
        exists j. split; [now right|exact Ej].
      * intros e Hr. destruct (R e Hr) as (He & j & Hj & Ej).
        split; [exact He|]. exists j. split; [now right|exact Ej].
    + exists (Raise e1), new1. split; [reflexivity|].
      cbn [List.length wait_budget].
      split; [lia|]. split; [lia|]. split; [discriminate|].
      intros e [= <-]. destruct (R1 e1 eq_refl) as [He Es].
      split; [exact He|]. exists k. split; [now left|exact Es].
Qed.

Lemma wait_budget_seq (a n : nat) :
  wait_budget (map Z.of_nat (seq a n))
  = 30 * Z.of_nat n * (2 * Z.of_nat a + Z.of_nat n + 1).
Proof.
  revert a; induction n as [|n IH]; intros a; [cbn; lia|].
  cbn [seq map wait_budget]. rewrite IH. nia.
Qed.

Lemma range_facts :
  Forall (fun k => 0 <= k) (range retries)
  /\ Z.of_nat (List.length (range retries)) = Z.max 0 retries
  /\ (forall k, In k (range retries) -> 0 <= k < retries)
  /\ wait_budget (range retries)
     = 30 * Z.max 0 retries * (Z.max 0 retries + 1).
Proof.
  unfold range. repeat split.
  - apply Forall_forall. intros k Hk. apply in_map_iff in Hk.
    destruct Hk as (n & <- & _). lia.
  - rewrite length_map, length_seq. lia.
  - apply in_map_iff in H. destruct H as (n & <- & _). lia.
  - apply in_map_iff in H. destruct H as (n & <- & Hn).
    apply in_seq in Hn. lia.
  - rewrite wait_budget_seq. lia.
Qed.


(** X7. The waits of one call of [generate_design] add up to at most
    [30 * N * (N + 1)] seconds for [N] attempts: 360 seconds with the
    default of 3. *)
Theorem generate_design_wait_budget (w : trace) :
  exists out new,
    generate_design service prompt hf_token retries w = (out, w ++ new)
    /\ 0 <= seconds_slept new
       <= 30 * Z.max 0 retries * (Z.max 0 retries + 1).
Proof.
  destruct range_facts as (Hpos & _ & _ & Hb).
  destruct (attempts_cases (range retries) w Hpos) as (out & new & E & _ & S & _).
  exists out, new. split; [exact E|]. lia.
Qed.

End RetryBudget.

(** The budget is reached: three 503 failures wait 60 + 120 + 180 seconds. *)
Example full_wait_budget_reached :
  Measures.seconds_slept
    (snd (Retry.generate_design
            (fun _ _ _ => Py.Raise (Retry.error "503 Service Unavailable"))
            "a prompt" None 3 ([] : list (Py.event nat))))
  = 360%Z.
Proof. reflexivity. Qed.

(** ** resize_for_print: how close the scaled size is to the exact one *)

Section ProportionFacts.
Import Py Float Design.
Open Scope Z_scope.

#[local] Abbreviation size z := (1 <= z < 2 ^ 31).

(** On exact values: [r] is the image ratio [vi] up to rounding, [q] the
    quotient [w / r] up to rounding, and the quotient is below [2^32]. *)
Lemma wider_close (w vi r q : Q) :
  (0 < w)%Q -> (0 < vi)%Q ->
  (vi - vi * pow2 (-52) <= r <= vi + vi * pow2 (-52))%Q ->
  (w / r - w / r * pow2 (-52) <= q <= w / r + w / r * pow2 (-52))%Q ->
  (w / r <= inject_Z (2 ^ 32))%Q ->
  (w / vi - (1 # 1000) <= q <= w / vi + (1 # 1000))%Q.
Proof.
  intros Hw Hvi Hr Hq Hb.
  change (pow2 (-52)) with (1 # 4503599627370496)%Q in *.
  change (inject_Z (2 ^ 32)) with (4294967296 # 1)%Q in Hb.
  assert (Hr0 : (0 < r)%Q) by nra.
  set (V := (w / r)%Q) in *. set (X := (w / vi)%Q).
  assert (EV : (V * r == w)%Q) by (unfold V; field; lra).
  assert (EX : (X * vi == w)%Q) by (unfold X; field; lra).
  assert (HV : (0 < V)%Q) by nra.
  assert (A : (V * (vi - vi * (1 # 4503599627370496)) <= X * vi)%Q) by nra.
  assert (B : (X * vi <= V * (vi + vi * (1 # 4503599627370496)))%Q) by nra.
  assert (A' : (V - V * (1 # 4503599627370496) <= X)%Q) by nra.
  assert (B' : (X <= V + V * (1 # 4503599627370496))%Q) by nra.
  split; nra.
Qed.

Lemma taller_close (h vi r p : Q) :
  (0 < h)%Q -> (0 < vi)%Q ->
  (vi - vi * pow2 (-52) <= r <= vi + vi * pow2 (-52))%Q ->
  (h * r - h * r * pow2 (-52) <= p <= h * r + h * r * pow2 (-52))%Q ->
  (h * r <= inject_Z (2 ^ 32))%Q ->
  (h * vi - (1 # 1000) <= p <= h * vi + (1 # 1000))%Q.
Proof.
  intros Hh Hvi Hr Hp Hb.
  change (pow2 (-52)) with (1 # 4503599627370496)%Q in *.
  change (inject_Z (2 ^ 32)) with (4294967296 # 1)%Q in Hb.
  assert (Hr0 : (0 < r)%Q) by nra.
  set (V := (h * r)%Q) in *. set (X := (h * vi)%Q).
  assert (HV : (0 < V)%Q) by (unfold V; nra).
  assert (A' : (X - X * (1 # 4503599627370496) <= V)%Q) by (unfold V, X; nra).
  assert (B' : (V <= X + X * (1 # 4503599627370496))%Q) by (unfold V, X; nra).
  assert (HX : (X <= 4294967297 # 1)%Q) by nra.
  split; nra.
Qed.

(** The scaled side against the exact proportional length. *)
Lemma scaled_size_close
    (image_width image_height width height : Z) :
  size image_width -> size image_height -> size width -> size height ->
  exists new_width new_height,
    scaled_size image_width image_height width height
    = Ok (new_width, new_height)
    /\ ((new_width = width
         /\ let exact := (inject_Z width * inject_Z image_height
                          / inject_Z image_width)%Q in
            (exact - (1001 # 1000) < inject_Z new_height
             <= exact + (1 # 1000))%Q)
        \/ (new_height = height
            /\ let exact := (inject_Z height * inject_Z image_width
                             / inject_Z image_height)%Q in
               (exact - (1001 # 1000) < inject_Z new_width
                <= exact + (1 # 1000))%Q)).
Proof.
  intros Hiw Hih Hw Hh.
  destruct (scaled_size_cases _ _ _ _ Hiw Hih Hw Hh)
    as (ri & rt & new_width & new_height & Ei & _ & Hs & Hcase).
  destruct (ratio_rounded image_width image_height Hiw Hih) as [Ei' Ri].
  rewrite Ei' in Ei. injection Ei as <-.
  set (ri := SFdiv prec emax (of_int image_width) (of_int image_height)) in *.
  pose proof (rounded_normal _ _ _ _ Ri) as Ni.
  pose proof (normal_value_pos _ _ _ Ni) as Pi.
  pose proof (rounded_error _ _ _ _ Ri) as Eri.
  destruct (size_value image_width Hiw) as (_ & _ & Piw & _).
  destruct (size_value image_height Hih) as (_ & _ & Pih & _).
  destruct (size_value width Hw) as (Nw & Vw & Pw & Bw).
  destruct (size_value height Hh) as (Nh & Vh & Ph & Bh).
  change (inject_Z (2 ^ 31)) with (2147483648 # 1)%Q in Bw, Bh.
  assert (Pvi : (0 < inject_Z image_width / inject_Z image_height)%Q).
  { apply Qlt_shift_div_l; lra. }
  exists new_width, new_height. split; [exact Hs|].
  destruct (gt ri rt).
  - left. destruct Hcase as (-> & (quotient & Eq & En & Hfl) & Hn).
    split; [reflexivity|]. cbv zeta.
    unfold truediv in Eq. rewrite (normal_not_zero _ _ _ Ni) in Eq.
    injection Eq as <-.
    assert (Rq : rounded (inject_Z width / value ri)
                   (SFdiv prec emax (of_int width) ri) (-85) 12).
    { apply rounded_ext with (V := (value (of_int width) / value ri)%Q).
      - apply (div_rounded _ _ (-52) (-21) (-84) (-20) Nw Ni); lia.
      - rewrite Vw. reflexivity. }
    pose proof (rounded_error _ _ _ _ Rq) as Erq.
    assert (Hb : (inject_Z width / value ri <= inject_Z (2 ^ 32))%Q).
    { destruct (Qlt_le_dec (inject_Z (2 ^ 32)) (inject_Z width / value ri))
        as [L|L]; [exfalso|exact L].
      change (inject_Z (2 ^ 32)) with (4294967296 # 1)%Q in L.
      change (pow2 (-52)) with (1 # 4503599627370496)%Q in Erq.
      assert (inject_Z new_height <= inject_Z height)%Q
        by (rewrite <- Zle_Qle; lia).
      lra. }
    pose proof (wider_close _ _ _ _ Pw Pvi Eri Erq Hb) as Hclose.
    assert (Ex : (inject_Z width * inject_Z image_height / inject_Z image_width
                  == inject_Z width / (inject_Z image_width / inject_Z image_height))%Q)
      by (field; split; lra).
    rewrite Ex. lra.
  - right. destruct Hcase as (-> & En & Hfl & Hn).
    split; [reflexivity|]. cbv zeta.
    assert (Rp : rounded (inject_Z height * value ri)
                   (SFmul prec emax (of_int height) ri) (-84) 13).
    { apply rounded_ext with (V := (value (of_int height) * value ri)%Q).
      - apply (mul_rounded _ _ (-52) (-21) (-84) (-20) Nh Ni); lia.
      - rewrite Vh. reflexivity. }
    pose proof (rounded_error _ _ _ _ Rp) as Erp.
    unfold mul in Hfl.
    assert (Hb : (inject_Z height * value ri <= inject_Z (2 ^ 32))%Q).
    { destruct (Qlt_le_dec (inject_Z (2 ^ 32)) (inject_Z height * value ri))
        as [L|L]; [exfalso|exact L].
      change (inject_Z (2 ^ 32)) with (4294967296 # 1)%Q in L.
      change (pow2 (-52)) with (1 # 4503599627370496)%Q in Erp.
      assert (inject_Z new_width <= inject_Z width)%Q
        by (rewrite <- Zle_Qle; lia).
      lra. }
    pose proof (taller_close _ _ _ _ Ph Pvi Eri Erp Hb) as Hclose.
    assert (Ex : (inject_Z height * inject_Z image_width / inject_Z image_height
                  == inject_Z height * (inject_Z image_width / inject_Z image_height))%Q)
      by (field; lra).
    rewrite Ex. lra.
Qed.

(** X8. The aspect ratio is kept up to one pixel.  For sizes between 1
    and [2^31 - 1], the side of the scaled image that does not take the
    full canvas is the exact proportional length ([width * image_height /
    image_width], or [height * image_width / image_height]) cut to an
    integer: at most a thousandth of a pixel above it, and less than one
    pixel and a thousandth below. *)
Theorem scaled_size_proportional
    (image_width image_height width height : Z) :
  size image_width -> size image_height -> size width -> size height ->
  exists new_width new_height,
    scaled_size image_width image_height width height
    = Ok (new_width, new_height)
    /\ ((new_width = width
         /\ let exact := (inject_Z width * inject_Z image_height
                          / inject_Z image_width)%Q in
            (exact - (1001 # 1000) < inject_Z new_height
             <= exact + (1 # 1000))%Q)
        \/ (new_height = height
            /\ let exact := (inject_Z height * inject_Z image_width
                             / inject_Z image_height)%Q in
               (exact - (1001 # 1000) < inject_Z new_width
                <= exact + (1 # 1000))%Q)).
Proof. exact (scaled_size_close image_width image_height width height). Qed.

(** X9. The scaled image lies inside the canvas and spans its full width
    or its full height: for sizes between 1 and [2^31 - 1] the paste
    corner is not negative, the pasted box ends within the canvas, and one
    of the two offsets is 0. *)
Theorem scaled_image_inside_canvas
    (image_width image_height width height : Z) :
  size image_width -> size image_height -> size width -> size height ->
  exists new_width new_height x y,
    scaled_size image_width image_height width height
    = Ok (new_width, new_height)
    /\ paste_offset width height new_width new_height = (x, y)
    /\ 0 <= x /\ x + new_width <= width
    /\ 0 <= y /\ y + new_height <= height
    /\ (x = 0 \/ y = 0).
Proof.
  intros Hiw Hih Hw Hh.
  destruct (scaled_size_cases _ _ _ _ Hiw Hih Hw Hh)
    as (ri & rt & new_width & new_height & _ & _ & Hs & Hcase).
  exists new_width, new_height,
    ((width - new_width) / 2), ((height - new_height) / 2).
  split; [exact Hs|]. split; [reflexivity|].
  assert (Hbox : 0 <= new_width <= width /\ 0 <= new_height <= height
                 /\ (new_width = width \/ new_height = height)).
  { destruct (gt ri rt).
    - destruct Hcase as (-> & _ & Hn). lia.
    - destruct Hcase as (-> & _ & _ & Hn). lia. }
  pose proof (Z.div_mod (width - new_width) 2 ltac:(lia)).
  pose proof (Z.mod_pos_bound (width - new_width) 2 ltac:(lia)).
  pose proof (Z.div_mod (height - new_height) 2 ltac:(lia)).
  pose proof (Z.mod_pos_bound (height - new_height) 2 ltac:(lia)).
  destruct Hbox as (? & ? & [->| ->]).
  - replace (width - width) with 0 in * by lia. change (0 / 2) with 0 in *. lia.
  - replace (height - height) with 0 in * by lia. change (0 / 2) with 0 in *. lia.
Qed.

End ProportionFacts.

Lemma scaled_size_proportional_witness :
  exists new_width new_height,
    Design.scaled_size 1920 1080 4500 5400 = Py.Ok (new_width, new_height)
    /\ ((new_width = 4500%Z
         /\ let exact := (inject_Z 4500 * inject_Z 1080 / inject_Z 1920)%Q in
            (exact - (1001 # 1000) < inject_Z new_height
             <= exact + (1 # 1000))%Q)
        \/ (new_height = 5400%Z
            /\ let exact := (inject_Z 5400 * inject_Z 1920 / inject_Z 1080)%Q in
               (exact - (1001 # 1000) < inject_Z new_width
                <= exact + (1 # 1000))%Q)).
Proof.
  apply (scaled_size_proportional 1920 1080 4500 5400); lia.
Defined.

Lemma scaled_image_inside_canvas_witness :
  exists new_width new_height x y,
    Design.scaled_size 1080 1920 4500 5400 = Py.Ok (new_width, new_height)
    /\ Design.paste_offset 4500 5400 new_width new_height = (x, y)
    /\ (0 <= x /\ x + new_width <= 4500
        /\ 0 <= y /\ y + new_height <= 5400
        /\ (x = 0 \/ y = 0))%Z.
Proof.
  apply (scaled_image_inside_canvas 1080 1920 4500 5400); lia.
Defined.

(** ** resize_for_print: when a canvas is returned *)

Section ReturnFacts.
Import Py Float Design.
Open Scope Z_scope.

Variable core : PIL.core.

#[local] Abbreviation size z := (1 <= z < 2 ^ 31).


End ReturnFacts.


(** ** process_trend: what a run leaves behind *)

Section RunFacts.
Import Py Measures Design.
Open Scope Z_scope.
Open Scope list_scope.

Variable core : PIL.core.
Variable world : env.

#[local] Abbreviation trace := (list (event PIL.image)).

Lemma saved_app (a b : trace) : saved (a ++ b) = saved a ++ saved b.
Proof.
  induction a as [|[k|s|p i] a IH]; cbn [app saved]; [reflexivity| | |];
    now rewrite IH.
Qed.

(** The retry loop saves nothing. *)
Lemma attempts_save_nothing (service : option string -> string -> Z -> result PIL.image)
    (hf_token : option string) (prompt : string) (retries : Z)
    (todo : list Z) (w : trace) :
  exists out new,
    Retry.attempts service hf_token prompt retries todo w = (out, w ++ new)
    /\ saved new = [].
Proof.
  revert w; induction todo as [|k rest IH]; intros w.
  - exists (Ok None), []. now rewrite app_nil_r.
  - cbn [Retry.attempts]. unfold bind at 1.
    assert (H1 : exists out1 new1,
               Retry.attempt_once service hf_token prompt retries k w
               = (out1, w ++ new1) /\ saved new1 = []).
    { unfold Retry.attempt_once, try_except, Retry.text_to_image, sleep,
        bind, emit, lift, ret.
      destruct (service (Retry.client_token hf_token) prompt k) as [image|e].
      - now exists (Ok (Some (Some image))), [Attempt k].
      - destruct (is_Exception e); [|now exists (Raise e), [Attempt k]].
        destruct (Retry.classify (str e)).
        + exists (Ok None), [Attempt k; Sleep (60 * (k + 1))].
          now rewrite <- app_assoc.
        + exists (Ok None), [Attempt k; Sleep 60]. now rewrite <- app_assoc.
        + now exists (Ok (Some None)), [Attempt k].
        + destruct (k <? retries - 1).
          * exists (Ok None), [Attempt k; Sleep 10]. now rewrite <- app_assoc.
          * now exists (Ok None), [Attempt k]. }
    destruct H1 as (out1 & new1 & -> & S1).
    destruct out1 as [[out|]|e].
    + now exists (Ok out), new1.
    + destruct (IH (w ++ new1)) as (r & new & -> & S).
      exists r, (new1 ++ new). rewrite app_assoc, saved_app, S1, S. now split.
    + now exists (Raise e), new1.
Qed.

(** What one run of the pipeline does to the trace: it makes at most three
    calls of the service, sleeps at most 360 seconds, and either saves
    nothing and returns no path, or saves one file and returns its path. *)
Lemma process_trend_outcome (trend style : string) (remove_bg resize : bool)
    (hf_token : option string) (w : trace) :
  exists out new,
    process_trend core world trend style remove_bg resize hf_token w
    = (out, w ++ new)
    /\ 0 <= attempts_made new <= 3
    /\ 0 <= seconds_slept new <= 360
    /\ ((saved new = [] /\ forall path, out <> Ok (Some path))
        \/ exists image,
             out = Ok (Some (output_path_of world trend))
             /\ saved new = [(output_path_of world trend, image)]
             /\ (resize = true ->
                 exists source,
                   resize_for_print core source TSHIRT_WIDTH TSHIRT_HEIGHT
                   = Ok image)).
Proof.
  unfold process_trend. unfold bind at 1. unfold lift at 1.
  destruct (create_prompt world trend style) as [prompt|e].
  2:{ exists (Raise e), []. rewrite app_nil_r. cbn.
      repeat split; try lia. left. split; [reflexivity|discriminate]. }
  unfold bind at 1.
  destruct (attempts_cases PIL.image (service world) hf_token prompt 3 (range 3) w)
    as (r & new & E & A & S & _).
  { repeat constructor; lia. }
  destruct (attempts_save_nothing (service world) hf_token prompt 3 (range 3) w)
    as (r'' & new'' & E'' & Sv).
  rewrite E in E''.
  injection E'' as <- E''. apply app_inv_head in E''. subst new''.
  unfold Retry.generate_design. rewrite E.
  change (Z.of_nat (List.length (range 3))) with 3 in A.
  change (wait_budget (range 3)) with 360 in S.
  destruct r as [[image|]|e].
  2:{ exists (Ok None), new. unfold ret. repeat split; try lia.
      left. split; [exact Sv|discriminate]. }
  2:{ exists (Raise e), new. repeat split; try lia.
      left. split; [exact Sv|discriminate]. }
  unfold bind at 1.
  assert (Hbg : exists out1,
             post_remove_bg world remove_bg image (w ++ new) = (out1, w ++ new)).
  { unfold post_remove_bg. destruct remove_bg; [|now exists (Ok image)].
    unfold try_except, lift, ret.
    destruct (remove_background world image) as [image1|e]; eauto.
    destruct (is_Exception e); eauto. }
  destruct Hbg as [[image1|e] ->].
  2:{ exists (Raise e), new. repeat split; try lia.
      left. split; [exact Sv|discriminate]. }
  unfold bind at 1. unfold post_resize.
  assert (Hsave : forall image2,
            (resize = true ->
             exists source,
               resize_for_print core source TSHIRT_WIDTH TSHIRT_HEIGHT = Ok image2) ->
            exists out new0,
              save_design world trend image2 (w ++ new) = (out, w ++ new0)
              /\ 0 <= attempts_made new0 <= 3
              /\ 0 <= seconds_slept new0 <= 360
              /\ ((saved new0 = [] /\ forall path, out <> Ok (Some path))
                  \/ exists image,
                       out = Ok (Some (output_path_of world trend))
                       /\ saved new0 = [(output_path_of world trend, image)]
                       /\ (resize = true ->
                           exists source,
                             resize_for_print core source TSHIRT_WIDTH TSHIRT_HEIGHT
                             = Ok image))).
  { intros image2 Hsrc. unfold save_design, save, bind, lift, emit, ret.
    destruct (write_png world (output_path_of world trend) image2) as [[]|e].
    - exists (Ok (Some (output_path_of world trend))),
        (new ++ [Saved (output_path_of world trend) image2]).
      rewrite app_assoc, attempts_made_app, seconds_slept_app, saved_app, Sv.
      cbn. repeat split; try lia. right. exists image2. auto.
    - exists (Raise e), new. repeat split; try lia.
      left. split; [exact Sv|discriminate]. }
  destruct resize.
  - unfold lift.
    destruct (resize_for_print core (as_rgba core image1) TSHIRT_WIDTH TSHIRT_HEIGHT)
      as [canvas|e] eqn:Er.
    + apply Hsave. intros _. now exists (as_rgba core image1).
    + exists (Raise e), new. repeat split; try lia.
      left. split; [exact Sv|discriminate].
  - unfold ret. apply Hsave. discriminate.
Qed.

(** X11. [process_trend] returns a path exactly when it has written a
    file, and then it has written that one file, at that path, and nothing
    else; when it returns [None] or raises, it has written nothing. *)
Theorem process_trend_returns_what_it_saved
    (trend style : string) (remove_bg resize : bool)
    (hf_token : option string) (w : trace) :
  exists out new,
    process_trend core world trend style remove_bg resize hf_token w
    = (out, w ++ new)
    /\ ((saved new = [] /\ forall path, out <> Ok (Some path))
        \/ exists image,
             out = Ok (Some (output_path_of world trend))
             /\ saved new = [(output_path_of world trend, image)]).
Proof.
  destruct (process_trend_outcome trend style remove_bg resize hf_token w)
    as (out & new & E & _ & _ & [H|(image & Ho & Hs & _)]).
  - exists out, new. auto.
  - exists out, new. split; [exact E|]. right. now exists image.
Qed.

(** X12. With resizing enabled, every file that [process_trend] writes is
    a bitmap of 4500 x 5400 pixels in RGBA mode. *)
Theorem process_trend_saves_print_size
    (trend style : string) (remove_bg : bool)
    (hf_token : option string) (w : trace) :
  exists out new,
    process_trend core world trend style remove_bg true hf_token w
    = (out, w ++ new)
    /\ forall path image,
         In (path, image) (saved new) ->
         PIL.width image = 4500 /\ PIL.height image = 5400
         /\ PIL.mode image = PIL.RGBA.
Proof.
  destruct (process_trend_outcome trend style remove_bg true hf_token w)
    as (out & new & E & _ & _ & [[Hs _]|(image & _ & Hs & Hr)]);
    exists out, new; (split; [exact E|]); intros path image' Hin;
    rewrite Hs in Hin; [destruct Hin|destruct Hin as [Hin|[]]].
  injection Hin as <- <-.
  destruct (Hr eq_refl) as [source Hc].
  destruct (resize_for_print_inv core _ _ _ _ Hc)
    as (nw & nh & resized & blank & _ & _ & Hn & ->).
  destruct (new_blank _ _ _ _ _ Hn) as (Hbw & Hbh & Hbm & _).
  cbn [PIL.paste PIL.width PIL.height PIL.mode]. auto.
Qed.

End RunFacts.

(** In the sample world one file is written, of print size. *)
Example process_trend_saves_one_file :
  map fst (Measures.saved
             (snd (Design.process_trend Samples.nearest Samples.studio
                     "Cats" "vaporwave" true true None [])))
  = ["output/cats_20240101_120000.png"%string].
Proof. vm_compute. reflexivity. Qed.

(** ** auto_generate: the batch *)

Section BatchFacts.
Import Py Measures Design Batch.
Open Scope Z_scope.
Open Scope list_scope.

Variable core : PIL.core.
Variable mkdir : string -> result unit.
Variable py : Trends.pytrends.
Variable world_at : Z -> env.

#[local] Abbreviation trace := (list (event PIL.image)).

Lemma output_path_truthy (world : env) (trend : string) :
  truthy (Some (output_path_of world trend)) = true.
Proof. reflexivity. Qed.

(** The loop goes on whatever [Exception] an item raises; it adds to
    [generated] the paths of the files it writes, calls the service at most
    3 times per trend and sleeps at most 370 seconds per trend.  Only an
    exception that is not an [Exception] ends it early. *)
Lemma generate_from_outcome (style : string) (hf_token : option string)
    (total : Z) (trends : list Trends.trend) :
  forall (i : Z) (generated : list string) (w : trace),
  exists out new,
    generate_from core world_at style hf_token total i trends generated w
    = (out, w ++ new)
    /\ 0 <= attempts_made new <= 3 * Z.of_nat (List.length trends)
    /\ 0 <= seconds_slept new <= 370 * Z.of_nat (List.length trends)
    /\ (out = Ok (generated ++ map fst (saved new))
        \/ exists e, out = Raise e /\ is_Exception e = false).
Proof.
  induction trends as [|trend_data rest IH]; intros i generated w.
  - exists (Ok generated), []. cbn. rewrite !app_nil_r.
    repeat split; try lia. now left.
  - cbn [generate_from]. unfold bind at 1. unfold try_except, bind at 1.
    destruct (process_trend_outcome core (world_at i) (Trends.query trend_data)
                style true true hf_token w)
      as (out1 & new1 & -> & A1 & S1 & Hcase).
    assert (Hstep : forall generated1 (new2 : trace),
              generated1 = generated ++ map fst (saved (new1 ++ new2)) ->
              attempts_made new2 = 0 -> 0 <= seconds_slept new2 <= 10 ->
              exists out new,
                generate_from core world_at style hf_token total (i + 1) rest
                  generated1 ((w ++ new1) ++ new2)
                = (out, w ++ new)
                /\ 0 <= attempts_made new
                   <= 3 * Z.of_nat (List.length (trend_data :: rest))
                /\ 0 <= seconds_slept new
                   <= 370 * Z.of_nat (List.length (trend_data :: rest))
                /\ (out = Ok (generated ++ map fst (saved new))
                    \/ exists e, out = Raise e /\ is_Exception e = false)).
    { intros generated1 new2 -> A2 S2.
      destruct (IH (i + 1) (generated ++ map fst (saved (new1 ++ new2)))
                  ((w ++ new1) ++ new2)) as (out & new3 & -> & A3 & S3 & H3).
      exists out, ((new1 ++ new2) ++ new3).
      rewrite !attempts_made_app, !seconds_slept_app, <- !app_assoc.
      cbn [List.length]. split; [reflexivity|]. split; [lia|]. split; [lia|].
      destruct H3 as [->|H3]; [left|now right].
      now rewrite !saved_app, !map_app, <- !app_assoc. }
    assert (Hwait : forall generated1,
              generated1 = generated ++ map fst (saved new1) ->
              exists out new,
                ((if i <? total then sleep 10 else ret tt) ;;;
                 generate_from core world_at style hf_token total (i + 1) rest
                   generated1)%py (w ++ new1)
                = (out, w ++ new)
                /\ 0 <= attempts_made new
                   <= 3 * Z.of_nat (List.length (trend_data :: rest))
                /\ 0 <= seconds_slept new
                   <= 370 * Z.of_nat (List.length (trend_data :: rest))
                /\ (out = Ok (generated ++ map fst (saved new))
                    \/ exists e, out = Raise e /\ is_Exception e = false)).
    { intros generated1 ->. unfold bind. destruct (i <? total).
      - unfold sleep, emit. apply (Hstep _ [Sleep 10]).
        + rewrite saved_app. cbn. now rewrite app_nil_r.
        + reflexivity.
        + cbn. lia.
      - unfold ret. rewrite <- (app_nil_r (w ++ new1)). apply (Hstep _ []).
        + now rewrite app_nil_r.
        + reflexivity.
        + cbn. lia. }
    destruct Hcase as [[Sv Hno]|(image & -> & Sv & _)].
    + destruct out1 as [[path|]|e].
      * exfalso. now apply (Hno path).
      * unfold ret. cbn [truthy]. apply Hwait. rewrite Sv. cbn. now rewrite app_nil_r.
      * destruct (is_Exception e) eqn:Ee.
        -- unfold ret. rewrite <- (app_nil_r (w ++ new1)). apply (Hstep _ []).
           ++ now rewrite app_nil_r, Sv, app_nil_r.
           ++ reflexivity.
           ++ cbn. lia.
        -- exists (Raise e), new1. cbn [List.length].
           split; [reflexivity|]. split; [lia|]. split; [lia|].
           right. now exists e.
    + unfold ret. rewrite output_path_truthy. apply Hwait. now rewrite Sv.
Qed.

(** The whole call. *)
Lemma auto_generate_outcome (count : Z) (style region : string)
    (hf_token : option string) (w : trace) :
  (exists e,
     auto_generate core mkdir py world_at count style region hf_token w
     = (Raise e, w)
     /\ (mkdir OUTPUT_DIR = Raise e \/ mkdir CACHE_DIR = Raise e
         \/ Trends.get_trending_topics py region "now 1-H" count = Raise e))
  \/ (exists trends out new,
        Trends.get_trending_topics py region "now 1-H" count = Ok trends
        /\ auto_generate core mkdir py world_at count style region hf_token w
           = (out, w ++ new)
        /\ 0 <= attempts_made new <= 3 * Z.of_nat (List.length trends)
        /\ 0 <= seconds_slept new <= 370 * Z.of_nat (List.length trends)
        /\ (out = Ok (map fst (saved new))
            \/ exists e, out = Raise e /\ is_Exception e = false)).
Proof.
  unfold auto_generate, ensure_directories, bind, lift.
  destruct (mkdir OUTPUT_DIR) as [[]|e]; [|left; exists e; auto].
  destruct (mkdir CACHE_DIR) as [[]|e]; [|left; exists e; auto].
  destruct (Trends.get_trending_topics py region "now 1-H" count)
    as [trends|e] eqn:Et.
  2:{ left. exists e. auto. }
  right. exists trends. destruct trends as [|t rest].
  - exists (Ok []), []. rewrite app_nil_r. cbn.
    repeat split; try reflexivity; try lia. now left.
  - destruct (generate_from_outcome style hf_token
                (Z.of_nat (List.length (t :: rest))) (t :: rest) 1 [] w)
      as (out & new & E & A & S & H).
    exists out, new. split; [reflexivity|]. split; [exact E|].
    split; [assumption|]. split; [assumption|exact H].
Qed.

(** X13. A failure of a single item never leaves [auto_generate]: an
    exception of class [Exception] leaves the call only when creating one
    of the two directories or building the trends client raised it, and
    then no service call, no sleep and no file came before it. *)
Theorem auto_generate_raises_only_at_start (count : Z) (style region : string)
    (hf_token : option string) (w w' : trace) (e : exn) :
  auto_generate core mkdir py world_at count style region hf_token w
  = (Raise e, w') ->
  is_Exception e = true ->
  w' = w
  /\ (mkdir OUTPUT_DIR = Raise e \/ mkdir CACHE_DIR = Raise e
      \/ Trends.TrendReq py = Raise e).
Proof.
  intros H He.
  destruct (auto_generate_outcome count style region hf_token w)
    as [(e0 & E & Hwhy)|(trends & out & new & _ & E & _ & _ & Hout)];
    rewrite E in H.
  - injection H as -> ->. split; [reflexivity|].
    destruct Hwhy as [Hm|[Hm|Ht]]; [now left|now right; left|].
    right; right.
    destruct (get_trending_topics_raises _ _ _ _ _ Ht) as [Hc|(_ & _ & Hn)];
      [exact Hc|congruence].
  - injection H as -> _.
    destruct Hout as [Hout|(e0 & [= <-] & Hn)]; [discriminate|congruence].
Qed.

(** X14. The list that [auto_generate] returns is the list of the files
    written during the call, in the order they were written. *)
Theorem auto_generate_returns_written_files (count : Z) (style region : string)
    (hf_token : option string) (w : trace) (paths : list string) :
  fst (auto_generate core mkdir py world_at count style region hf_token w)
  = Ok paths ->
  exists new,
    snd (auto_generate core mkdir py world_at count style region hf_token w)
    = w ++ new
    /\ paths = map fst (saved new).
Proof.
  intros H.
  destruct (auto_generate_outcome count style region hf_token w)
    as [(e0 & E & _)|(trends & out & new & _ & E & _ & _ & Hout)];
    rewrite E in *; [discriminate|].
  cbn [fst snd] in *. subst out.
  destruct Hout as [[= ->]|(e0 & [=] & _)]. now exists new.
Qed.

(** X15. A batch over [n] trends calls the inference service at most
    [3 * n] times and sleeps at most [370 * n] seconds. *)
Theorem auto_generate_budget (count : Z) (style region : string)
    (hf_token : option string) (w : trace) (trends : list Trends.trend) :
  Trends.get_trending_topics py region "now 1-H" count = Ok trends ->
  exists new,
    snd (auto_generate core mkdir py world_at count style region hf_token w)
    = w ++ new
    /\ 0 <= attempts_made new <= 3 * Z.of_nat (List.length trends)
    /\ 0 <= seconds_slept new <= 370 * Z.of_nat (List.length trends).
Proof.
  intros Ht.
  destruct (auto_generate_outcome count style region hf_token w)
    as [(e0 & E & _)|(trends' & out & new & Ht' & E & A & S & _)]; rewrite E.
  - exists []. rewrite app_nil_r. cbn [snd attempts_made seconds_slept].
    repeat split; lia.
  - rewrite Ht in Ht'. injection Ht' as <-. now exists new.
Qed.

End BatchFacts.

(** ** PrintfulUploader: headers, product type, missing URL *)

Section UploaderFacts.
Import Py Printful Mockup.
Open Scope string_scope.
Open Scope list_scope.

Variable world : env.

Lemma lookup_set_item_other (key other value : string) (d : list (string * string)) :
  String.eqb key other = false ->
  lookup other (set_item key value d) = lookup other d.
Proof.
  intros Hne. induction d as [|[k v] d IH]; cbn [set_item lookup].
  - now rewrite Hne.
  - destruct (String.eqb k key) eqn:Ek.
    + apply String.eqb_eq in Ek. subst k. cbn [lookup]. now rewrite Hne.
    + cbn [lookup]. now rewrite IH.
Qed.

Lemma lookup_set_item_same (key value : string) (d : list (string * string)) :
  lookup key (set_item key value d) = Some value.
Proof.
  induction d as [|[k v] d IH]; cbn [set_item lookup].
  - now rewrite String.eqb_refl.
  - destruct (String.eqb k key) eqn:Ek; cbn [lookup]; now rewrite Ek.
Qed.

(** What [_request] and [upload_file] do to the object and send. *)
Lemma request_effect (method endpoint : string) (data : option json) (self : uploader) :
  exists new,
    snd (_request world method endpoint data self)
    = {| api_key := api_key self; headers := headers self;
         sent := sent self ++ new |}
    /\ (List.length new <= 1)%nat
    /\ Forall (fun r => req_headers r = headers self
                        /\ req_url r = (BASE_URL ++ endpoint)%string) new.
Proof.
  assert (Hnone : exists new : list request,
             self = {| api_key := api_key self; headers := headers self;
                       sent := sent self ++ new |}
             /\ (List.length new <= 1)%nat
             /\ Forall (fun r => req_headers r = headers self
                                 /\ req_url r = (BASE_URL ++ endpoint)%string) new).
  { exists []. rewrite app_nil_r. destruct self. repeat split; auto. }
  unfold _request.
  repeat match goal with
         | |- context [if ?b then _ else _] => destruct b
         end; try exact Hnone;
    (eexists; split; [reflexivity|]; split; [cbn; lia|]);
    repeat constructor.
Qed.

Lemma upload_file_effect (file_path : string) (self : uploader) :
  exists new,
    snd (upload_file world file_path self)
    = {| api_key := api_key self; headers := headers self;
         sent := sent self ++ new |}
    /\ (List.length new <= 1)%nat
    /\ Forall (fun r => req_headers r = headers self
                        /\ req_url r = (BASE_URL ++ "/files")%string) new.
Proof.
  unfold upload_file.
  destruct (read_bytes world file_path) as [contents|e].
  - match goal with
    | |- context [_request world ?m ?ep ?d self] =>
        destruct (request_effect m ep d self) as (new & E & L & F);
        destruct (_request world m ep d self) as [[result|e] self']
    end; cbn [snd] in *; exists new; auto.
  - exists []. rewrite app_nil_r. destruct self. repeat split; auto.
Qed.

(** What a call of [create_product] does to the object and sends: the
    headers change at most by the store id, and every request carries the
    headers of the moment. *)
Lemma create_product_effect
    (design_file title : string) (description : option string)
    (product_type : string) (store_id : option Z) (price : Float.float)
    (self : uploader) :
  let stored :=
    match store_id with
    | Some id => if negb (id =? 0)%Z
                 then set_item "X-PF-Store-Id" (str_int id) (headers self)
                 else headers self
    | None => headers self
    end in
  exists out self' new,
    create_product world design_file title description product_type
      store_id price self = (out, self')
    /\ api_key self' = api_key self
    /\ sent self' = sent self ++ new
    /\ (headers self' = headers self \/ headers self' = stored)
    /\ ((exists info, out = Ok info) -> headers self' = stored)
    /\ Forall (fun r => req_headers r = headers self \/ req_headers r = stored) new.
Proof.
  intros stored. unfold create_product, create_product_with.
  destruct (upload_file_effect design_file self) as (new1 & E1 & _ & F1).
  destruct (upload_file world design_file self) as [[file_info|e] self1];
    cbn [snd] in E1; subst self1.
  2:{ do 3 eexists. split; [reflexivity|]. cbn [api_key sent headers].
      repeat split; auto.
      - intros [info H]; discriminate.
      - eapply Forall_impl; [|exact F1]. cbn. intros r [H _]. now left. }
  assert (Hstop : forall (e : exn),
    exists out self' new,
      (@Raise json e,
       {| api_key := api_key self; headers := headers self;
          sent := sent self ++ new1 |}) = (out, self')
      /\ api_key self' = api_key self
      /\ sent self' = sent self ++ new
      /\ (headers self' = headers self \/ headers self' = stored)
      /\ ((exists info, out = Ok info) -> headers self' = stored)
      /\ Forall (fun r => req_headers r = headers self \/ req_headers r = stored) new).
  { intros e. do 3 eexists. split; [reflexivity|]. cbn [api_key sent headers].
    repeat split; auto.
    - intros [info H]; discriminate.
    - eapply Forall_impl; [|exact F1]. cbn. intros r [H _]. now left. }
  destruct (get file_info "preview_url" JNone) as [preview_url|e1];
    destruct (get file_info "url" JNone) as [url|e2];
    destruct (get file_info "id" JNone) as [file_id|e3]; try apply Hstop.
  destruct (negb (truthy (or_else preview_url url))); [apply Hstop|].
  destruct (get_or_unisex PRODUCTS product_type) as [product_id|e4];
    destruct (get_or_unisex VARIANTS product_type) as [variants|e5];
    try apply Hstop.
  match goal with
  | |- context [_request world ?m ?ep ?d ?s] =>
      remember s as s0 eqn:Es0;
      assert (Hh : headers s0 = stored)
        by (subst s0 stored; destruct store_id as [id|];
            [destruct (negb (id =? 0)%Z)|]; reflexivity);
      assert (Hk : api_key s0 = api_key self)
        by (subst s0; destruct store_id as [id|];
            [destruct (negb (id =? 0)%Z)|]; reflexivity);
      assert (Hs : sent s0 = sent self ++ new1)
        by (subst s0; destruct store_id as [id|];
            [destruct (negb (id =? 0)%Z)|]; reflexivity);
      clear Es0;
      destruct (request_effect m ep d s0) as (new2 & E2 & _ & F2);
      destruct (_request world m ep d s0) as [[result|e6] self2]
  end; cbn [snd] in E2; subst self2.
  all: do 3 eexists; (split; [reflexivity|]); cbn [api_key sent headers];
    rewrite Hk, Hs, Hh, <- app_assoc;
    (split; [reflexivity|]); (split; [reflexivity|]);
    (split; [now right|]); (split; [reflexivity|]);
    apply Forall_app; split;
    [ eapply Forall_impl; [|exact F1]; cbn; intros r [H _]; now left
    | eapply Forall_impl; [|exact F2]; cbn; intros r [H _]; right;
      now rewrite H, Hh ].
Qed.

(** X16. An uploader built by [__init__] sends its key with every request
    of [create_product]: each request carries the header
    [Authorization: Bearer <key>], and the key is never replaced. *)
Theorem create_product_sends_authorization
    (key environ : option string) (self : uploader)
    (design_file title : string) (description : option string)
    (product_type : string) (store_id : option Z) (price : Float.float) :
  init key environ = Ok self ->
  exists out self' new,
    create_product world design_file title description product_type
      store_id price self = (out, self')
    /\ sent self' = sent self ++ new
    /\ Forall (fun r => lookup "Authorization" (req_headers r)
                        = Some ("Bearer " ++ api_key self)%string) new
    /\ lookup "Authorization" (headers self')
       = Some ("Bearer " ++ api_key self)%string.
Proof.
  intros Hinit.
  assert (Hauth : lookup "Authorization" (headers self)
                  = Some ("Bearer " ++ api_key self)%string).
  { unfold init in Hinit.
    destruct (match key with
              | Some k => if String.eqb k "" then environ else Some k
              | None => environ
              end) as [k|]; [|discriminate].
    destruct (String.eqb k ""); [discriminate|]. now injection Hinit as <-. }
  destruct (create_product_effect design_file title description product_type
              store_id price self) as (out & self' & new & E & _ & Es & Hh & _ & F).
  assert (Hstored : forall h,
            h = headers self
            \/ h = match store_id with
                   | Some id => if negb (id =? 0)%Z
                                then set_item "X-PF-Store-Id" (str_int id) (headers self)
                                else headers self
                   | None => headers self
                   end ->
            lookup "Authorization" h = Some ("Bearer " ++ api_key self)%string).
  { intros h [->| ->]; [exact Hauth|].
    destruct store_id as [id|]; [destruct (negb (id =? 0)%Z)|]; try exact Hauth.
    now rewrite lookup_set_item_other. }
  exists out, self', new. split; [exact E|]. split; [exact Es|]. split.
  - eapply Forall_impl; [|exact F]. cbn. intros r Hr. now apply Hstored.
  - now apply Hstored.
Qed.

(** X17. The product type changes nothing: whatever [product_type] is,
    [create_product] sends the same requests and gives the same outcome
    (the product id is looked up and not used, and the only variant table
    is the one of the unisex t-shirt). *)
Theorem create_product_ignores_product_type
    (design_file title : string) (description : option string)
    (product_type other_type : string) (store_id : option Z)
    (price : Float.float) (self : uploader) :
  create_product world design_file title description product_type
    store_id price self
  = create_product world design_file title description other_type
      store_id price self.
Proof.
  assert (Hv : forall p, get_or_unisex VARIANTS p
                         = get_or_unisex VARIANTS "unisex_tshirt").
  { intros p. unfold get_or_unisex, VARIANTS. cbn [lookup].
    rewrite String.eqb_refl. destruct (String.eqb "unisex_tshirt" p); reflexivity. }
  assert (Hp : forall p, exists id, get_or_unisex PRODUCTS p = Ok id).
  { intros p. unfold get_or_unisex, PRODUCTS. cbn [lookup String.eqb Ascii.eqb Bool.eqb].
    eexists. reflexivity. }
  unfold create_product, create_product_with.
  rewrite (Hv product_type), (Hv other_type).
  destruct (Hp product_type) as [id1 ->]. destruct (Hp other_type) as [id2 ->].
  reflexivity.
Qed.

(** X18. Without a file URL no product is created: when the upload gives
    file information whose [preview_url] and [url] are both missing or
    empty, [create_product] raises its [ValueError] right after the
    upload, with nothing sent but the upload. *)
Theorem create_product_needs_file_url
    (design_file title : string) (description : option string)
    (product_type : string) (store_id : option Z) (price : Float.float)
    (self self1 : uploader) (entries : list (string * json)) :
  upload_file world design_file self = (Ok (JDict entries), self1) ->
  (forall v, lookup "preview_url" entries = Some v -> truthy v = false) ->
  (forall v, lookup "url" entries = Some v -> truthy v = false) ->
  create_product world design_file title description product_type
    store_id price self
  = (Raise (ValueError "Failed to get file URL from Printful"), self1).
Proof.
  intros Hup Hp Hu. unfold create_product, create_product_with. rewrite Hup.
  cbn [get].
  assert (Hfalse : truthy (or_else
                     match lookup "preview_url" entries with Some v => v | None => JNone end
                     match lookup "url" entries with Some v => v | None => JNone end)
                   = false).
  { unfold or_else.
    destruct (lookup "preview_url" entries) as [a|] eqn:Ea;
      destruct (lookup "url" entries) as [b|] eqn:Eb;
      rewrite ?(Hp a eq_refl); rewrite ?(Hu b eq_refl); cbn [truthy];
      rewrite ?(Hu b eq_refl); reflexivity. }
  now rewrite Hfalse.
Qed.

(** X19. The store id sticks to the uploader: after a call that created
    a product for store [id], every request of a later call made without
    a store id still carries the header [X-PF-Store-Id: id]. *)
Theorem create_product_store_id_persists
    (file1 title1 : string) (description1 : option string) (type1 : string)
    (id : Z) (price1 : Float.float)
    (file2 title2 : string) (description2 : option string) (type2 : string)
    (price2 : Float.float)
    (self self1 : uploader) (info : json) :
  id <> 0%Z ->
  create_product world file1 title1 description1 type1 (Some id) price1 self
  = (Ok info, self1) ->
  exists out self2 new,
    create_product world file2 title2 description2 type2 None price2 self1
    = (out, self2)
    /\ sent self2 = sent self1 ++ new
    /\ Forall (fun r => lookup "X-PF-Store-Id" (req_headers r)
                        = Some (str_int id)) new.
Proof.
  intros Hid H1.
  destruct (create_product_effect file1 title1 description1 type1 (Some id)
              price1 self) as (out1 & s1 & new1 & E1 & _ & _ & _ & Hok & _).
  rewrite H1 in E1. injection E1 as <- <-.
  specialize (Hok (ex_intro _ info eq_refl)). cbv zeta in Hok.
  replace (negb (id =? 0)%Z) with true in Hok
    by (symmetry; apply negb_true_iff, Z.eqb_neq; exact Hid).
  destruct (create_product_effect file2 title2 description2 type2 None
              price2 self1) as (out & self2 & new & E & _ & Es & _ & _ & F).
  exists out, self2, new. split; [exact E|]. split; [exact Es|].
  eapply Forall_impl; [|exact F]. cbn.
  intros r [-> | ->]; rewrite Hok; apply lookup_set_item_same.
Qed.

End UploaderFacts.

Lemma create_product_sends_authorization_witness :
  exists out self' new,
    Printful.create_product Samples.shop "output/cats.png" "Cats 0101" None
      "unisex_tshirt" (Some 42%Z) (Float.of_int 25) Samples.fresh = (out, self')
    /\ Printful.sent self' = Printful.sent Samples.fresh ++ new
    /\ Forall (fun r => Printful.lookup "Authorization" (Printful.req_headers r)
                        = Some "Bearer key"%string) new
    /\ Printful.lookup "Authorization" (Printful.headers self')
       = Some "Bearer key"%string.
Proof.
  apply (create_product_sends_authorization Samples.shop (Some "key"%string) None
           Samples.fresh).
  reflexivity.
Defined.

Lemma create_product_needs_file_url_witness :
  Printful.create_product MoreSamples.no_url "output/cats.png" "Cats 0101" None
    "unisex_tshirt" None (Float.of_int 25) Samples.fresh
  = (Py.Raise (Py.ValueError "Failed to get file URL from Printful"),
     snd (Printful.upload_file MoreSamples.no_url "output/cats.png" Samples.fresh)).
Proof.
  apply (create_product_needs_file_url MoreSamples.no_url "output/cats.png"
           "Cats 0101" None "unisex_tshirt" None (Float.of_int 25) Samples.fresh
           (snd (Printful.upload_file MoreSamples.no_url "output/cats.png"
                   Samples.fresh))
           [ ("id", Printful.JInt 501); ("url", Printful.JStr "") ]%string).
  - reflexivity.
  - intros v H. discriminate H.
  - intros v H. injection H as <-. reflexivity.
Defined.

Lemma create_product_store_id_persists_witness :
  exists out self2 new,
    Printful.create_product Samples.shop "output/dogs.png" "Dogs 0101" None
      "hoodie" None (Float.of_int 25)
      (snd (Printful.create_product Samples.shop "output/cats.png" "Cats 0101"
              None "unisex_tshirt" (Some 42%Z) (Float.of_int 25) Samples.fresh))
    = (out, self2)
    /\ Printful.sent self2
       = Printful.sent
           (snd (Printful.create_product Samples.shop "output/cats.png"
                   "Cats 0101" None "unisex_tshirt" (Some 42%Z)
                   (Float.of_int 25) Samples.fresh)) ++ new
    /\ Forall (fun r => Printful.lookup "X-PF-Store-Id" (Printful.req_headers r)
                        = Some (Printful.str_int 42)) new.
Proof.
  apply (create_product_store_id_persists Samples.shop
           "output/cats.png" "Cats 0101" None "unisex_tshirt" 42
           (Float.of_int 25) "output/dogs.png" "Dogs 0101" None "hoodie"
           (Float.of_int 25) Samples.fresh _
           (Printful.JDict
              [ ("id", Printful.JInt 501);
                ("url", Printful.JStr "https://files.example/501.png") ]%string)).
  - discriminate.
  - reflexivity.
Defined.

Lemma auto_generate_raises_only_at_start_witness :
  ([] : list (Py.event PIL.image)) = []
  /\ (MoreSamples.read_only Design.OUTPUT_DIR
        = Py.Raise {| Py.exn_class := "PermissionError";
                      Py.exn_message := "Permission denied";
                      Py.is_Exception := true |}
      \/ MoreSamples.read_only Batch.CACHE_DIR
        = Py.Raise {| Py.exn_class := "PermissionError";
                      Py.exn_message := "Permission denied";
                      Py.is_Exception := true |}
      \/ Trends.TrendReq MoreSamples.online
        = Py.Raise {| Py.exn_class := "PermissionError";
                      Py.exn_message := "Permission denied";
                      Py.is_Exception := true |}).
Proof.
  apply (auto_generate_raises_only_at_start Samples.nearest MoreSamples.read_only
           MoreSamples.online (fun _ => Samples.studio) 2 "neon" "US" None [] []);
    reflexivity.
Defined.

Lemma auto_generate_returns_written_files_witness :
  exists new,
    snd (Batch.auto_generate Samples.nearest MoreSamples.writable
           MoreSamples.online (fun _ => Samples.studio) 2 "neon" "US" None [])
    = [] ++ new
    /\ [ "output/world_cup_20240101_120000.png";
         "output/solar_eclipse_20240101_120000.png" ]%string
       = map fst (Measures.saved new).
Proof.
  apply (auto_generate_returns_written_files Samples.nearest MoreSamples.writable
           MoreSamples.online (fun _ => Samples.studio) 2 "neon" "US" None []).
  vm_compute. reflexivity.
Defined.

Lemma auto_generate_budget_witness :
  exists new,
    snd (Batch.auto_generate Samples.nearest MoreSamples.writable
           MoreSamples.online (fun _ => Samples.studio) 2 "neon" "US" None [])
    = [] ++ new
    /\ (0 <= Measures.attempts_made new <= 3 * Z.of_nat 2
        /\ 0 <= Measures.seconds_slept new <= 370 * Z.of_nat 2)%Z.
Proof.
  apply (auto_generate_budget Samples.nearest MoreSamples.writable
           MoreSamples.online (fun _ => Samples.studio) 2 "neon" "US" None []
           [ {| Trends.query := "World Cup"; Trends.value := 100 |};
             {| Trends.query := "Solar Eclipse"; Trends.value := 95 |} ]).
  reflexivity.
Defined.

(** ** create_mockup: the polling loop *)

Section MockupFacts.
Import Py Printful Mockup.
Open Scope Z_scope.
Open Scope list_scope.

Variable world : env.
Variable repr : json -> string.

(** The loop polls at most [polls] times and sleeps 2 seconds before each
    poll. *)
Lemma poll_bounded (task_key : json) (polls : nat) :
  forall (slept : Z) (self : uploader),
  exists out self' new k,
    poll world repr task_key polls slept self = (out, self', slept + 2 * k)
    /\ sent self' = sent self ++ new
    /\ 0 <= k <= Z.of_nat polls
    /\ Z.of_nat (List.length new) <= k.
Proof.
  induction polls as [|polls IH]; intros slept self.
  - exists (Raise (TimeoutError "Mockup generation timed out")), self, [], 0.
    cbn [poll]. rewrite Z.add_0_r, app_nil_r. repeat split; cbn; lia.
  - cbn [poll].
    match goal with
    | |- context [_request world ?m ?ep ?d self] =>
        destruct (request_effect world m ep d self) as (new1 & E1 & L1 & _);
        destruct (_request world m ep d self) as [[status|e] self1]
    end; cbn [snd] in E1; subst self1.
    + destruct (read_status status) as [r|].
      * do 2 eexists. exists new1, 1. split; [reflexivity|]. cbn [sent].
        repeat split; lia.
      * destruct (IH (slept + 2)
                    {| api_key := api_key self; headers := headers self;
                       sent := sent self ++ new1 |})
          as (out & self' & new & k & E & Es & Hk & Hl).
        exists out, self', (new1 ++ new), (1 + k).
        rewrite E. cbn [sent] in Es.
        rewrite Es, length_app, <- app_assoc.
        split; [f_equal; lia|]. repeat split; lia.
    + do 2 eexists. exists new1, 1. split; [reflexivity|]. cbn [sent].
      repeat split; lia.
Qed.

(** X20. [create_mockup] is bounded: it sends at most 32 requests (the
    upload, the task, and at most 30 polls) and sleeps 2 seconds before
    each poll, 60 seconds at most, whatever the server answers. *)
Theorem create_mockup_bounded (design_file product_type : string)
    (self : uploader) :
  exists out self' new k,
    create_mockup world repr design_file product_type self
    = (out, self', 2 * k)
    /\ sent self' = sent self ++ new
    /\ 0 <= k <= 30
    /\ Z.of_nat (List.length new) <= 2 + k.
Proof.
  unfold create_mockup.
  destruct (upload_file_effect world design_file self) as (new1 & E1 & L1 & _).
  destruct (upload_file world design_file self) as [[file_info|e] self1];
    cbn [snd] in E1; subst self1.
  2:{ do 2 eexists. exists new1, 0. split; [reflexivity|]. cbn [sent].
      repeat split; lia. }
  set (self1 := {| api_key := api_key self; headers := headers self;
                   sent := sent self ++ new1 |}).
  assert (Hstop : forall (out : result json),
            exists out' self' new k,
              (out, self1, 0) = (out', self', 2 * k)
              /\ sent self' = sent self ++ new
              /\ 0 <= k <= 30 /\ Z.of_nat (List.length new) <= 2 + k).
  { intros out. exists out, self1, new1, 0. split; [reflexivity|].
    cbn [sent self1]. repeat split; lia. }
  destruct (get file_info "url" JNone) as [file_url|e]; [|apply Hstop].
  destruct (get_or_unisex PRODUCTS product_type) as [product_id|e]; [|apply Hstop].
  match goal with
  | |- context [_request world ?m ?ep ?d self1] =>
      destruct (request_effect world m ep d self1) as (new2 & E2 & L2 & _);
      destruct (_request world m ep d self1) as [[answer|e] self2]
  end; cbn [snd] in E2; subst self2; cbn [sent api_key headers self1].
  2:{ do 2 eexists. exists (new1 ++ new2), 0. split; [reflexivity|]. cbn [sent].
      rewrite length_app, <- app_assoc. repeat split; lia. }
  set (self2 := {| api_key := api_key self; headers := headers self;
                   sent := (sent self ++ new1) ++ new2 |}).
  assert (Hstop2 : forall (out : result json),
            exists out' self' new k,
              (out, self2, 0) = (out', self', 2 * k)
              /\ sent self' = sent self ++ new
              /\ 0 <= k <= 30 /\ Z.of_nat (List.length new) <= 2 + k).
  { intros out. exists out, self2, (new1 ++ new2), 0. split; [reflexivity|].
    cbn [sent self2]. rewrite length_app, <- app_assoc. repeat split; lia. }
  destruct (get answer "result" (JDict [])) as [res|e]; [|apply Hstop2].
  destruct (get res "task_key" JNone) as [task_key|e]; [|apply Hstop2].
  destruct (negb (truthy task_key)); [apply Hstop2|].
  destruct (poll_bounded task_key 30 0 self2)
    as (out & self' & new & k & E & Es & Hk & Hl).
  exists out, self', ((new1 ++ new2) ++ new), k.
  rewrite E, Es. cbn [sent self2]. rewrite !length_app, <- !app_assoc.
  split; [f_equal|]. repeat split; lia.
Qed.

End MockupFacts.

(** When the task stays pending, all 30 polls are made and the call ends
    with the timeout after 60 seconds. *)
Example create_mockup_times_out :
  let '(out, self', slept) :=
    Mockup.create_mockup MoreSamples.pending (fun _ => "?"%string)
      "output/cats.png" "unisex_tshirt" Samples.fresh in
  (out, List.length (Printful.sent self'), slept)
  = (Py.Raise (Mockup.TimeoutError "Mockup generation timed out"), 32%nat, 60%Z).
Proof. vm_compute. reflexivity. Qed.
